(** * update_fingerprints.py: the fingerprint cache of Axelrod-fingerprint

    A shallow embedding of [update_fingerprints.py] and the properties of
    its change-detection cache.

    - Python [str] values are lists of Unicode code points ([list Z]).
    - [hashlib.md5] is written out (RFC 1321) on lists of bytes, so that
      digests can be evaluated.
    - The [csv.reader] of the standard library is modelled by its state
      machine for the default (excel) dialect.
    - The files the script touches live in a [world]; the functions that
      touch them are state-and-exception computations [M]. *)

From Stdlib Require Import ZArith Lia List Ascii String DecimalString.
From stdpp Require Import base tactics option list gmap strings pretty.

Open Scope Z_scope.

(** ** Python strings *)

(** A Python [str]: its code points in order. *)
Abbreviation str := (list Z).

(** The [str] of an ASCII literal. *)
Definition pystr (s : string) : str :=
  map (fun a : ascii => Z.of_N (N_of_ascii a)) (list_ascii_of_string s).

(** [sep.join(parts)]. *)
Fixpoint join (sep : str) (parts : list str) : str :=
  match parts with
  | [] => []
  | [p] => p
  | p :: ps => p ++ sep ++ join sep ps
  end.

(** Iterating over a [str] yields its one-character substrings. *)
Definition chars (s : str) : list str := map (fun c => [c]) s.

Definition space : Z := 32.
Definition underscore : Z := 95.

(** [s.replace(old, new)] for one-character [old] and [new]. *)
Definition replace (old new : Z) (s : str) : str :=
  map (fun c => if Z.eqb c old then new else c) s.

(** ** Exceptions *)

Inductive exn : Type :=
| FileNotFoundError
| OSError
| TypeError
| AttributeError
| NameError
| IndexError
| UnicodeEncodeError
| csv_Error.

Inductive result (A : Type) : Type :=
| Ok (a : A)
| Raise (e : exn).
Arguments Ok {A} a.
Arguments Raise {A} e.

(** [isinstance(e, cls)] on the exceptions above: the only subclass
    among them is [FileNotFoundError], a subclass of [OSError]. *)
Definition exn_eqb (e1 e2 : exn) : bool :=
  match e1, e2 with
  | FileNotFoundError, FileNotFoundError | OSError, OSError
  | TypeError, TypeError | AttributeError, AttributeError
  | NameError, NameError | IndexError, IndexError
  | UnicodeEncodeError, UnicodeEncodeError | csv_Error, csv_Error => true
  | _, _ => false
  end.

Definition isinstance (e cls : exn) : bool :=
  exn_eqb e cls
  || match e, cls with
     | FileNotFoundError, OSError => true
     | _, _ => false
     end.

Definition result_bind {A B} (r : result A) (k : A -> result B) : result B :=
  match r with
  | Ok a => k a
  | Raise e => Raise e
  end.

(** ** [str.encode('utf-8')] *)

Definition is_surrogate (c : Z) : bool := (0xD800 <=? c) && (c <=? 0xDFFF).

(** The UTF-8 bytes of one code point; [None] for a lone surrogate (and
    for an integer that is no code point at all). *)
Definition utf8_char (c : Z) : option (list Z) :=
  if c <? 0 then None
  else if c <? 0x80 then Some [c]
  else if c <? 0x800 then
    Some [Z.lor 0xC0 (Z.shiftr c 6); Z.lor 0x80 (Z.land c 0x3F)]
  else if c <? 0x10000 then
    if is_surrogate c then None
    else Some [Z.lor 0xE0 (Z.shiftr c 12);
               Z.lor 0x80 (Z.land (Z.shiftr c 6) 0x3F);
               Z.lor 0x80 (Z.land c 0x3F)]
  else if c <? 0x110000 then
    Some [Z.lor 0xF0 (Z.shiftr c 18);
          Z.lor 0x80 (Z.land (Z.shiftr c 12) 0x3F);
          Z.lor 0x80 (Z.land (Z.shiftr c 6) 0x3F);
          Z.lor 0x80 (Z.land c 0x3F)]
  else None.

Fixpoint utf8_bytes (s : str) : option (list Z) :=
  match s with
  | [] => Some []
  | c :: s' =>
      match utf8_char c, utf8_bytes s' with
      | Some b, Some bs => Some (b ++ bs)
      | _, _ => None
      end
  end.

Definition encode_utf8 (s : str) : result (list Z) :=
  match utf8_bytes s with
  | Some bs => Ok bs
  | None => Raise UnicodeEncodeError
  end.

(** ** [hashlib.md5] (RFC 1321) *)

Module MD5.

Definition w32 (x : Z) : Z := x mod 2 ^ 32.

Definition rotl (x c : Z) : Z :=
  w32 (Z.lor (Z.shiftl x c) (Z.shiftr x (32 - c))).

Definition not32 (x : Z) : Z := Z.lxor x 0xFFFFFFFF.

Definition S_table : list Z :=
  [7; 12; 17; 22; 7; 12; 17; 22; 7; 12; 17; 22; 7; 12; 17; 22;
   5; 9; 14; 20; 5; 9; 14; 20; 5; 9; 14; 20; 5; 9; 14; 20;
   4; 11; 16; 23; 4; 11; 16; 23; 4; 11; 16; 23; 4; 11; 16; 23;
   6; 10; 15; 21; 6; 10; 15; 21; 6; 10; 15; 21; 6; 10; 15; 21].

Definition K_table : list Z :=
  [0xd76aa478; 0xe8c7b756; 0x242070db; 0xc1bdceee;
   0xf57c0faf; 0x4787c62a; 0xa8304613; 0xfd469501;
   0x698098d8; 0x8b44f7af; 0xffff5bb1; 0x895cd7be;
   0x6b901122; 0xfd987193; 0xa679438e; 0x49b40821;
   0xf61e2562; 0xc040b340; 0x265e5a51; 0xe9b6c7aa;
   0xd62f105d; 0x02441453; 0xd8a1e681; 0xe7d3fbc8;
   0x21e1cde6; 0xc33707d6; 0xf4d50d87; 0x455a14ed;
   0xa9e3e905; 0xfcefa3f8; 0x676f02d9; 0x8d2a4c8a;
   0xfffa3942; 0x8771f681; 0x6d9d6122; 0xfde5380c;
   0xa4beea44; 0x4bdecfa9; 0xf6bb4b60; 0xbebfbc70;
   0x289b7ec6; 0xeaa127fa; 0xd4ef3085; 0x04881d05;
   0xd9d4d039; 0xe6db99e5; 0x1fa27cf8; 0xc4ac5665;
   0xf4292244; 0x432aff97; 0xab9423a7; 0xfc93a039;
   0x655b59c3; 0x8f0ccc92; 0xffeff47d; 0x85845dd1;
   0x6fa87e4f; 0xfe2ce6e0; 0xa3014314; 0x4e0811a1;
   0xf7537e82; 0xbd3af235; 0x2ad7d2bb; 0xeb86d391].

Definition state : Type := Z * Z * Z * Z.

Definition init : state := (0x67452301, 0xefcdab89, 0x98badcfe, 0x10325476).

(** The bytes of the padded message: a 1 bit, zeros up to 56 mod 64,
    then the bit length on 64 bits, little-endian. *)
Definition le_bytes (n : nat) (x : Z) : list Z :=
  map (fun i => Z.land (Z.shiftr x (8 * Z.of_nat i)) 0xFF) (seq 0 n).

Definition pad (msg : list Z) : list Z :=
  let len := Z.of_nat (length msg) in
  let zeros := Z.to_nat ((55 - len) mod 64) in
  msg ++ [0x80] ++ repeat 0 zeros ++ le_bytes 8 ((8 * len) mod 2 ^ 64).

Definition le_word (bs : list Z) : Z :=
  fold_right (fun b acc => b + 256 * acc) 0 bs.

(** Sixteen little-endian words of a 64-byte block. *)
Fixpoint words (n : nat) (block : list Z) : list Z :=
  match n with
  | O => []
  | S n' => le_word (take 4 block) :: words n' (drop 4 block)
  end.

Definition round (M : list Z) (st : state) (i : nat) : state :=
  let '(A, B, C, D) := st in
  let iz := Z.of_nat i in
  let '(F, g) :=
    if iz <? 16 then (Z.lor (Z.land B C) (Z.land (not32 B) D), iz)
    else if iz <? 32 then
      (Z.lor (Z.land D B) (Z.land (not32 D) C), (5 * iz + 1) mod 16)
    else if iz <? 48 then (Z.lxor (Z.lxor B C) D, (3 * iz + 5) mod 16)
    else (Z.lxor C (Z.lor B (not32 D)), (7 * iz) mod 16) in
  let F' := w32 (F + A + nth i K_table 0 + nth (Z.to_nat g) M 0) in
  (D, w32 (B + rotl F' (nth i S_table 0)), B, C).

Definition compress (st : state) (block : list Z) : state :=
  let '(a0, b0, c0, d0) := st in
  let '(A, B, C, D) := fold_left (round (words 16 block)) (seq 0 64) st in
  (w32 (a0 + A), w32 (b0 + B), w32 (c0 + C), w32 (d0 + D)).

Fixpoint blocks (n : nat) (st : state) (bs : list Z) : state :=
  match n with
  | O => st
  | S n' => blocks n' (compress st (take 64 bs)) (drop 64 bs)
  end.

(** [hashlib.md5(msg).digest()]: sixteen bytes. *)
Definition digest (msg : list Z) : list Z :=
  let p := pad msg in
  let '(a, b, c, d) := blocks (length p / 64)%nat init p in
  le_bytes 4 a ++ le_bytes 4 b ++ le_bytes 4 c ++ le_bytes 4 d.

Definition hex_digit (n : Z) : Z :=
  nth (Z.to_nat n) (pystr "0123456789abcdef") 0.

Definition hex_byte (b : Z) : str :=
  [hex_digit (Z.shiftr b 4); hex_digit (Z.land b 0xF)].

(** [hashlib.md5(msg).hexdigest()]. *)
Definition hexdigest (msg : list Z) : str :=
  concat (map hex_byte (digest msg)).

End MD5.

(** ** Strategies *)

(** What the script asks of a strategy object: the attributes [name] and
    [original_name] ([None] when the attribute is absent, so that reading
    it raises [AttributeError]), and the outcome of
    [inspect.getsourcelines(strategy)[0]] and of
    [inspect.getsourcelines(strategy.strategy)[0]] (the lines of source, or
    the exception raised on the way). *)
Record strategy : Type := Strategy {
  name : option str;
  original_name : option str;
  getsourcelines : result (list str);
  strategy_getsourcelines : result (list str);
}.

(** Reading an attribute. *)
Definition getattr (a : option str) : result str :=
  match a with
  | Some v => Ok v
  | None => Raise AttributeError
  end.

(** [try: name = strategy.original_name
     except AttributeError: name = strategy.name] *)
Definition display_name (s : strategy) : result str :=
  match original_name s with
  | Some n => Ok n
  | None => getattr (name s)
  end.

(** The lookups [hash_strategy] makes to find a source text. *)
Inductive source_lookup : Type :=
| Sourcelines_of_strategy
| Sourcelines_of_strategy_attribute
| Original_name_attribute.

(** The [try] statement of [hash_strategy]: the lookups made, in order,
    and the value of [source_code] (or the exception that escapes; a
    handler's own exception is not caught by its sibling handler). *)
Definition source_code_run (s : strategy) : list source_lookup * result str :=
  match getsourcelines s with
  | Ok lines => ([Sourcelines_of_strategy], Ok (join [] lines))
  | Raise e =>
      if isinstance e OSError then
        ([Sourcelines_of_strategy; Sourcelines_of_strategy_attribute],
         result_bind (strategy_getsourcelines s)
           (fun lines => Ok (join [] lines)))
      else if isinstance e TypeError then
        ([Sourcelines_of_strategy; Original_name_attribute],
         result_bind (getattr (original_name s))
           (fun n => Ok (join [] (chars n))))
      else ([Sourcelines_of_strategy], Raise e)
  end.

Definition source_code (s : strategy) : result str := snd (source_code_run s).

(** [hashlib.md5(source_code.encode('utf-8')).hexdigest()] *)
Definition md5_hex (text : str) : result str :=
  result_bind (encode_utf8 text) (fun b => Ok (MD5.hexdigest b)).

Definition hash_strategy (s : strategy) : result str :=
  result_bind (source_code s) md5_hex.

(** ** [format_filename] *)

Definition ascii_letters : str :=
  pystr "abcdefghijklmnopqrstuvwxyzABCDEFGHIJKLMNOPQRSTUVWXYZ".

Definition digits : str := pystr "0123456789".

(** [c in s] for a one-character [c]. *)
Definition str_in (c : Z) (s : str) : bool := existsb (Z.eqb c) s.

Definition valid_chars : str := pystr "-_.() " ++ ascii_letters ++ digits.

Definition format_filename (s : str) : str :=
  let filename :=
    join [] (chars (List.filter (fun c => str_in c valid_chars) s)) in
  replace space underscore filename.

(** ** The files and the fingerprint library *)

(** A fingerprint computed by the Axelrod library: which class was
    instantiated on which strategy, and the arguments of [fp.fingerprint].
    - [AshlockFingerprint]: [axl.AshlockFingerprint(strategy, axl.TitForTat)]
    - [TransitiveFingerprint]:
      [axl.TransitiveFingerprint(strategy, number_of_opponents=30)]
    - [TransitiveFingerprint_v_short]: [axl.TransitiveFingerprint(strategy,
      opponents=[s() for s in axl.short_run_time_strategies])] *)
Inductive computation : Type :=
| AshlockFingerprint (s : strategy) (turns repetitions : Z)
| TransitiveFingerprint (s : strategy) (turns repetitions : Z)
| TransitiveFingerprint_v_short (s : strategy) (turns repetitions : Z).

(** What the library writes under [assets/]: the plot of a fingerprint
    ([plt.savefig]) or its data points ([write_data_to_file], [np.savetxt]). *)
Inductive artifact : Type :=
| Plot (fp : computation)
| Data (fp : computation).

(** The state the script acts on: the text files by name (with their
    text), the artifacts by name, and the fingerprints computed so far, in
    order. Directories are not modelled: [assets/] exists. *)
Record world : Type := World {
  text_files : gmap str str;
  artifacts : gmap str artifact;
  computed : list computation;
}.

(** A computation on the world that returns or raises; the effects made
    before an exception stay. *)
Definition M (A : Type) : Type := world -> world * result A.

Definition ret {A} (a : A) : M A := fun w => (w, Ok a).

Definition bind {A B} (m : M A) (k : A -> M B) : M B :=
  fun w =>
    match m w with
    | (w', Ok a) => k a w'
    | (w', Raise e) => (w', Raise e)
    end.

Notation "x <- m ;; k" := (bind m (fun x => k))
  (at level 100, m at next level, right associativity).
Notation "m ;;; k" := (bind m (fun _ => k))
  (at level 100, right associativity).

Definition lift {A} (r : result A) : M A := fun w => (w, r).

(** [try: body  except cls: handler] *)
Definition try_except {A} (body : M A) (cls : exn) (handler : M A) : M A :=
  fun w =>
    match body w with
    | (w', Raise e) => if isinstance e cls then handler w' else (w', Raise e)
    | r => r
    end.

(** [if cond: body] *)
Definition when (cond : bool) (body : M unit) : M unit :=
  if cond then body else ret tt.

(** [for x in xs: markdown += body(x)], from the given [markdown]. *)
Fixpoint for_each {A} (xs : list A) (body : A -> M str) (markdown : str)
  : M str :=
  match xs with
  | [] => ret markdown
  | x :: xs' =>
      section <- body x ;;
      for_each xs' body (markdown ++ section)
  end.

(** The world with this text in the file. *)
Definition set_text (filename text : str) (w : world) : world :=
  World (<[filename := text]> (text_files w)) (artifacts w) (computed w).

(** [open(filename, "r")] and reading it whole. The files of a world are
    texts: a file whose bytes do not decode in the locale's codec, which
    reading refuses with [UnicodeDecodeError], is not a state of this
    model, and neither is a file that exists and cannot be opened. *)
Definition open_r (filename : str) : M str :=
  fun w =>
    match text_files w !! filename with
    | Some text => (w, Ok text)
    | None => (w, Raise FileNotFoundError)
    end.

(** [open(filename, "a")]: the file is created when missing. *)
Definition open_a (filename : str) : M unit :=
  fun w =>
    match text_files w !! filename with
    | Some _ => (w, Ok tt)
    | None => (set_text filename [] w, Ok tt)
    end.

(** [open(filename, "w")]: the file is created or truncated. *)
Definition open_w (filename : str) : M unit :=
  fun w => (set_text filename [] w, Ok tt).

(** [f.write(text)] on a file opened by [open_a] or [open_w]. Text files
    are written through the locale's codec, taken to be UTF-8: [write]
    raises on a text with a lone surrogate. Line endings are written as
    they are. *)
Definition write (filename text : str) : M unit :=
  fun w =>
    match utf8_bytes text with
    | None => (w, Raise UnicodeEncodeError)
    | Some _ =>
        (set_text filename (default [] (text_files w !! filename) ++ text) w,
         Ok tt)
    end.

(** [fp.fingerprint(...)], [plt.figure()], [fp.plot()]. *)
Definition fingerprint (fp : computation) : M unit :=
  fun w => (World (text_files w) (artifacts w) (computed w ++ [fp]), Ok tt).

(** [plt.savefig], [write_data_to_file], [np.savetxt]. *)
Definition save (filename : str) (a : artifact) : M unit :=
  fun w =>
    (World (text_files w) (<[filename := a]> (artifacts w)) (computed w),
     Ok tt).

(** ** The cache file *)

Definition comma : Z := 44.
Definition quote : Z := 34.
Definition LF : Z := 10.
Definition CR : Z := 13.

(** ["{},{},{}\n".format(a, b, c)] *)
Definition format_row (a b c : str) : str :=
  a ++ [comma] ++ b ++ [comma] ++ c ++ [LF].

Definition write_strategy_to_db (strategy : strategy) (filename : str)
    (fingerprint : str) : M unit :=
  hashed_source <- lift (hash_strategy strategy) ;;
  open_a filename ;;;
  try_except
    (original_name <- lift (getattr (original_name strategy)) ;;
     write filename (format_row original_name fingerprint hashed_source))
    AttributeError
    (name <- lift (getattr (name strategy)) ;;
     write filename (format_row name fingerprint hashed_source)).

(** *** Reading lines of a text file

    A file opened in text mode translates the line endings "\r\n" and "\r"
    to "\n" and yields lines that keep their "\n". *)
Fixpoint universal_newlines (text : str) : str :=
  match text with
  | [] => []
  | c :: rest =>
      if c =? CR then
        match rest with
        | c' :: rest' =>
            if c' =? LF then LF :: universal_newlines rest'
            else LF :: universal_newlines rest
        | [] => [LF]
        end
      else c :: universal_newlines rest
  end.

Fixpoint splitlines (text : str) : list str :=
  match text with
  | [] => []
  | c :: rest =>
      if c =? LF then [c] :: splitlines rest
      else
        match splitlines rest with
        | [] => [[c]]
        | line :: lines => (c :: line) :: lines
        end
  end.

Definition readlines (text : str) : list str :=
  splitlines (universal_newlines text).

(** *** [csv.reader], excel dialect

    The parser of [_csv.c] for the delimiter [comma], the quotechar
    [quote], doublequote, no escapechar, no skipinitialspace, not strict.
    The states an escapechar would reach are left out. *)
Module csv.

Inductive parser_state : Type :=
| START_RECORD
| START_FIELD
| IN_FIELD
| IN_QUOTED_FIELD
| QUOTE_IN_QUOTED_FIELD
| EAT_CRNL.

(** What [parse_process_char] is given: a character of the line or the
    end-of-line mark. *)
Inductive input : Type :=
| Char (c : Z)
| EOL.

Record reader : Type := Reader {
  state : parser_state;
  fields : list str;
  field : str;
}.

(** [csv.field_size_limit()] *)
Definition field_limit : Z := 131072.

(** [parse_reset] *)
Definition reset : reader := Reader START_RECORD [] [].

Definition set_state (st : parser_state) (r : reader) : reader :=
  Reader st (fields r) (field r).

(** [parse_save_field] *)
Definition parse_save_field (r : reader) : reader :=
  Reader (state r) (fields r ++ [field r]) [].

(** [parse_add_char] *)
Definition parse_add_char (c : Z) (r : reader) : result reader :=
  if Z.of_nat (length (field r)) >=? field_limit then Raise csv_Error
  else Ok (Reader (state r) (fields r) (field r ++ [c])).

Definition is_newline (c : Z) : bool := (c =? LF) || (c =? CR).

(** The case [START_FIELD] of [parse_process_char], which the case
    [START_RECORD] falls through to. *)
Definition start_field (r : reader) (c : input) : result reader :=
  match c with
  | EOL => Ok (set_state START_RECORD (parse_save_field r))
  | Char ch =>
      if is_newline ch then Ok (set_state EAT_CRNL (parse_save_field r))
      else if ch =? quote then Ok (set_state IN_QUOTED_FIELD r)
      else if ch =? comma then Ok (parse_save_field r)
      else result_bind (parse_add_char ch r)
             (fun r' => Ok (set_state IN_FIELD r'))
  end.

Definition parse_process_char (r : reader) (c : input) : result reader :=
  match state r with
  | START_RECORD =>
      match c with
      | EOL => Ok r
      | Char ch =>
          if is_newline ch then Ok (set_state EAT_CRNL r)
          else start_field (set_state START_FIELD r) c
      end
  | START_FIELD => start_field r c
  | IN_FIELD =>
      match c with
      | EOL => Ok (set_state START_RECORD (parse_save_field r))
      | Char ch =>
          if is_newline ch then Ok (set_state EAT_CRNL (parse_save_field r))
          else if ch =? comma then
            Ok (set_state START_FIELD (parse_save_field r))
          else parse_add_char ch r
      end
  | IN_QUOTED_FIELD =>
      match c with
      | EOL => Ok r
      | Char ch =>
          if ch =? quote then Ok (set_state QUOTE_IN_QUOTED_FIELD r)
          else parse_add_char ch r
      end
  | QUOTE_IN_QUOTED_FIELD =>
      match c with
      | EOL => Ok (set_state START_RECORD (parse_save_field r))
      | Char ch =>
          if ch =? quote then
            result_bind (parse_add_char ch r)
              (fun r' => Ok (set_state IN_QUOTED_FIELD r'))
          else if ch =? comma then
            Ok (set_state START_FIELD (parse_save_field r))
          else if is_newline ch then
            Ok (set_state EAT_CRNL (parse_save_field r))
          else result_bind (parse_add_char ch r)
                 (fun r' => Ok (set_state IN_FIELD r'))
      end
  | EAT_CRNL =>
      match c with
      | EOL => Ok (set_state START_RECORD r)
      | Char ch => if is_newline ch then Ok r else Raise csv_Error
      end
  end.

(** The characters of one line, then the end-of-line mark. A NUL
    character is rejected by the readers older than CPython 3.11; the
    model follows them. *)
Fixpoint process_line (r : reader) (line : str) : result reader :=
  match line with
  | [] => parse_process_char r EOL
  | c :: rest =>
      if c =? 0 then Raise csv_Error
      else result_bind (parse_process_char r (Char c))
             (fun r' => process_line r' rest)
  end.

Definition is_START_RECORD (st : parser_state) : bool :=
  match st with START_RECORD => true | _ => false end.

Definition is_IN_QUOTED_FIELD (st : parser_state) : bool :=
  match st with IN_QUOTED_FIELD => true | _ => false end.

(** Iterating the reader over the lines of the file ([Reader_iternext],
    again and again): the rows it yields, in order, and the exception that
    ends the iteration, if any. A row is complete when the parser is back
    in [START_RECORD] at the end of a line; at the end of the input an
    unfinished field is saved and the row yielded. *)
Fixpoint rows_from (r : reader) (lines : list str)
  : list (list str) * option exn :=
  match lines with
  | [] =>
      if negb (length (field r) =? 0)%nat || is_IN_QUOTED_FIELD (state r)
      then ([fields (parse_save_field r)], None)
      else ([], None)
  | line :: rest =>
      match process_line r line with
      | Raise e => ([], Some e)
      | Ok r' =>
          if is_START_RECORD (state r') then
            let '(rows, e) := rows_from reset rest in
            (fields r' :: rows, e)
          else rows_from r' rest
      end
  end.

(** [csv.reader(db)] for a file with this text. *)
Definition reader_rows (text : str) : list (list str) * option exn :=
  rows_from reset (readlines text).

End csv.

(** [{(row[0], row[1]): row[2] for row in csvreader}], from the
    dictionary built so far. *)
Fixpoint dict_of_rows (rows : list (list str)) (end_ : option exn)
    (d : gmap (str * str) str) : result (gmap (str * str) str) :=
  match rows with
  | [] =>
      match end_ with
      | Some e => Raise e
      | None => Ok d
      end
  | row :: rest =>
      match row !! 0%nat, row !! 1%nat, row !! 2%nat with
      | Some k1, Some k2, Some v => dict_of_rows rest end_ (<[(k1, k2) := v]> d)
      | _, _, _ => Raise IndexError
      end
  end.

Definition read_db (filename : str) : M (gmap (str * str) str) :=
  db <- open_r filename ;;
  let '(rows, end_) := csv.reader_rows db in
  lift (dict_of_rows rows end_ ∅).

Definition create_db (filename : str) : M unit := open_w filename.

Definition db_csv : str := pystr "db.csv".

(** ** Fingerprints and their artifacts *)

Definition write_data_to_file (fp : computation) (filename : str) : M unit :=
  save filename (Data fp).

Definition obtain_fingerprint (strategy : strategy) (turns repetitions : Z)
  : M unit :=
  let fp := AshlockFingerprint strategy turns repetitions in
  fingerprint fp ;;;
  name <- lift (display_name strategy) ;;
  save (pystr "assets/" ++ format_filename name ++ pystr ".png") (Plot fp) ;;;
  write_data_to_file fp
    (pystr "assets/" ++ format_filename name ++ pystr ".csv").

Definition obtain_transitive_fingerprint (strategy : strategy)
    (turns repetitions : Z) : M unit :=
  let fp := TransitiveFingerprint strategy turns repetitions in
  fingerprint fp ;;;
  name <- lift (display_name strategy) ;;
  save (pystr "assets/transitive_" ++ format_filename name ++ pystr ".png")
    (Plot fp) ;;;
  save (pystr "assets/transitive_" ++ format_filename name ++ pystr ".csv")
    (Data fp).

Definition obtain_transitive_fingerprint_v_short (strategy : strategy)
    (turns repetitions : Z) : M unit :=
  let fp := TransitiveFingerprint_v_short strategy turns repetitions in
  fingerprint fp ;;;
  name <- lift (display_name strategy) ;;
  save (pystr "assets/transitive_v_short_" ++ format_filename name
          ++ pystr ".png") (Plot fp) ;;;
  save (pystr "assets/transitive_v_short_" ++ format_filename name
          ++ pystr ".csv") (Data fp).

(** ** The report *)

(** ["{}".format(n)] for an [int]. *)
Definition str_of_int (n : Z) : str :=
  pystr (NilZero.string_of_int (Z.to_int n)).

Definition write_markdown (strategy : strategy) : result str :=
  result_bind (display_name strategy) (fun name =>
  let file := format_filename name in
  Ok (join [LF]
    [ [];
      [];
      pystr "## " ++ name;
      [];
      pystr "![fingerprint of " ++ name ++ pystr "](./assets/" ++ file
        ++ pystr ".png)";
      [];
      pystr "[data (csv)](./assets/" ++ file ++ pystr ".csv)";
      [];
      pystr "![Transitive fingerprint of " ++ name
        ++ pystr "](./assets/transitive_" ++ file ++ pystr ".png)";
      [];
      pystr "[data (csv)](./assets/transitive_" ++ file ++ pystr ".csv)";
      [];
      pystr "![Transitive fingerprint of " ++ name
        ++ pystr " against short run time](./assets/transitive_v_short_"
        ++ file ++ pystr ".png)";
      [];
      pystr "[data (csv)](./assets/transitive_v_short_" ++ file
        ++ pystr ".csv)";
      pystr "    " ])).

(** ** [main] *)

Definition Ashlock : str := pystr "Ashlock".
Definition Transitive : str := pystr "Transitive".
Definition Transitive_v_short : str := pystr "Transitive_v_short".

(** [(name, fp) not in db or db[name, fp] != signature] *)
Definition not_in_db_or_changed (db : gmap (str * str) str)
    (name fp signature : str) : bool :=
  match db !! (name, fp) with
  | None => true
  | Some stored => negb (bool_decide (stored = signature))
  end.

Section main.

(** The libraries: [axl.__version__], [axlf.__version__],
    [axl.short_run_time_strategies], [axlf.all_strategies] and the
    constructor [axlf.Player]. *)
Variables version axlf_version : str.
Variable short_run_time_strategies : list strategy.
Variable all_strategies : list str.
Variable Player : str -> strategy.

Variables turns repetitions : Z.
Variables transitive_turns transitive_repetitions : Z.
Variables transitive_v_short_turns transitive_v_short_repetitions : Z.

(** The head of the report, lines 204 to 229. *)
Definition main_markdown : str :=
  join [LF]
    [ pystr "# Ashlock and transitive fingerprints";
      [];
      pystr "See:";
      pystr "[axelrod.readthedocs.io/en/latest/tutorials/further_topics/fingerprinting.html#fingerprinting](http://axelrod.readthedocs.io/en/latest/tutorials/further_topics/fingerprinting.html#fingerprinting)";
      [];
      pystr "All strategies included from Axelrod version " ++ version
        ++ pystr " and all strategies from";
      pystr "axelrod_fortran version " ++ axlf_version;
      [];
      pystr "This README.md file is autogenerated by running:";
      [];
      pystr "```";
      pystr "$ python update_fingerprints.py";
      pystr "```";
      [];
      pystr "Each individual fingerprint can be obtained by running:";
      [];
      pystr "```python";
      pystr "import axelrod as axl";
      pystr "fp = axl.AshlockFingerprint(strategy, probe)";
      pystr "fp.fingerprint(turns=" ++ str_of_int turns
        ++ pystr ", repetitions=" ++ str_of_int repetitions ++ pystr ")";
      pystr "fp.plot()";
      pystr "```";
      [];
      pystr "# Axelrod library fingerprints";
      [];
      pystr "    " ].

(** Lines 230 to 234. *)
Definition main_read_db : M (gmap (str * str) str) :=
  try_except
    (read_db db_csv)
    FileNotFoundError
    (create_db db_csv ;;; read_db db_csv).

(** The body of the first loop, lines 237 to 258; the call of
    [obtain_fingerprint] is commented out in the source. *)
Definition main_loop_axelrod (db : gmap (str * str) str)
    (strategy : strategy) : M str :=
  name <- lift (getattr (name strategy)) ;;
  signature <- lift (hash_strategy strategy) ;;
  let fp := Ashlock in
  when (not_in_db_or_changed db name fp signature)
    (write_strategy_to_db strategy db_csv fp) ;;;
  let fp := Transitive in
  when (not_in_db_or_changed db name fp signature)
    (obtain_transitive_fingerprint strategy
       transitive_turns transitive_repetitions ;;;
     write_strategy_to_db strategy db_csv fp) ;;;
  let fp := Transitive_v_short in
  when (not_in_db_or_changed db name fp signature)
    (obtain_transitive_fingerprint_v_short strategy
       transitive_v_short_turns transitive_v_short_repetitions ;;;
     write_strategy_to_db strategy db_csv fp) ;;;
  lift (write_markdown strategy).

(** The variable [strategy] after the first loop: its last value, or
    unbound when the loop ran no iteration. *)
Definition strategy_after_loop : result strategy :=
  match last short_run_time_strategies with
  | Some s => Ok s
  | None => Raise NameError
  end.

(** The body of the second loop, lines 267 to 289. It hashes [player] and
    looks [player.original_name] up in [db], and passes [strategy], the
    variable of the first loop, to the functions it calls. *)
Definition main_loop_fortran (db : gmap (str * str) str)
    (name : str) : M str :=
  let player := Player name in
  name <- lift (getattr (original_name player)) ;;
  signature <- lift (hash_strategy player) ;;
  let fp := Ashlock in
  when (not_in_db_or_changed db name fp signature)
    (strategy <- lift strategy_after_loop ;;
     write_strategy_to_db strategy db_csv fp) ;;;
  let fp := Transitive in
  when (not_in_db_or_changed db name fp signature)
    (strategy <- lift strategy_after_loop ;;
     obtain_transitive_fingerprint strategy
       transitive_turns transitive_repetitions ;;;
     write_strategy_to_db strategy db_csv fp) ;;;
  let fp := Transitive_v_short in
  when (not_in_db_or_changed db name fp signature)
    (strategy <- lift strategy_after_loop ;;
     obtain_transitive_fingerprint_v_short strategy
       transitive_turns transitive_repetitions ;;;
     write_strategy_to_db strategy db_csv fp) ;;;
  strategy <- lift strategy_after_loop ;;
  lift (write_markdown strategy).

Definition main : M unit :=
  let markdown := main_markdown in
  db <- main_read_db ;;
  markdown <- for_each short_run_time_strategies (main_loop_axelrod db)
                markdown ;;
  let markdown :=
    markdown
    ++ join [LF]
         [ []; [];
           pystr "# Second tournament fortran strategy fingerprints";
           []; [] ] in
  markdown <- for_each all_strategies (main_loop_fortran db) markdown ;;
  open_w (pystr "README.md") ;;;
  write (pystr "README.md") markdown.

End main.

(** The script, lines 295 to 301. *)
Definition script (version axlf_version : str)
    (short_run_time_strategies : list strategy) (all_strategies : list str)
    (Player : str -> strategy) : M unit :=
  main version axlf_version short_run_time_strategies all_strategies Player
    200 50 200 50 200 50.

(** * Vocabulary of the properties *)

(** ** File names *)

(** The allowed set of the specification: ASCII letters, digits and
    the characters of "-_.()". *)
Definition allowed (c : Z) : bool :=
  ((65 <=? c) && (c <=? 90)) || ((97 <=? c) && (c <=? 122))
  || ((48 <=? c) && (c <=? 57)) || str_in c (pystr "-_.()").

(** What the specification says of each character of the input. *)
Definition sanitize_char (c : Z) : str :=
  if c =? space then [underscore]
  else if allowed c then [c]
  else [].

(** ** Digests *)

Definition lower_hex (c : Z) : bool :=
  ((48 <=? c) && (c <=? 57)) || ((97 <=? c) && (c <=? 102)).

(** ** Rows of the cache file *)

(** A field that [csv.reader] reads back as written without any quoting:
    no comma, no line ending, no NUL, no quote in front, and within the
    field size limit. *)
Definition plain_char (c : Z) : bool :=
  negb (c =? comma) && negb (csv.is_newline c) && negb (c =? 0).

Definition starts_with_quote (f : str) : bool :=
  match f with
  | c :: _ => c =? quote
  | [] => false
  end.

Definition plain_field (f : str) : bool :=
  forallb plain_char f && negb (starts_with_quote f)
  && (Z.of_nat (length f) <=? csv.field_limit).

(** A text the UTF-8 codec accepts: no lone surrogate. *)
Definition encodable_char (c : Z) : bool :=
  match utf8_char c with
  | Some _ => true
  | None => false
  end.

Definition encodable (s : str) : bool := forallb encodable_char s.

(** A name or a kind that can be written to the cache and read back. *)
Definition storable (f : str) : bool := plain_field f && encodable f.

(** A row of the cache: name, fingerprint kind, hash. *)
Definition row_text (row : str * str * str) : str :=
  let '(a, b, c) := row in format_row a b c.

Definition row_fields (row : str * str * str) : list str :=
  let '(a, b, c) := row in [a; b; c].

(** The key of a row the reader yields: [(row[0], row[1])]. *)
Definition row_key (row : list str) : option (str * str) :=
  match row !! 0%nat, row !! 1%nat with
  | Some a, Some b => Some (a, b)
  | _, _ => None
  end.

Definition row_binding (row : str * str * str) : (str * str) * str :=
  let '(n, k, h) := row in ((n, k), h).


Definition plain_row (row : str * str * str) : bool :=
  let '(a, b, c) := row in plain_field a && plain_field b && plain_field c.

Definition storable_row (row : str * str * str) : bool :=
  let '(n, k, _) := row in storable n && storable k.

Definition rows_text (rows : list (str * str * str)) : str :=
  concat (map row_text rows).

(** The dictionary after the rows, each inserted in order. *)
Definition insert_rows (rows : list (str * str * str))
    (d : gmap (str * str) str) : gmap (str * str) str :=
  fold_left (fun d '(a, b, c) => <[(a, b) := c]> d) rows d.

(** The text of the cache file, empty when the file is missing. *)
Definition file_text (filename : str) (w : world) : str :=
  default [] (text_files w !! filename).

(** An entry of the cache and the row that holds it. *)
Definition entry_row (entry : strategy * str) (row : str * str * str) : Prop :=
  let '(s, fp) := entry in
  let '(n, k, h) := row in
  display_name s = Ok n /\ k = fp /\ hash_strategy s = Ok h.

(** Writing the entries of a cache, one call of [write_strategy_to_db]
    each. *)
Fixpoint write_entries (entries : list (strategy * str)) (filename : str)
  : M unit :=
  match entries with
  | [] => ret tt
  | (s, fp) :: rest =>
      write_strategy_to_db s filename fp ;;; write_entries rest filename
  end.

(** ** What a run leaves alone *)

Definition kinds : list str := [Ashlock; Transitive; Transitive_v_short].

Definition computation_kind (c : computation) : str :=
  match c with
  | AshlockFingerprint _ _ _ => Ashlock
  | TransitiveFingerprint _ _ _ => Transitive
  | TransitiveFingerprint_v_short _ _ _ => Transitive_v_short
  end.

Definition artifact_kind (a : artifact) : str :=
  match a with
  | Plot fp | Data fp => computation_kind fp
  end.


(** Whatever the outcome of [m], its effect is within [R]. *)
Definition always {A} (R : world -> world -> Prop) (m : M A) : Prop :=
  forall w, R w (m w).1.

(** ** What a run adds *)

(** The kinds whose branch is taken for a name and a fresh hash. *)
Definition stale_kinds (db : gmap (str * str) str) (n h : str) : list str :=
  List.filter (fun fp => not_in_db_or_changed db n fp h) kinds.

(** From [w] to [w'] the rows were appended to the cache file, which
    exists, and the fingerprints were computed, in this order. *)
Definition extends (rows : list (str * str * str)) (fps : list computation)
    (w w' : world) : Prop :=
  text_files w' !! db_csv = Some (file_text db_csv w ++ rows_text rows)
  /\ computed w' = computed w ++ fps.

(** A fingerprint function, seen from the cache: it returns, leaves the
    text files alone and computes [fps]. *)
Definition computes (obtain : M unit) (fps : list computation) : Prop :=
  forall w, exists w1,
    obtain w = (w1, Ok tt) /\ text_files w1 = text_files w
    /\ computed w1 = computed w ++ fps.

Section run.

Variable short_run_time_strategies : list strategy.
Variable Player : str -> strategy.
Variables transitive_turns transitive_repetitions : Z.
Variables transitive_v_short_turns transitive_v_short_repetitions : Z.
Variable db : gmap (str * str) str.

(** The rows the first loop appends for a strategy. *)
Definition axelrod_rows (s : strategy) : list (str * str * str) :=
  match name s, display_name s, hash_strategy s with
  | Some n, Ok dn, Ok h => map (fun fp => (dn, fp, h)) (stale_kinds db n h)
  | _, _, _ => []
  end.

(** The fingerprints the first loop computes for a strategy: none for the
    kind Ashlock. *)
Definition axelrod_fingerprints (s : strategy) : list computation :=
  match name s, hash_strategy s with
  | Some n, Ok h =>
      (if not_in_db_or_changed db n Transitive h
       then [TransitiveFingerprint s transitive_turns transitive_repetitions]
       else [])
      ++ (if not_in_db_or_changed db n Transitive_v_short h
          then [TransitiveFingerprint_v_short s transitive_v_short_turns
                  transitive_v_short_repetitions]
          else [])
  | _, _ => []
  end.

(** The rows the second loop appends for a player: rows of [strategy],
    the variable the first loop left, for the kinds that are stale for the
    player. *)
Definition fortran_rows (player_name : str) : list (str * str * str) :=
  match original_name (Player player_name),
        hash_strategy (Player player_name),
        strategy_after_loop short_run_time_strategies with
  | Some pn, Ok ph, Ok s =>
      match display_name s, hash_strategy s with
      | Ok dn, Ok h => map (fun fp => (dn, fp, h)) (stale_kinds db pn ph)
      | _, _ => []
      end
  | _, _, _ => []
  end.

Definition fortran_fingerprints (player_name : str) : list computation :=
  match original_name (Player player_name),
        hash_strategy (Player player_name),
        strategy_after_loop short_run_time_strategies with
  | Some pn, Ok ph, Ok s =>
      (if not_in_db_or_changed db pn Transitive ph
       then [TransitiveFingerprint s transitive_turns transitive_repetitions]
       else [])
      ++ (if not_in_db_or_changed db pn Transitive_v_short ph
          then [TransitiveFingerprint_v_short s transitive_turns
                  transitive_repetitions]
          else [])
  | _, _, _ => []
  end.

End run.

(** A strategy of the Axelrod library the cache can hold: it has a name,
    which is the name its row gets ([original_name] is absent or the
    same), its source can be hashed, and the name is storable. *)
Definition cacheable (s : strategy) : Prop :=
  exists n h, name s = Some n /\ display_name s = Ok n
              /\ hash_strategy s = Ok h /\ storable n = true.

(** A player of the Fortran library the second loop can look up. *)
Definition hashable_player (p : strategy) : Prop :=
  exists n h, original_name p = Some n /\ hash_strategy p = Ok h.

(** A row of a cacheable strategy of the list, for one of the three
    kinds. *)
Definition row_of_strategies (strategies : list strategy)
    (row : str * str * str) : Prop :=
  exists s n h fp,
    In s strategies /\ name s = Some n /\ display_name s = Ok n
    /\ hash_strategy s = Ok h /\ storable n = true /\ In fp kinds
    /\ row = (n, fp, h).

(** What a run of [main] does for the strategies of the first loop:
    [main] reads the cache [db] and returns, having computed the
    fingerprints [fps]; the cache file can be read again, and binds each
    strategy and kind to the fresh hash; and where [db] did not, the
    transitive fingerprints of that strategy are among [fps]. *)
Definition brings_cache_up_to_date (version axlf_version : str)
    (strategies : list strategy) (all_strategies : list str)
    (Player : str -> strategy) (t r tt' tr tvt tvr : Z) (w : world) : Prop :=
  exists w0 db w' db' fps,
    main_read_db w = (w0, Ok db)
    /\ main version axlf_version strategies all_strategies Player
         t r tt' tr tvt tvr w = (w', Ok tt)
    /\ read_db db_csv w' = (w', Ok db')
    /\ computed w' = computed w ++ fps
    /\ forall s n h,
         In s strategies -> name s = Some n -> hash_strategy s = Ok h ->
         (forall fp, In fp kinds -> db' !! (n, fp) = Some h)
         /\ (db !! (n, Transitive) <> Some h ->
             In (TransitiveFingerprint s tt' tr) fps)
         /\ (db !! (n, Transitive_v_short) <> Some h ->
             In (TransitiveFingerprint_v_short s tvt tvr) fps).

(** ** Examples *)

Definition example_class : strategy :=
  Strategy (Some (pystr "Tit For Tat")) None
    (Ok [pystr "class TitForTat(Player):" ++ [LF]; pystr "    pass" ++ [LF]])
    (Raise AttributeError).

(** A class created at run time: its own source is not found, that of
    its method [strategy] is. *)
Definition example_dynamic_class : strategy :=
  Strategy (Some (pystr "Dual Tit For Tat")) None
    (Raise OSError)
    (Ok [pystr "def strategy(self, opponent):" ++ [LF]]).

(** An instance, as [axlf.Player] gives. *)
Definition example_player : strategy :=
  Strategy (Some (pystr "Player")) (Some (pystr "k42r"))
    (Raise TypeError) (Raise AttributeError).

(** A strategy whose name has a comma. *)
Definition example_comma : strategy :=
  Strategy (Some (pystr "Grudger, Forgiving")) None
    (Ok [pystr "class ForgivingGrudger(Player):" ++ [LF]])
    (Raise AttributeError).

(** The players of the Fortran library: instances, named by
    [original_name]. *)
Definition example_Player (n : str) : strategy :=
  Strategy (Some (pystr "Player")) (Some n) (Raise TypeError)
    (Raise AttributeError).

Definition empty_world : world := World ∅ ∅ [].

(** The cache file as [create_db] leaves it, in the empty world. *)
Definition created_world : world := set_text db_csv [] empty_world.


(** A world with only a cache file of two strategies, one of them hashed
    twice. *)
Definition example_db_text : str :=
  format_row (pystr "Tit For Tat") Ashlock (pystr "0cc175b9c0f1b6a831c399e269772661")
  ++ format_row (pystr "Alternator") Ashlock (pystr "92eb5ffee6ae2fec3ad71c777531578f")
  ++ format_row (pystr "Tit For Tat") Ashlock (pystr "4a8a08f09d37b73795649038408b5f33")
  ++ format_row (pystr "Alternator") Transitive (pystr "92eb5ffee6ae2fec3ad71c777531578f").

Definition example_world : world :=
  World {[ db_csv := example_db_text ]} ∅ [].

(** A cache file whose only row has two fields. *)
Definition short_row_world : world :=
  World {[ db_csv := pystr "Tit For Tat,Ashlock" ++ [LF] ]} ∅ [].

Definition example_entries : list (strategy * str) :=
  [(example_class, Ashlock); (example_player, Transitive)].

Definition example_rows : list (str * str * str) :=
  [(pystr "Tit For Tat", Ashlock, pystr "b688ffc64fc2d8450c6ce1ce50e463ca");
   (pystr "k42r", Transitive, pystr "fefcd78c6c77e2fcab5cddd4ddaa340e")].


(** ** Artifacts *)

(** The files of a strategy under [assets/], by the prefix of the kind
    and the extension. *)
Definition asset (prefix name ext : str) : str :=
  pystr "assets/" ++ prefix ++ format_filename name ++ ext.

(** The six files the three [obtain_*] functions write for a name. *)
Definition assets_of (name : str) : list str :=
  [asset [] name (pystr ".png");
   asset [] name (pystr ".csv");
   asset (pystr "transitive_") name (pystr ".png");
   asset (pystr "transitive_") name (pystr ".csv");
   asset (pystr "transitive_v_short_") name (pystr ".png");
   asset (pystr "transitive_v_short_") name (pystr ".csv")].

(** Two strategies with names that make the same file name. *)
Definition example_spaces : strategy :=
  Strategy (Some (pystr "Tit For Tat")) None
    (Ok [pystr "class TitForTat(Player):" ++ [LF]]) (Raise AttributeError).

Definition example_underscores : strategy :=
  Strategy (Some (pystr "Tit_For_Tat")) None
    (Ok [pystr "class Tit_For_Tat(Player):" ++ [LF]]) (Raise AttributeError).

(** A strategy object with neither [name] nor [original_name]. *)
Definition example_nameless : strategy :=
  Strategy None None (Ok [pystr "class A:" ++ [LF]]) (Raise AttributeError).

(** Saving the artifacts one after the other. *)
Definition save_all (saved : list (str * artifact))
    (m : gmap str artifact) : gmap str artifact :=
  fold_left (fun m pa => <[pa.1 := pa.2]> m) saved m.

(** The artifacts of the three kinds for a strategy, in the order of
    [assets_of]. *)
Definition artifacts_of (s : strategy) (t r : Z) : list artifact :=
  [Plot (AshlockFingerprint s t r); Data (AshlockFingerprint s t r);
   Plot (TransitiveFingerprint s t r); Data (TransitiveFingerprint s t r);
   Plot (TransitiveFingerprint_v_short s t r);
   Data (TransitiveFingerprint_v_short s t r)].

(** ** Cache files written by other hands *)

(** A row without the newline at its end. *)
Definition row_text_open (row : str * str * str) : str :=
  let '(a, b, c) := row in a ++ [comma] ++ b ++ [comma] ++ c.

(** The rows with the line ending of Windows. *)
Definition rows_text_crlf (rows : list (str * str * str)) : str :=
  concat (map (fun row => row_text_open row ++ [CR; LF]) rows).

(** A cache file with a Windows line ending. *)
Definition crlf_world : world :=
  World {[ db_csv := rows_text_crlf example_rows ]} ∅ [].

(** A cache file with an empty line after its first row. *)
Definition blank_line_world : world :=
  World {[ db_csv := rows_text (take 1 example_rows) ++ [LF]
                     ++ rows_text (drop 1 example_rows) ]} ∅ [].

(** A cache file whose last row lacks the newline. *)
Definition open_row_world : world :=
  World {[ db_csv := rows_text (take 1 example_rows)
                     ++ row_text_open (pystr "k42r", Transitive,
                                       pystr "fefcd78c6c77e2fc") ]} ∅ [].

(** A text without line endings. *)
Definition one_line (l : str) : bool :=
  forallb (fun c => negb (csv.is_newline c)) l.

(** ** What [main] does whatever happens *)

Definition README_md : str := pystr "README.md".

(** From [w] to [w']: no Ashlock fingerprint was computed, every artifact
    is as it was or replaced by one of another kind, the cache file kept
    its text in front, and no text file but the cache and the report
    changed. *)
Definition main_effect (w w' : world) : Prop :=
  (exists fps, computed w' = computed w ++ fps
     /\ Forall (fun c => computation_kind c <> Ashlock) fps)
  /\ (forall path, artifacts w' !! path = artifacts w !! path
        \/ exists a, artifacts w' !! path = Some a
             /\ artifact_kind a <> Ashlock)
  /\ (exists appended,
        file_text db_csv w' = file_text db_csv w ++ appended)
  /\ (is_Some (text_files w !! db_csv) -> is_Some (text_files w' !! db_csv))
  /\ (forall filename, filename <> db_csv -> filename <> README_md ->
        text_files w' !! filename = text_files w !! filename).

(** A strategy whose [original_name] is not its [name]. *)
Definition example_renamed : strategy :=
  Strategy (Some (pystr "Tit For Tat")) (Some (pystr "TFT"))
    (Ok [pystr "class TitForTat(Player):" ++ [LF]]) (Raise AttributeError).

(** The cache [main] works with when the file holds these rows. *)
Definition cache_of (rows : list (str * str * str)) : gmap (str * str) str :=
  insert_rows rows ∅.

(** ** The report *)

(** The section of a strategy in [README.md]. *)
Definition section_of (s : strategy) : str :=
  match write_markdown s with
  | Ok markdown => markdown
  | Raise _ => []
  end.

Definition fortran_heading : str :=
  join [LF]
    [ []; [];
      pystr "# Second tournament fortran strategy fingerprints";
      []; [] ].

(** The text of [README.md]: the head, a section for each strategy of the
    first loop, the heading of the second part and, for each Fortran
    player, the section of the last strategy of the first loop. *)
Definition report (version axlf_version : str) (t r : Z)
    (strategies : list strategy) (all_strategies : list str) : str :=
  main_markdown version axlf_version t r
  ++ concat (map section_of strategies)
  ++ fortran_heading
  ++ concat (map (fun _ : str =>
                    from_option section_of [] (last strategies))
               all_strategies).

(** [l] at the start of [m], and anywhere in [m]. *)
Definition starts (l m : str) : Prop := exists after, m = l ++ after.

Definition within (l m : str) : Prop :=
  exists before after, m = before ++ l ++ after.

(** The markdown has a link to the file: the path in parentheses, from
    the directory of the report. *)
Definition linked (path markdown : str) : Prop :=
  within (pystr "(./" ++ path ++ pystr ")") markdown.

(** ** The guard of the regeneration branches *)




(** ** Runs that show the defects *)

(** The three rows of [example_class] with its fresh hash. *)
Definition fresh_rows : list (str * str * str) :=
  map (fun fp => (pystr "Tit For Tat", fp,
                  pystr "b688ffc64fc2d8450c6ce1ce50e463ca")) kinds.

(** A world whose cache file holds the fresh hash of [example_class] for
    the three kinds, and nothing for the player k42r. *)
Definition fresh_world : world :=
  World {[ db_csv := rows_text fresh_rows ]} ∅ [].

(** The script run with one strategy and one Fortran player. *)
Definition example_run : M unit :=
  script (pystr "4.0.0") (pystr "0.4.6") [example_class] [pystr "k42r"]
    example_Player.
(** * Properties *)

(** ** MD5 test vectors (RFC 1321) *)

Example md5_empty :
  MD5.hexdigest [] = pystr "d41d8cd98f00b204e9800998ecf8427e".
Proof. vm_compute. reflexivity. Qed.

Example md5_abc :
  result_bind (encode_utf8 (pystr "abc")) (fun b => Ok (MD5.hexdigest b))
  = Ok (pystr "900150983cd24fb0d6963f7d28e17f72").
Proof. vm_compute. reflexivity. Qed.

Example md5_fox :
  MD5.hexdigest (pystr "The quick brown fox jumps over the lazy dog")
  = pystr "9e107d9d372bb6826bd81d3542a419d6".
Proof. vm_compute. reflexivity. Qed.

Example md5_two_blocks :
  MD5.hexdigest (pystr "12345678901234567890123456789012345678901234567890123456789012345678901234567890")
  = pystr "57edf4a22be3c955ac49da2e2107b67a".
Proof. vm_compute. reflexivity. Qed.

(** ** Strings *)

Lemma join_empty_chars (s : str) : join [] (chars s) = s.
Proof.
  induction s as [|c [|c' s'] IH]; [reflexivity | reflexivity |].
  change (join [] (chars (c :: c' :: s')))
    with ([c] ++ [] ++ join [] (chars (c' :: s'))).
  rewrite IH. reflexivity.
Qed.

Lemma str_in_In (c : Z) (s : str) : str_in c s = true <-> In c s.
Proof.
  unfold str_in. rewrite existsb_exists. split.
  - intros (x & Hx & Heq). apply Z.eqb_eq in Heq. subst. assumption.
  - intros H. exists c. split; [assumption | apply Z.eqb_refl].
Qed.

Lemma valid_chars_spec (c : Z) :
  str_in c valid_chars = (c =? space) || allowed c.
Proof.
  apply eq_true_iff_eq. unfold allowed, space.
  rewrite !orb_true_iff, !andb_true_iff, !Z.leb_le, !str_in_In, Z.eqb_eq.
  let l := eval vm_compute in valid_chars in change valid_chars with l.
  let l := eval vm_compute in (pystr "-_.()") in change (pystr "-_.()") with l.
  cbn [In]. lia.
Qed.

Lemma format_filename_flat_map (s : str) :
  format_filename s = flat_map sanitize_char s.
Proof.
  unfold format_filename. rewrite join_empty_chars.
  induction s as [|c s IH]; [reflexivity |].
  cbn [List.filter flat_map]. rewrite valid_chars_spec.
  unfold sanitize_char at 1.
  destruct (c =? space) eqn:Hsp; cbn [orb].
  - apply Z.eqb_eq in Hsp. subst c. cbn [replace map app].
    rewrite <- IH. reflexivity.
  - destruct (allowed c); [| exact IH].
    cbn [replace map app]. rewrite Hsp, <- IH. reflexivity.
Qed.

Lemma allowed_not_space (c : Z) : allowed c = true -> (c =? space) = false.
Proof.
  intros H. apply Z.eqb_neq. intros ->. vm_compute in H. discriminate.
Qed.

Lemma sanitize_char_allowed (c : Z) :
  Forall (fun d => allowed d = true) (sanitize_char c).
Proof.
  unfold sanitize_char. destruct (c =? space).
  - constructor; [reflexivity | constructor].
  - destruct (allowed c) eqn:Hc; repeat constructor. exact Hc.
Qed.

Lemma format_filename_allowed (s : str) :
  Forall (fun d => allowed d = true) (format_filename s).
Proof.
  rewrite format_filename_flat_map.
  induction s as [|c s IH]; cbn [flat_map]; [constructor |].
  apply Forall_app. split; [apply sanitize_char_allowed | exact IH].
Qed.

Lemma format_filename_fixed (s : str) :
  Forall (fun d => allowed d = true) s -> format_filename s = s.
Proof.
  rewrite format_filename_flat_map.
  induction 1 as [|c s Hc _ IH]; [reflexivity |].
  cbn [flat_map]. rewrite IH. unfold sanitize_char.
  rewrite (allowed_not_space c Hc), Hc. reflexivity.
Qed.

(** C4: [format_filename] is idempotent, its result has only allowed
    characters (ASCII letters, digits and "-_.()"), and it maps each
    character of the input in order: a space becomes an underscore, an
    allowed character is kept, any other character is removed. *)
Theorem format_filename_sanitizes (s : str) :
  format_filename (format_filename s) = format_filename s
  /\ Forall (fun c => allowed c = true) (format_filename s)
  /\ format_filename s = flat_map sanitize_char s.
Proof.
  split; [| split].
  - apply format_filename_fixed, format_filename_allowed.
  - apply format_filename_allowed.
  - apply format_filename_flat_map.
Qed.

Example format_filename_example :
  format_filename (pystr "Tit For 2 Tats: $\pi$ (v1.0)/" ++ [233; 0x1F600])
  = pystr "Tit_For_2_Tats_pi_(v1.0)".
Proof. vm_compute. reflexivity. Qed.

(** ** [hash_strategy] *)

Example hash_strategy_class :
  hash_strategy example_class = Ok (pystr "b688ffc64fc2d8450c6ce1ce50e463ca").
Proof. vm_compute. reflexivity. Qed.

Example hash_strategy_dynamic_class :
  hash_strategy example_dynamic_class
  = Ok (pystr "1a81a07ebfb0b3b4d5f4a78109f866d7").
Proof. vm_compute. reflexivity. Qed.

Example hash_strategy_player :
  hash_strategy example_player = Ok (pystr "fefcd78c6c77e2fcab5cddd4ddaa340e").
Proof. vm_compute. reflexivity. Qed.

Example md5_hex_utf8 :
  md5_hex [97; 233; 0x1F600; 0x4E2D]
  = Ok (pystr "e232aec01b90c50d8fc512c9fa3e6fea").
Proof. vm_compute. reflexivity. Qed.

Example md5_hex_surrogate : md5_hex [97; 0xD800] = Raise UnicodeEncodeError.
Proof. reflexivity. Qed.



(** *** The shape of a digest *)

Lemma hex_digit_lower_hex (n : Z) :
  0 <= n < 16 -> lower_hex (MD5.hex_digit n) = true.
Proof.
  intros Hn. unfold MD5.hex_digit.
  assert (Z.to_nat n < 16)%nat as Hk by lia.
  revert Hk. generalize (Z.to_nat n) as k. intros k Hk.
  do 16 (destruct k as [|k]; [reflexivity |]). lia.
Qed.

Lemma land_255_range (x : Z) : 0 <= Z.land x 0xFF < 256.
Proof.
  change 0xFF with (Z.ones 8). rewrite Z.land_ones by lia.
  apply Z.mod_pos_bound. reflexivity.
Qed.

Lemma hex_byte_lower_hex (b : Z) :
  0 <= b < 256 -> Forall (fun c => lower_hex c = true) (MD5.hex_byte b).
Proof.
  intros Hb. unfold MD5.hex_byte.
  repeat constructor; apply hex_digit_lower_hex.
  - rewrite Z.shiftr_div_pow2 by lia. change (2 ^ 4) with 16.
    split; [apply Z.div_pos; lia | apply Z.div_lt_upper_bound; lia].
  - change 0xF with (Z.ones 4). rewrite Z.land_ones by lia.
    apply Z.mod_pos_bound. reflexivity.
Qed.

Lemma le_bytes_range (n : nat) (x : Z) :
  Forall (fun b => 0 <= b < 256) (MD5.le_bytes n x).
Proof.
  unfold MD5.le_bytes. induction (seq 0 n) as [|i l IH]; cbn [map].
  - constructor.
  - constructor; [apply land_255_range | exact IH].
Qed.

Lemma le_bytes_length (n : nat) (x : Z) : length (MD5.le_bytes n x) = n.
Proof. unfold MD5.le_bytes. rewrite length_map. apply length_seq. Qed.

Lemma digest_shape (msg : list Z) :
  length (MD5.digest msg) = 16%nat
  /\ Forall (fun b => 0 <= b < 256) (MD5.digest msg).
Proof.
  unfold MD5.digest.
  destruct (MD5.blocks _ MD5.init (MD5.pad msg)) as [[[a b] c] d].
  split.
  - rewrite !length_app, !le_bytes_length. reflexivity.
  - repeat (apply Forall_app; split); apply le_bytes_range.
Qed.

Lemma hexdigest_shape (msg : list Z) :
  length (MD5.hexdigest msg) = 32%nat
  /\ Forall (fun c => lower_hex c = true) (MD5.hexdigest msg).
Proof.
  unfold MD5.hexdigest. destruct (digest_shape msg) as [Hlen Hall].
  revert Hlen Hall. generalize (MD5.digest msg) as bs. intros bs.
  assert (forall l : list Z, length (concat (map MD5.hex_byte l))
                             = (2 * length l)%nat) as Hl.
  { induction l as [|b l IH]; [reflexivity |].
    cbn [map concat]. rewrite length_app, IH. cbn [MD5.hex_byte length]. lia. }
  intros Hlen Hall. split.
  - rewrite Hl, Hlen. reflexivity.
  - clear Hlen. induction Hall as [|b l Hb _ IH]; [constructor |].
    cbn [map concat]. apply Forall_app.
    split; [apply hex_byte_lower_hex, Hb | exact IH].
Qed.

Lemma md5_hex_shape (text h : str) :
  md5_hex text = Ok h ->
  length h = 32%nat /\ Forall (fun c => lower_hex c = true) h.
Proof.
  unfold md5_hex, encode_utf8. destruct (utf8_bytes text) as [bs|]; [| discriminate].
  intros [= <-]. apply hexdigest_shape.
Qed.

Lemma hash_strategy_shape (s : strategy) (h : str) :
  hash_strategy s = Ok h ->
  length h = 32%nat /\ Forall (fun c => lower_hex c = true) h.
Proof.
  unfold hash_strategy. destruct (source_code s) as [text|]; [| discriminate].
  apply md5_hex_shape.
Qed.

(** C10: when [hash_strategy] returns, its result has 32 characters, all
    of them lowercase hexadecimal digits; and strategies with the same
    source text get the same hash. *)
Theorem hash_strategy_hexdigest (s : strategy) (h : str) :
  hash_strategy s = Ok h ->
  (length h = 32%nat /\ Forall (fun c => lower_hex c = true) h)
  /\ (forall s', source_code s' = source_code s -> hash_strategy s' = Ok h).
Proof.
  intros Hh. split; [exact (hash_strategy_shape s h Hh) |].
  intros s' Heq. unfold hash_strategy in *. rewrite Heq. exact Hh.
Qed.

Lemma hash_strategy_hexdigest_witness :
  (length (pystr "fefcd78c6c77e2fcab5cddd4ddaa340e") = 32%nat
   /\ Forall (fun c => lower_hex c = true)
        (pystr "fefcd78c6c77e2fcab5cddd4ddaa340e"))
  /\ (forall s', source_code s' = source_code example_player ->
       hash_strategy s' = Ok (pystr "fefcd78c6c77e2fcab5cddd4ddaa340e")).
Proof.
  apply (hash_strategy_hexdigest example_player). vm_compute. reflexivity.
Defined.

(** ** Reading the cache file *)

Lemma plain_char_facts (c : Z) :
  plain_char c = true ->
  (c =? comma) = false /\ csv.is_newline c = false /\ (c =? 0) = false
  /\ (c =? LF) = false /\ (c =? CR) = false.
Proof.
  unfold plain_char, csv.is_newline.
  destruct (c =? comma), (c =? LF), (c =? CR), (c =? 0);
    cbn; intros H; try discriminate H; repeat split.
Qed.

Lemma plain_field_facts (f : str) :
  plain_field f = true ->
  forallb plain_char f = true /\ starts_with_quote f = false
  /\ Z.of_nat (length f) <= csv.field_limit.
Proof.
  unfold plain_field. rewrite !andb_true_iff, negb_true_iff, Z.leb_le. tauto.
Qed.

Lemma parse_add_char_ok (c : Z) (st : csv.parser_state) (fs : list str)
    (acc : str) :
  Z.of_nat (length acc) < csv.field_limit ->
  csv.parse_add_char c (csv.Reader st fs acc)
  = Ok (csv.Reader st fs (acc ++ [c])).
Proof.
  intros H. unfold csv.parse_add_char. cbn [csv.field csv.state csv.fields].
  rewrite Z.geb_leb. destruct (Z.leb_spec csv.field_limit (Z.of_nat (length acc)));
    [lia | reflexivity].
Qed.

(** Inside an unquoted field, plain characters are added to the field. *)
Lemma process_line_in_field (f : str) :
  forall (fs : list str) (acc rest : str),
    forallb plain_char f = true ->
    Z.of_nat (length acc + length f) <= csv.field_limit ->
    csv.process_line (csv.Reader csv.IN_FIELD fs acc) (f ++ rest)
    = csv.process_line (csv.Reader csv.IN_FIELD fs (acc ++ f)) rest.
Proof.
  induction f as [|c f IH]; intros fs acc rest Hplain Hlen.
  - rewrite app_nil_r. reflexivity.
  - cbn [forallb] in Hplain. apply andb_true_iff in Hplain as [Hc Hf].
    destruct (plain_char_facts c Hc) as (Hcomma & Hnl & Hnul & _).
    cbn [length] in Hlen.
    cbn [app csv.process_line]. rewrite Hnul.
    cbn [csv.parse_process_char csv.state].
    rewrite Hnl, Hcomma, parse_add_char_ok by lia.
    cbn [result_bind]. rewrite IH by (try assumption; rewrite length_app; cbn [length]; lia).
    rewrite <- app_assoc. reflexivity.
Qed.


Lemma comma_facts :
  (comma =? 0) = false /\ csv.is_newline comma = false
  /\ (comma =? quote) = false /\ (comma =? comma) = true.
Proof. repeat split. Qed.

(** A plain field and the comma after it, at the start of a record or of
    a field: the field is saved, and the parser waits for the next one. *)
Lemma process_line_field_comma (f : str) (st : csv.parser_state)
    (fs : list str) (rest : str) :
  st = csv.START_RECORD \/ st = csv.START_FIELD ->
  plain_field f = true ->
  csv.process_line (csv.Reader st fs []) (f ++ comma :: rest)
  = csv.process_line (csv.Reader csv.START_FIELD (fs ++ [f]) []) rest.
Proof.
  intros Hst Hf. destruct (plain_field_facts f Hf) as (Hplain & Hq & Hlen).
  destruct f as [|c f].
  - cbn [app csv.process_line].
    destruct Hst as [-> | ->]; reflexivity.
  - cbn [forallb] in Hplain. apply andb_true_iff in Hplain as [Hc Hplain].
    destruct (plain_char_facts c Hc) as (Hcomma & Hnl & Hnul & _).
    cbn [starts_with_quote] in Hq. cbn [length] in Hlen.
    assert (csv.process_line (csv.Reader st fs []) ((c :: f) ++ comma :: rest)
            = csv.process_line (csv.Reader csv.IN_FIELD fs [c])
                (f ++ comma :: rest)) as ->.
    { cbn [app csv.process_line]. rewrite Hnul.
      destruct Hst as [-> | ->];
        cbn [csv.parse_process_char csv.state csv.start_field csv.set_state
             csv.fields csv.field];
        rewrite Hnl, ?Hq, ?Hcomma;
        cbn [csv.start_field csv.set_state csv.fields csv.field];
        rewrite ?Hnl, ?Hq, ?Hcomma;
        unfold csv.set_state; cbn [csv.state csv.fields csv.field];
        rewrite parse_add_char_ok by (cbn [length]; unfold csv.field_limit; lia);
        reflexivity. }
    rewrite process_line_in_field by (try assumption; cbn [length]; lia).
    cbn [csv.process_line]. reflexivity.
Qed.

(** A plain field and the end of its line: the record is complete. *)
Lemma process_line_field_LF (f : str) (fs : list str) :
  plain_field f = true ->
  csv.process_line (csv.Reader csv.START_FIELD fs []) (f ++ [LF])
  = Ok (csv.Reader csv.START_RECORD (fs ++ [f]) []).
Proof.
  intros Hf. destruct (plain_field_facts f Hf) as (Hplain & Hq & Hlen).
  destruct f as [|c f].
  - reflexivity.
  - cbn [forallb] in Hplain. apply andb_true_iff in Hplain as [Hc Hplain].
    destruct (plain_char_facts c Hc) as (Hcomma & Hnl & Hnul & _).
    cbn [starts_with_quote] in Hq. cbn [length] in Hlen.
    cbn [app csv.process_line]. rewrite Hnul.
    cbn [csv.parse_process_char csv.state csv.start_field].
    rewrite Hnl, Hq, Hcomma.
    rewrite parse_add_char_ok by (cbn [length]; unfold csv.field_limit; lia).
    unfold csv.set_state. cbn [result_bind csv.state csv.fields csv.field].
    rewrite process_line_in_field by (try assumption; cbn [length]; lia).
    reflexivity.
Qed.

(** A line that holds a plain row parses to its three fields. *)
Lemma process_line_row (row : str * str * str) :
  plain_row row = true ->
  csv.process_line csv.reset (row_text row)
  = Ok (csv.Reader csv.START_RECORD (row_fields row) []).
Proof.
  destruct row as [[a b] c]. unfold plain_row.
  rewrite !andb_true_iff. intros [[Ha Hb] Hc].
  unfold row_text, format_row, csv.reset.
  change (a ++ [comma] ++ b ++ [comma] ++ c ++ [LF])
    with (a ++ comma :: (b ++ comma :: (c ++ [LF]))).
  rewrite process_line_field_comma by (auto).
  rewrite process_line_field_comma by (auto).
  rewrite process_line_field_LF by assumption.
  reflexivity.
Qed.

Lemma rows_from_plain (rows : list (str * str * str)) :
  forallb plain_row rows = true ->
  csv.rows_from csv.reset (map row_text rows) = (map row_fields rows, None).
Proof.
  induction rows as [|row rows IH]; intros Hrows; [reflexivity |].
  cbn [forallb] in Hrows. apply andb_true_iff in Hrows as [Hrow Hrows].
  cbn [map csv.rows_from]. rewrite process_line_row by assumption.
  cbn [csv.state csv.is_START_RECORD csv.fields]. rewrite IH by assumption.
  reflexivity.
Qed.

(** *** The lines of a text of plain rows *)

Lemma plain_field_no_CR (f : str) :
  forallb plain_char f = true -> universal_newlines f = f
  /\ forall rest, universal_newlines (f ++ rest) = f ++ universal_newlines rest.
Proof.
  induction f as [|c f IH]; intros Hplain; [split; reflexivity |].
  cbn [forallb] in Hplain. apply andb_true_iff in Hplain as [Hc Hplain].
  destruct (plain_char_facts c Hc) as (_ & _ & _ & _ & HCR).
  destruct (IH Hplain) as [IH1 IH2].
  split; [| intros rest]; cbn [app universal_newlines]; rewrite HCR;
    [rewrite IH1 | rewrite IH2]; reflexivity.
Qed.

Lemma universal_newlines_row (row : str * str * str) (rest : str) :
  plain_row row = true ->
  universal_newlines (row_text row ++ rest)
  = row_text row ++ universal_newlines rest.
Proof.
  destruct row as [[a b] c]. unfold plain_row.
  rewrite !andb_true_iff. intros [[Ha Hb] Hc].
  apply plain_field_facts in Ha as (Ha & _), Hb as (Hb & _), Hc as (Hc & _).
  unfold row_text, format_row. rewrite <- !app_assoc.
  rewrite (proj2 (plain_field_no_CR a Ha)). cbn [app universal_newlines].
  change (comma =? CR) with false. cbv iota.
  rewrite (proj2 (plain_field_no_CR b Hb)). cbn [app universal_newlines].
  change (comma =? CR) with false. cbv iota.
  rewrite (proj2 (plain_field_no_CR c Hc)). cbn [app universal_newlines].
  change (LF =? CR) with false. cbv iota. reflexivity.
Qed.

Lemma universal_newlines_rows (rows : list (str * str * str)) :
  forallb plain_row rows = true ->
  universal_newlines (rows_text rows) = rows_text rows.
Proof.
  unfold rows_text.
  induction rows as [|row rows IH]; intros Hrows; [reflexivity |].
  cbn [forallb] in Hrows. apply andb_true_iff in Hrows as [Hrow Hrows].
  cbn [map concat]. rewrite universal_newlines_row, IH by assumption.
  reflexivity.
Qed.

Lemma splitlines_no_LF (l rest : str) :
  forallb (fun c => negb (c =? LF)) l = true ->
  splitlines (l ++ LF :: rest) = (l ++ [LF]) :: splitlines rest.
Proof.
  induction l as [|c l IH]; intros Hl; [reflexivity |].
  cbn [forallb] in Hl. apply andb_true_iff in Hl as [Hc Hl].
  apply negb_true_iff in Hc.
  cbn [app splitlines]. rewrite Hc, IH by assumption. reflexivity.
Qed.

Lemma plain_field_no_LF (f : str) :
  forallb plain_char f = true -> forallb (fun c => negb (c =? LF)) f = true.
Proof.
  induction f as [|c f IH]; [reflexivity |]. cbn [forallb].
  rewrite !andb_true_iff. intros [Hc Hf]. split; [| auto].
  destruct (plain_char_facts c Hc) as (_ & _ & _ & HLF & _). rewrite HLF.
  reflexivity.
Qed.

Lemma splitlines_row (row : str * str * str) (rest : str) :
  plain_row row = true ->
  splitlines (row_text row ++ rest) = row_text row :: splitlines rest.
Proof.
  destruct row as [[a b] c]. unfold plain_row.
  rewrite !andb_true_iff. intros [[Ha Hb] Hc].
  apply plain_field_facts in Ha as (Ha & _), Hb as (Hb & _), Hc as (Hc & _).
  unfold row_text, format_row.
  replace ((a ++ [comma] ++ b ++ [comma] ++ c ++ [LF]) ++ rest)
    with ((a ++ [comma] ++ b ++ [comma] ++ c) ++ LF :: rest)
    by (rewrite <- !app_assoc; reflexivity).
  rewrite splitlines_no_LF.
  - rewrite <- !app_assoc. reflexivity.
  - rewrite !forallb_app. cbn [forallb].
    rewrite !plain_field_no_LF by assumption. reflexivity.
Qed.

Lemma readlines_rows (rows : list (str * str * str)) :
  forallb plain_row rows = true ->
  readlines (rows_text rows) = map row_text rows.
Proof.
  intros Hrows. unfold readlines. rewrite universal_newlines_rows by assumption.
  unfold rows_text.
  induction rows as [|row rows IH]; [reflexivity |].
  cbn [forallb] in Hrows. apply andb_true_iff in Hrows as [Hrow Hrows].
  cbn [map concat]. rewrite splitlines_row, IH by assumption. reflexivity.
Qed.

Lemma reader_rows_plain (rows : list (str * str * str)) :
  forallb plain_row rows = true ->
  csv.reader_rows (rows_text rows) = (map row_fields rows, None).
Proof.
  intros Hrows. unfold csv.reader_rows.
  rewrite readlines_rows by assumption. apply rows_from_plain, Hrows.
Qed.

Lemma dict_of_rows_fields (rows : list (str * str * str))
    (d : gmap (str * str) str) :
  dict_of_rows (map row_fields rows) None d = Ok (insert_rows rows d).
Proof.
  revert d. induction rows as [|[[a b] c] rows IH]; intros d; [reflexivity |].
  cbn [map row_fields dict_of_rows]. cbn [lookup list_lookup].
  rewrite IH. reflexivity.
Qed.

(** A file of plain rows reads back as the dictionary of its rows. *)
Lemma read_db_plain_rows (filename : str) (rows : list (str * str * str))
    (w : world) :
  text_files w !! filename = Some (rows_text rows) ->
  forallb plain_row rows = true ->
  read_db filename w = (w, Ok (insert_rows rows ∅)).
Proof.
  intros Hfile Hrows. unfold read_db, bind, open_r. rewrite Hfile.
  rewrite reader_rows_plain by assumption.
  unfold lift. rewrite dict_of_rows_fields. reflexivity.
Qed.


(** ** Writing text files *)

Lemma utf8_bytes_encodable (s : str) :
  encodable s = true <-> is_Some (utf8_bytes s).
Proof.
  unfold encodable. induction s as [|c s IH]; cbn [forallb utf8_bytes].
  - split; [intros _; eexists; reflexivity | reflexivity].
  - unfold encodable_char at 1. rewrite andb_true_iff, IH.
    destruct (utf8_char c) as [b|], (utf8_bytes s) as [bs|]; split;
      try (intros [H1 H2]); try (intros H);
      try discriminate; try (eexists; reflexivity);
      try (split; [reflexivity | eexists; reflexivity]);
      try (destruct H2 as [? [=]]); try (destruct H as [? [=]]).
Qed.

Lemma encodable_app (a b : str) :
  encodable (a ++ b) = encodable a && encodable b.
Proof. apply forallb_app. Qed.

Lemma write_encodable (filename text : str) (w : world) :
  encodable text = true ->
  write filename text w
  = (set_text filename (file_text filename w ++ text) w, Ok tt).
Proof.
  intros H. apply utf8_bytes_encodable in H as [bs Hbs].
  unfold write. rewrite Hbs. reflexivity.
Qed.

Lemma write_not_encodable (filename text : str) (w : world) :
  encodable text = false ->
  write filename text w = (w, Raise UnicodeEncodeError).
Proof.
  intros H. unfold write. destruct (utf8_bytes text) as [bs|] eqn:Hbs;
    [| reflexivity].
  assert (encodable text = true) as H'
    by (apply utf8_bytes_encodable; eexists; exact Hbs).
  congruence.
Qed.

Lemma set_text_set_text (filename t1 t2 : str) (w : world) :
  set_text filename t2 (set_text filename t1 w) = set_text filename t2 w.
Proof.
  unfold set_text. cbn [text_files artifacts computed].
  rewrite insert_insert_eq. reflexivity.
Qed.

Lemma file_text_set_text (filename text : str) (w : world) :
  file_text filename (set_text filename text w) = text.
Proof.
  unfold file_text, set_text. cbn [text_files].
  rewrite lookup_insert_eq. reflexivity.
Qed.

Lemma file_text_lookup (filename text : str) (w : world) :
  text_files w !! filename = Some text -> file_text filename w = text.
Proof. intros H. unfold file_text. rewrite H. reflexivity. Qed.

(** What [write_strategy_to_db] does, case by case. *)
Lemma write_strategy_to_db_cases (s : strategy) (filename fp : str)
    (w : world) :
  write_strategy_to_db s filename fp w
  = match hash_strategy s with
    | Raise e => (w, Raise e)
    | Ok h =>
        let opened :=
          match text_files w !! filename with
          | Some _ => w
          | None => set_text filename [] w
          end in
        match display_name s with
        | Raise e => (opened, Raise e)
        | Ok n =>
            if encodable (format_row n fp h) then
              (set_text filename (file_text filename w ++ format_row n fp h) w,
               Ok tt)
            else (opened, Raise UnicodeEncodeError)
        end
    end.
Proof.
  unfold write_strategy_to_db, bind, lift.
  destruct (hash_strategy s) as [h | e]; [| reflexivity].
  assert (forall n w1,
    write filename (format_row n fp h) w1
    = if encodable (format_row n fp h)
      then (set_text filename (file_text filename w1 ++ format_row n fp h) w1,
            Ok tt)
      else (w1, Raise UnicodeEncodeError)) as Hwrite.
  { intros n w1. destruct (encodable (format_row n fp h)) eqn:He.
    - apply write_encodable, He.
    - apply write_not_encodable, He. }
  unfold open_a, try_except, display_name.
  destruct (text_files w !! filename) as [old|] eqn:Hfile;
    cbn [fst snd];
    destruct (original_name s) as [on|]; cbn [getattr];
    rewrite ?Hwrite.
  - destruct (encodable (format_row on fp h)); reflexivity.
  - cbn [isinstance exn_eqb orb]. destruct (name s) as [n|]; cbn [getattr].
    + rewrite Hwrite. destruct (encodable (format_row n fp h)); reflexivity.
    + reflexivity.
  - destruct (encodable (format_row on fp h)); [| reflexivity].
    rewrite set_text_set_text, file_text_set_text.
    unfold file_text. rewrite Hfile. reflexivity.
  - cbn [isinstance exn_eqb orb]. destruct (name s) as [n|]; cbn [getattr].
    + rewrite Hwrite. destruct (encodable (format_row n fp h)); [| reflexivity].
      rewrite set_text_set_text, file_text_set_text.
      unfold file_text. rewrite Hfile. reflexivity.
    + reflexivity.
Qed.


(** ** The dictionary of the rows *)

Lemma dict_of_rows_step (row : list str) (rows : list (list str))
    (end_ : option exn) (d m : gmap (str * str) str) :
  dict_of_rows (row :: rows) end_ d = Ok m ->
  exists a b c, row !! 0%nat = Some a /\ row !! 1%nat = Some b
    /\ row !! 2%nat = Some c
    /\ dict_of_rows rows end_ (<[(a, b) := c]> d) = Ok m.
Proof.
  cbn [dict_of_rows].
  destruct (row !! 0%nat) as [a|]; [| discriminate].
  destruct (row !! 1%nat) as [b|]; [| discriminate].
  destruct (row !! 2%nat) as [c|]; [| discriminate].
  intros H. exists a, b, c. auto.
Qed.


Lemma dict_of_rows_total (rows : list (list str)) :
  forall d : gmap (str * str) str,
    Forall (fun row => (3 <= length row)%nat) rows ->
    exists m, dict_of_rows rows None d = Ok m.
Proof.
  induction rows as [|row rows IH]; intros d Hrows.
  - exists d. reflexivity.
  - apply Forall_cons in Hrows as [Hrow Hrows].
    destruct row as [|a [|b [|c row]]]; cbn [length] in Hrow; try lia.
    cbn [dict_of_rows lookup list_lookup]. apply IH, Hrows.
Qed.

(** Rows that do not have the key leave its binding alone. *)
Lemma dict_of_rows_other_keys (rows : list (list str)) (k : str * str) :
  forall (end_ : option exn) (d m : gmap (str * str) str),
    dict_of_rows rows end_ d = Ok m ->
    Forall (fun row => row_key row <> Some k) rows ->
    m !! k = d !! k.
Proof.
  induction rows as [|row rows IH]; intros end_ d m H Hrows.
  - cbn [dict_of_rows] in H. destruct end_; [discriminate |].
    injection H as <-. reflexivity.
  - apply Forall_cons in Hrows as [Hrow Hrows].
    apply dict_of_rows_step in H as (a & b & c & Ha & Hb & Hc & H).
    rewrite (IH _ _ _ H Hrows). apply lookup_insert_ne.
    intros <-. apply Hrow. unfold row_key. rewrite Ha, Hb. reflexivity.
Qed.

Lemma dict_of_rows_last_wins (rows1 rows2 : list (list str))
    (row : list str) (k1 k2 v : str) :
  forall (end_ : option exn) (d m : gmap (str * str) str),
    dict_of_rows (rows1 ++ row :: rows2) end_ d = Ok m ->
    row_key row = Some (k1, k2) -> row !! 2%nat = Some v ->
    Forall (fun row' => row_key row' <> Some (k1, k2)) rows2 ->
    m !! (k1, k2) = Some v.
Proof.
  induction rows1 as [|row1 rows1 IH]; intros end_ d m H Hkey Hv Hrows2.
  - cbn [app] in H.
    apply dict_of_rows_step in H as (a & b & c & Ha & Hb & Hc & H).
    unfold row_key in Hkey. rewrite Ha, Hb in Hkey. injection Hkey as -> ->.
    rewrite Hv in Hc. injection Hc as <-.
    rewrite (dict_of_rows_other_keys _ _ _ _ _ H Hrows2).
    apply lookup_insert_eq.
  - cbn [app] in H.
    apply dict_of_rows_step in H as (a & b & c & _ & _ & _ & H).
    exact (IH _ _ _ H Hkey Hv Hrows2).
Qed.

Lemma read_db_cases (filename : str) (w : world) :
  read_db filename w
  = match text_files w !! filename with
    | None => (w, Raise FileNotFoundError)
    | Some text =>
        (w, dict_of_rows (csv.reader_rows text).1 (csv.reader_rows text).2 ∅)
    end.
Proof.
  unfold read_db, bind, open_r.
  destruct (text_files w !! filename) as [text|]; [| reflexivity].
  destruct (csv.reader_rows text) as [rows end_]. reflexivity.
Qed.

(** C9: when several rows of the cache file have the same key, [read_db]
    binds the key to the hash of the last of them. The rows are those the
    reader yields, each with its three fields or more. *)
Theorem read_db_last_row_wins (filename text : str) (w : world)
    (rows1 rows2 : list (list str)) (row : list str) (k1 k2 v : str) :
  text_files w !! filename = Some text ->
  csv.reader_rows text = (rows1 ++ row :: rows2, None) ->
  Forall (fun row' => (3 <= length row')%nat) (rows1 ++ row :: rows2) ->
  row_key row = Some (k1, k2) -> row !! 2%nat = Some v ->
  Forall (fun row' => row_key row' <> Some (k1, k2)) rows2 ->
  exists m, read_db filename w = (w, Ok m) /\ m !! (k1, k2) = Some v.
Proof.
  intros Hfile Hrows Hlen Hkey Hv Hlast.
  rewrite read_db_cases, Hfile, Hrows. cbn [fst snd].
  destruct (dict_of_rows_total _ ∅ Hlen) as [m Hm].
  exists m. split; [rewrite Hm; reflexivity |].
  exact (dict_of_rows_last_wins _ _ _ _ _ _ _ _ _ Hm Hkey Hv Hlast).
Qed.


Lemma read_db_last_row_wins_witness :
  exists m, read_db db_csv example_world = (example_world, Ok m)
    /\ m !! (pystr "Tit For Tat", Ashlock)
       = Some (pystr "4a8a08f09d37b73795649038408b5f33").
Proof.
  apply (read_db_last_row_wins db_csv example_db_text example_world
           [[pystr "Tit For Tat"; Ashlock; pystr "0cc175b9c0f1b6a831c399e269772661"];
            [pystr "Alternator"; Ashlock; pystr "92eb5ffee6ae2fec3ad71c777531578f"]]
           [[pystr "Alternator"; Transitive; pystr "92eb5ffee6ae2fec3ad71c777531578f"]]
           [pystr "Tit For Tat"; Ashlock; pystr "4a8a08f09d37b73795649038408b5f33"]).
  - reflexivity.
  - vm_compute. reflexivity.
  - repeat constructor.
  - reflexivity.
  - reflexivity.
  - repeat constructor. vm_compute. discriminate.
Defined.

(** ** [write_strategy_to_db] and [read_db] *)






(** ** The condition of the regeneration branches *)

Lemma not_in_db_or_changed_true (db : gmap (str * str) str)
    (name fp signature : str) :
  not_in_db_or_changed db name fp signature = true
  <-> db !! (name, fp) <> Some signature.
Proof.
  unfold not_in_db_or_changed. destruct (db !! (name, fp)) as [stored|].
  - rewrite negb_true_iff, bool_decide_eq_false. split; congruence.
  - split; [discriminate | reflexivity].
Qed.

Lemma not_in_db_or_changed_false (db : gmap (str * str) str)
    (name fp signature : str) :
  not_in_db_or_changed db name fp signature = false
  <-> db !! (name, fp) = Some signature.
Proof.
  destruct (not_in_db_or_changed db name fp signature) eqn:H.
  - apply not_in_db_or_changed_true in H. split; [discriminate | contradiction].
  - split; [intros _ | reflexivity].
    destruct (decide (db !! (name, fp) = Some signature)) as [Heq | Hne];
      [exact Heq |].
    apply not_in_db_or_changed_true in Hne. congruence.
Qed.

(** ** A missing cache file *)

Lemma process_line_error (line : str) :
  forall (r : csv.reader) (e : exn),
    csv.process_line r line = Raise e -> e = csv_Error.
Proof.
  assert (forall c r e, csv.parse_add_char c r = Raise e -> e = csv_Error)
    as Hadd.
  { intros c r e. unfold csv.parse_add_char.
    destruct (_ >=? _); congruence. }
  assert (forall r c e, csv.parse_process_char r c = Raise e -> e = csv_Error)
    as Hchar.
  { intros r c e. unfold csv.parse_process_char, csv.start_field.
    destruct (csv.state r), c as [ch|];
      repeat match goal with
        | |- context [if ?b then _ else _] => destruct b
        | |- context [csv.parse_add_char ?c ?r] =>
            let H := fresh in
            destruct (csv.parse_add_char c r) eqn:H; cbn [result_bind];
            [| apply Hadd in H]
        end; congruence. }
  induction line as [|c line IH]; intros r e; cbn [csv.process_line].
  - apply Hchar.
  - destruct (c =? 0); [congruence |].
    destruct (csv.parse_process_char r (csv.Char c)) as [r'|e'] eqn:Hc;
      cbn [result_bind].
    + apply IH.
    + apply Hchar in Hc. congruence.
Qed.

Lemma rows_from_error (lines : list str) :
  forall (r : csv.reader) (rows : list (list str)) (e : exn),
    csv.rows_from r lines = (rows, Some e) -> e = csv_Error.
Proof.
  induction lines as [|line lines IH]; intros r rows e; cbn [csv.rows_from].
  - destruct (_ || _); discriminate.
  - destruct (csv.process_line r line) as [r'|e'] eqn:Hline.
    + destruct (csv.is_START_RECORD (csv.state r')).
      * destruct (csv.rows_from csv.reset lines) as [rows' e'] eqn:Hrest.
        intros [= _ ->]. exact (IH _ _ _ Hrest).
      * apply IH.
    + intros [= _ <-]. exact (process_line_error _ _ _ Hline).
Qed.

Lemma dict_of_rows_error (rows : list (list str)) :
  forall (end_ : option exn) (d : gmap (str * str) str) (e : exn),
    dict_of_rows rows end_ d = Raise e -> e = IndexError \/ end_ = Some e.
Proof.
  induction rows as [|row rows IH]; intros end_ d e; cbn [dict_of_rows].
  - destruct end_; [intros [= <-]; auto | discriminate].
  - destruct (row !! 0%nat), (row !! 1%nat), (row !! 2%nat);
      try (intros [= <-]; auto). apply IH.
Qed.

Lemma read_db_FileNotFoundError (filename : str) (w : world) :
  (read_db filename w).2 = Raise FileNotFoundError
  <-> text_files w !! filename = None.
Proof.
  rewrite read_db_cases.
  destruct (text_files w !! filename) as [text|]; cbn [snd];
    [| split; reflexivity].
  split; [| discriminate]. intros H.
  apply dict_of_rows_error in H as [[=] | H].
  unfold csv.reader_rows in H.
  destruct (csv.rows_from csv.reset (readlines text)) as [rows e] eqn:Hrows.
  cbn [snd] in H. subst e. apply rows_from_error in Hrows. discriminate.
Qed.

Lemma read_db_empty_file (filename : str) (w : world) :
  text_files w !! filename = Some [] -> read_db filename w = (w, Ok ∅).
Proof. intros H. rewrite read_db_cases, H. reflexivity. Qed.

Lemma main_read_db_missing (w : world) :
  text_files w !! db_csv = None ->
  main_read_db w = (set_text db_csv [] w, Ok ∅).
Proof.
  intros Hfile. unfold main_read_db, try_except.
  rewrite read_db_cases, Hfile. cbn [isinstance exn_eqb orb].
  unfold bind, create_db, open_w. apply read_db_empty_file.
  apply lookup_insert_eq.
Qed.

Lemma main_read_db_present (w : world) :
  is_Some (text_files w !! db_csv) -> main_read_db w = read_db db_csv w.
Proof.
  intros [text Hfile]. unfold main_read_db, try_except.
  destruct (read_db db_csv w) as [w' [m|e]] eqn:Hread; [reflexivity |].
  assert (e <> FileNotFoundError) as He.
  { intros ->. assert ((read_db db_csv w).2 = Raise FileNotFoundError) as H
      by (rewrite Hread; reflexivity).
    apply read_db_FileNotFoundError in H. congruence. }
  destruct e; try reflexivity. congruence.
Qed.


(** C6, as the code has it: when the cache file is missing, [main] creates
    it empty and goes on with the empty dictionary, as if it had been
    started on the empty file; on the file just created [read_db] returns
    the empty dictionary; and [read_db] raises [FileNotFoundError] exactly
    when the file is missing. (On a file that exists it can raise another
    exception, see [read_db_short_row].) *)
Theorem main_creates_missing_db (version axlf_version : str)
    (short_run_time_strategies : list strategy) (all_strategies : list str)
    (Player : str -> strategy) (t r tt' tr tvt tvr : Z) (w : world) :
  text_files w !! db_csv = None ->
  main_read_db w = (set_text db_csv [] w, Ok ∅)
  /\ text_files (set_text db_csv [] w) !! db_csv = Some []
  /\ read_db db_csv (set_text db_csv [] w) = (set_text db_csv [] w, Ok ∅)
  /\ main version axlf_version short_run_time_strategies all_strategies
       Player t r tt' tr tvt tvr w
     = main version axlf_version short_run_time_strategies all_strategies
         Player t r tt' tr tvt tvr (set_text db_csv [] w)
  /\ (forall w0, (read_db db_csv w0).2 = Raise FileNotFoundError
                 <-> text_files w0 !! db_csv = None).
Proof.
  intros Hfile.
  assert (text_files (set_text db_csv [] w) !! db_csv = Some []) as Hnew
    by apply lookup_insert_eq.
  split; [apply main_read_db_missing, Hfile |].
  split; [exact Hnew |].
  split; [apply read_db_empty_file, Hnew |].
  split; [| intros w0; apply read_db_FileNotFoundError].
  unfold main, bind.
  rewrite (main_read_db_missing w Hfile).
  rewrite (main_read_db_present (set_text db_csv [] w)) by eauto.
  rewrite (read_db_empty_file _ _ Hnew). reflexivity.
Qed.

Lemma main_creates_missing_db_witness :
  main_read_db empty_world = (set_text db_csv [] empty_world, Ok ∅)
  /\ text_files (set_text db_csv [] empty_world) !! db_csv = Some [].
Proof.
  split;
    apply (main_creates_missing_db [] [] [] [] (fun _ => example_player)
             200 50 200 50 200 50 empty_world);
    reflexivity.
Defined.

(** C6 as stated fails: [read_db] also raises on a file that exists, here
    [IndexError] on a row of two fields. *)
Lemma read_db_short_row :
  is_Some (text_files short_row_world !! db_csv)
  /\ read_db db_csv short_row_world = (short_row_world, Raise IndexError).
Proof.
  split; [eexists; reflexivity |]. vm_compute. reflexivity.
Qed.


(** ** Writing the cache and reading it back *)

Lemma lower_hex_plain_encodable (c : Z) :
  lower_hex c = true -> plain_char c = true /\ encodable_char c = true
                        /\ (c =? quote) = false.
Proof.
  unfold lower_hex. rewrite orb_true_iff, !andb_true_iff, !Z.leb_le.
  intros Hc.
  assert (c <> comma /\ c <> LF /\ c <> CR /\ c <> 0 /\ c <> quote
          /\ 0 <= c < 128) as (H1 & H2 & H3 & H4 & H5 & H6)
    by (unfold comma, LF, CR, quote; lia).
  unfold plain_char, csv.is_newline, encodable_char, utf8_char.
  apply Z.eqb_neq in H1, H2, H3, H4, H5. rewrite H1, H2, H3, H4, H5.
  destruct (Z.ltb_spec c 0); [lia |].
  destruct (Z.ltb_spec c 128); [| lia]. repeat split.
Qed.

Lemma hash_storable (h : str) :
  length h = 32%nat -> Forall (fun c => lower_hex c = true) h ->
  plain_field h = true /\ encodable h = true.
Proof.
  intros Hlen Hhex. unfold plain_field, encodable.
  assert (forallb plain_char h = true /\ forallb encodable_char h = true
          /\ starts_with_quote h = false) as (H1 & H2 & H3).
  { clear Hlen. induction Hhex as [|c h Hc _ (IH1 & IH2 & _)];
      [repeat split |].
    destruct (lower_hex_plain_encodable c Hc) as (Hp & He & Hq).
    cbn [forallb starts_with_quote]. rewrite Hp, He, IH1, IH2, Hq.
    repeat split. }
  rewrite H1, H2, H3, Hlen. repeat split.
Qed.

Lemma hash_strategy_storable (s : strategy) (h : str) :
  hash_strategy s = Ok h -> plain_field h = true /\ encodable h = true.
Proof.
  intros Hh. destruct (hash_strategy_shape s h Hh). apply hash_storable; auto.
Qed.

Lemma encodable_format_row (a b c : str) :
  encodable (format_row a b c) = encodable a && encodable b && encodable c.
Proof.
  unfold format_row. rewrite !encodable_app.
  change (encodable [comma]) with true. change (encodable [LF]) with true.
  rewrite !andb_true_l, andb_true_r, andb_assoc. reflexivity.
Qed.

(** A call on a strategy with a name and a hash, for a row that the codec
    accepts: the row is appended. *)
Lemma write_strategy_to_db_row (s : strategy) (filename fp n h : str)
    (w : world) :
  display_name s = Ok n -> hash_strategy s = Ok h ->
  encodable n = true -> encodable fp = true ->
  write_strategy_to_db s filename fp w
  = (set_text filename (file_text filename w ++ row_text (n, fp, h)) w, Ok tt).
Proof.
  intros Hn Hh Hen Hefp. rewrite write_strategy_to_db_cases, Hh, Hn.
  cbv zeta. rewrite encodable_format_row, Hen, Hefp.
  rewrite (proj2 (hash_strategy_storable s h Hh)). reflexivity.
Qed.

Lemma rows_text_app (rows1 rows2 : list (str * str * str)) :
  rows_text (rows1 ++ rows2) = rows_text rows1 ++ rows_text rows2.
Proof. unfold rows_text. rewrite map_app, concat_app. reflexivity. Qed.

Lemma rows_text_cons (row : str * str * str) (rows : list (str * str * str)) :
  rows_text (row :: rows) = row_text row ++ rows_text rows.
Proof. reflexivity. Qed.

Lemma write_entries_rows (entries : list (strategy * str)) :
  forall (rows : list (str * str * str)) (filename text : str) (w : world),
    Forall2 entry_row entries rows ->
    forallb storable_row rows = true ->
    text_files w !! filename = Some text ->
    exists w',
      write_entries entries filename w = (w', Ok tt)
      /\ text_files w' !! filename = Some (text ++ rows_text rows)
      /\ artifacts w' = artifacts w /\ computed w' = computed w.
Proof.
  induction entries as [|[s fp] entries IH];
    intros rows filename text w Hrows Hst Hfile.
  - apply Forall2_nil_inv_l in Hrows as ->. exists w.
    rewrite app_nil_r. auto.
  - apply Forall2_cons_inv_l in Hrows
      as ([[n k] h] & rows' & (Hn & -> & Hh) & Hrows & ->).
    cbn [forallb storable_row] in Hst.
    unfold storable in Hst. rewrite !andb_true_iff in Hst.
    destruct Hst as [[[_ Hen] [_ Hek]] Hst].
    cbn [write_entries]. unfold bind.
    rewrite (write_strategy_to_db_row s filename fp n h w Hn Hh Hen Hek).
    rewrite (file_text_lookup _ _ _ Hfile). cbv beta iota.
    destruct (IH rows' filename (text ++ row_text (n, fp, h))
                (set_text filename (text ++ row_text (n, fp, h)) w)
                Hrows Hst) as (w' & Hrun & Htext & Ha & Hc).
    { apply lookup_insert_eq. }
    exists w'. rewrite Hrun, Htext, rows_text_cons, <- app_assoc.
    repeat split; assumption.
Qed.

Lemma storable_row_plain (s : strategy) (fp : str) (row : str * str * str) :
  entry_row (s, fp) row -> storable_row row = true -> plain_row row = true.
Proof.
  destruct row as [[n k] h]. intros (_ & _ & Hh).
  unfold storable_row, storable, plain_row. rewrite !andb_true_iff.
  intros [[Hn _] [Hk _]].
  rewrite (proj1 (hash_strategy_storable s h Hh)). auto.
Qed.

Lemma storable_rows_plain (entries : list (strategy * str))
    (rows : list (str * str * str)) :
  Forall2 entry_row entries rows -> forallb storable_row rows = true ->
  forallb plain_row rows = true.
Proof.
  induction 1 as [|[s fp] row entries rows Hrow _ IH]; [reflexivity |].
  cbn [forallb]. rewrite !andb_true_iff. intros [Hst Hrest].
  split; [exact (storable_row_plain s fp row Hrow Hst) | auto].
Qed.

(** The dictionary of rows with distinct keys. *)
Lemma insert_rows_list_to_map (rows : list (str * str * str)) :
  forall d : gmap (str * str) str,
    insert_rows rows d = list_to_map (reverse (map row_binding rows)) ∪ d.
Proof.
  induction rows as [|[[n k] h] rows IH]; intros d.
  - cbn. rewrite (left_id_L ∅ (∪)). reflexivity.
  - cbn [insert_rows fold_left map row_binding].
    change (fold_left _ rows ?d') with (insert_rows rows d').
    rewrite IH, reverse_cons, list_to_map_app. cbn [list_to_map foldr].
    cbn [fst snd]. rewrite <- (assoc_L (∪)), <- insert_union_l.
    rewrite (left_id_L ∅ (∪)). reflexivity.
Qed.

Lemma insert_rows_NoDup (rows : list (str * str * str)) :
  NoDup (map fst (map row_binding rows)) ->
  insert_rows rows ∅ = list_to_map (map row_binding rows).
Proof.
  intros Hnd. rewrite insert_rows_list_to_map, (right_id_L ∅ (∪)).
  apply list_to_map_proper; [| apply reverse_Permutation].
  change (map fst ?l) with (l.*1).
  rewrite fmap_reverse, reverse_Permutation. exact Hnd.
Qed.


(** C3, as the code has it: take a cache mapping and entries (strategy,
    kind) that give its bindings, each once; let the names and the kinds be
    storable (no comma, no line ending, no NUL, no double quote in front,
    at most 131072 characters, no lone surrogate). Writing the entries to
    an empty cache file with [write_strategy_to_db] and reading the file
    with [read_db] gives the mapping back. *)
Theorem write_entries_read_db (m : gmap (str * str) str)
    (entries : list (strategy * str)) (rows : list (str * str * str))
    (filename : str) (w : world) :
  text_files w !! filename = Some [] ->
  Forall2 entry_row entries rows ->
  NoDup (map fst (map row_binding rows)) ->
  m = list_to_map (map row_binding rows) ->
  forallb storable_row rows = true ->
  exists w',
    write_entries entries filename w = (w', Ok tt)
    /\ read_db filename w' = (w', Ok m).
Proof.
  intros Hfile Hrows Hnd -> Hst.
  destruct (write_entries_rows entries rows filename [] w Hrows Hst Hfile)
    as (w' & Hrun & Htext & _).
  exists w'. split; [exact Hrun |].
  rewrite <- insert_rows_NoDup by exact Hnd.
  apply read_db_plain_rows; [exact Htext |].
  exact (storable_rows_plain entries rows Hrows Hst).
Qed.

Lemma write_entries_read_db_witness :
  exists w',
    write_entries example_entries db_csv created_world = (w', Ok tt)
    /\ read_db db_csv w'
       = (w', Ok (list_to_map (map row_binding example_rows))).
Proof.
  apply (write_entries_read_db _ example_entries example_rows db_csv
           created_world).
  - reflexivity.
  - repeat constructor; vm_compute; reflexivity.
  - apply (bool_decide_unpack _). vm_compute. exact I.
  - reflexivity.
  - vm_compute. reflexivity.
Defined.

(** C3 as stated fails: the row of a name with a comma is read back as
    another binding. *)
Lemma write_entries_read_db_comma :
  exists w' h,
    hash_strategy example_comma = Ok h
    /\ write_entries [(example_comma, Ashlock)] db_csv created_world
       = (w', Ok tt)
    /\ read_db db_csv w'
       = (w', Ok {[ (pystr "Grudger", pystr " Forgiving") := Ashlock ]})
    /\ ({[ (pystr "Grudger", pystr " Forgiving") := Ashlock ]}
         : gmap (str * str) str) !! (pystr "Grudger, Forgiving", Ashlock)
       = None.
Proof.
  assert (hash_strategy example_comma
          = Ok (pystr "6bb7fd4c3db51f33b440050a9ef0ffc8")) as Hh.
  { vm_compute. reflexivity. }
  pose (text := row_text (pystr "Grudger, Forgiving", Ashlock,
                           pystr "6bb7fd4c3db51f33b440050a9ef0ffc8")).
  exists (set_text db_csv text created_world),
    (pystr "6bb7fd4c3db51f33b440050a9ef0ffc8").
  split; [exact Hh |]. split; [| split].
  - cbn [write_entries]. unfold bind.
    rewrite (write_strategy_to_db_row example_comma db_csv Ashlock
               (pystr "Grudger, Forgiving") _ created_world eq_refl Hh
               eq_refl eq_refl).
    unfold created_world at 1. rewrite file_text_set_text. reflexivity.
  - rewrite read_db_cases.
    assert (text_files (set_text db_csv text created_world) !! db_csv
            = Some text) as -> by apply lookup_insert_eq.
    assert (csv.reader_rows text
            = ([[pystr "Grudger"; pystr " Forgiving"; Ashlock;
                 pystr "6bb7fd4c3db51f33b440050a9ef0ffc8"]], None)) as ->
      by (vm_compute; reflexivity).
    reflexivity.
  - apply lookup_singleton_ne. discriminate.
Qed.

(** ** What an iteration leaves alone *)



Section always.

Context {A B : Type} (R : world -> world -> Prop).
Hypothesis R_refl : forall w, R w w.
Hypothesis R_trans : forall w1 w2 w3, R w1 w2 -> R w2 w3 -> R w1 w3.

Lemma always_ret (a : A) : always R (ret a).
Proof. intros w. apply R_refl. Qed.

Lemma always_lift (r : result A) : always R (lift r).
Proof. intros w. apply R_refl. Qed.

Lemma always_bind (m : M A) (k : A -> M B) :
  always R m -> (forall a, always R (k a)) -> always R (bind m k).
Proof.
  intros Hm Hk w. unfold bind. specialize (Hm w).
  destruct (m w) as [w' [a | e]]; cbn [fst] in *.
  - exact (R_trans _ _ _ Hm (Hk a w')).
  - exact Hm.
Qed.

End always.

Lemma always_when (R : world -> world -> Prop) (cond : bool) (body : M unit) :
  (forall w, R w w) -> always R body -> always R (when cond body).
Proof.
  intros Hrefl Hbody. destruct cond; [exact Hbody |].
  apply always_ret, Hrefl.
Qed.







Lemma kinds_distinct :
  Ashlock <> Transitive /\ Ashlock <> Transitive_v_short
  /\ Transitive <> Transitive_v_short.
Proof. repeat split; discriminate. Qed.



Section fresh.

Variable short_run_time_strategies : list strategy.
Variable all_strategies : list str.
Variable Player : str -> strategy.
Variables tt' tr tvt tvr : Z.
Variable db : gmap (str * str) str.







End fresh.



(** ** What an iteration adds *)

Lemma extends_refl (w : world) :
  is_Some (text_files w !! db_csv) -> extends [] [] w w.
Proof.
  intros [text Hfile]. unfold extends.
  rewrite (file_text_lookup _ _ _ Hfile), !app_nil_r. auto.
Qed.

Lemma extends_trans (rows1 rows2 : list (str * str * str))
    (fps1 fps2 : list computation) (w1 w2 w3 : world) :
  extends rows1 fps1 w1 w2 -> extends rows2 fps2 w2 w3 ->
  extends (rows1 ++ rows2) (fps1 ++ fps2) w1 w3.
Proof.
  intros [Hf1 Hc1] [Hf2 Hc2]. unfold extends.
  rewrite Hf2, Hc2, Hc1, (file_text_lookup _ _ _ Hf1), rows_text_app,
    !app_assoc.
  auto.
Qed.

Lemma extends_is_Some (rows : list (str * str * str))
    (fps : list computation) (w w' : world) :
  extends rows fps w w' -> is_Some (text_files w' !! db_csv).
Proof. intros [Hf _]. eauto. Qed.

Lemma bind_ok {A B} (m : M A) (k : A -> M B) (w w1 : world) (a : A) :
  m w = (w1, Ok a) -> bind m k w = k a w1.
Proof. intros H. unfold bind. rewrite H. reflexivity. Qed.

Lemma computes_ret : computes (ret tt) [].
Proof. intros w. exists w. rewrite app_nil_r. auto. Qed.

Lemma computes_obtain_transitive_fingerprint (s : strategy) (n : str)
    (turns repetitions : Z) :
  display_name s = Ok n ->
  computes (obtain_transitive_fingerprint s turns repetitions)
    [TransitiveFingerprint s turns repetitions].
Proof.
  intros Hn w. unfold obtain_transitive_fingerprint, bind, fingerprint, lift,
    save. rewrite Hn. eexists. split; [reflexivity |]. auto.
Qed.

Lemma computes_obtain_transitive_fingerprint_v_short (s : strategy) (n : str)
    (turns repetitions : Z) :
  display_name s = Ok n ->
  computes (obtain_transitive_fingerprint_v_short s turns repetitions)
    [TransitiveFingerprint_v_short s turns repetitions].
Proof.
  intros Hn w. unfold obtain_transitive_fingerprint_v_short, bind,
    fingerprint, lift, save. rewrite Hn. eexists. split; [reflexivity |].
  auto.
Qed.

(** A regeneration branch: when its condition holds, the fingerprint is
    computed and the row appended; otherwise nothing happens. *)
Lemma branch_extends (obtain : M unit) (fps : list computation)
    (s : strategy) (fp dn h : str) (cond : bool) (w : world) :
  computes obtain fps ->
  display_name s = Ok dn -> hash_strategy s = Ok h ->
  encodable dn = true -> encodable fp = true ->
  is_Some (text_files w !! db_csv) ->
  exists w',
    when cond (obtain ;;; write_strategy_to_db s db_csv fp) w = (w', Ok tt)
    /\ extends (if cond then [(dn, fp, h)] else []) (if cond then fps else [])
         w w'.
Proof.
  intros Hobtain Hdn Hh Hedn Hefp Hfile. destruct cond; cbn [when].
  - destruct (Hobtain w) as (w1 & Hrun & Htext & Hcomp).
    rewrite (bind_ok _ _ _ _ _ Hrun).
    rewrite (write_strategy_to_db_row s db_csv fp dn h w1 Hdn Hh Hedn Hefp).
    eexists. split; [reflexivity |]. unfold extends.
    cbn [set_text text_files computed]. rewrite lookup_insert_eq.
    unfold file_text. rewrite Htext, Hcomp.
    unfold rows_text. cbn [map concat]. rewrite app_nil_r. auto.
  - exists w. split; [reflexivity | apply extends_refl, Hfile].
Qed.

Lemma stale_kinds_rows (db : gmap (str * str) str) (n h dn h' : str) :
  map (fun fp => (dn, fp, h')) (stale_kinds db n h)
  = (if not_in_db_or_changed db n Ashlock h then [(dn, Ashlock, h')] else [])
    ++ (if not_in_db_or_changed db n Transitive h
        then [(dn, Transitive, h')] else [])
    ++ (if not_in_db_or_changed db n Transitive_v_short h
        then [(dn, Transitive_v_short, h')] else []).
Proof.
  unfold stale_kinds, kinds. cbn [List.filter].
  destruct (not_in_db_or_changed db n Ashlock h),
    (not_in_db_or_changed db n Transitive h),
    (not_in_db_or_changed db n Transitive_v_short h); reflexivity.
Qed.

(** *** The report can be written *)

Lemma encodable_join (sep : str) (parts : list str) :
  encodable sep = true -> forallb encodable parts = true ->
  encodable (join sep parts) = true.
Proof.
  intros Hsep. induction parts as [|p [|q parts] IH]; [reflexivity | |].
  - cbn [forallb join]. rewrite andb_true_r. auto.
  - intros H. cbn [forallb] in H. apply andb_true_iff in H as [Hp H].
    change (join sep (p :: q :: parts)) with (p ++ sep ++ join sep (q :: parts)).
    rewrite !encodable_app, Hp, Hsep, IH by exact H. reflexivity.
Qed.

Lemma allowed_encodable (c : Z) : allowed c = true -> encodable_char c = true.
Proof.
  intros Hc. assert (0 <= c < 128) as Hrange.
  { revert Hc. unfold allowed.
    rewrite !orb_true_iff, !andb_true_iff, !Z.leb_le, str_in_In.
    let l := eval vm_compute in (pystr "-_.()") in
    change (pystr "-_.()") with l.
    cbn [In]. lia. }
  unfold encodable_char, utf8_char.
  destruct (Z.ltb_spec c 0); [lia |].
  destruct (Z.ltb_spec c 128); [reflexivity | lia].
Qed.

Lemma encodable_format_filename (s : str) :
  encodable (format_filename s) = true.
Proof.
  unfold encodable. apply forallb_forall. intros c Hc.
  apply allowed_encodable.
  pose proof (format_filename_allowed s) as Hall.
  rewrite List.Forall_forall in Hall. apply Hall, Hc.
Qed.

Lemma pystr_String (a : ascii) (s : string) :
  pystr (String a s) = Z.of_N (N_of_ascii a) :: pystr s.
Proof. reflexivity. Qed.

Lemma encodable_string_of_uint (d : Decimal.uint) :
  encodable (pystr (NilEmpty.string_of_uint d)) = true.
Proof.
  induction d; cbn [NilEmpty.string_of_uint]; rewrite ?pystr_String;
    [reflexivity | ..]; cbn [encodable forallb]; exact IHd.
Qed.

Lemma encodable_str_of_int (n : Z) : encodable (str_of_int n) = true.
Proof.
  unfold str_of_int, NilZero.string_of_int, NilZero.string_of_uint.
  destruct (Z.to_int n) as [d | d]; destruct d;
    try reflexivity; rewrite ?pystr_String;
    try apply (encodable_string_of_uint (Decimal.D0 _));
    try apply (encodable_string_of_uint (Decimal.D1 _));
    try apply (encodable_string_of_uint (Decimal.D2 _));
    try apply (encodable_string_of_uint (Decimal.D3 _));
    try apply (encodable_string_of_uint (Decimal.D4 _));
    try apply (encodable_string_of_uint (Decimal.D5 _));
    try apply (encodable_string_of_uint (Decimal.D6 _));
    try apply (encodable_string_of_uint (Decimal.D7 _));
    try apply (encodable_string_of_uint (Decimal.D8 _));
    try apply (encodable_string_of_uint (Decimal.D9 _)).
Qed.

Ltac solve_encodable :=
  repeat first
    [ rewrite encodable_app
    | rewrite encodable_format_filename
    | rewrite encodable_str_of_int
    | match goal with
      | H : encodable ?s = true |- context [encodable ?s] => rewrite H
      end ];
  reflexivity.

Lemma write_markdown_encodable (s : strategy) (n : str) :
  display_name s = Ok n -> encodable n = true ->
  exists section, write_markdown s = Ok section /\ encodable section = true.
Proof.
  intros Hn He. unfold write_markdown. rewrite Hn. cbn [result_bind].
  eexists. split; [reflexivity |].
  apply encodable_join; [reflexivity |]. cbn [forallb].
  solve_encodable.
Qed.

Lemma main_markdown_encodable (version axlf_version : str)
    (turns repetitions : Z) :
  encodable version = true -> encodable axlf_version = true ->
  encodable (main_markdown version axlf_version turns repetitions) = true.
Proof.
  intros Hv Ha. unfold main_markdown.
  apply encodable_join; [reflexivity |]. cbn [forallb].
  solve_encodable.
Qed.

Lemma kinds_encodable :
  encodable Ashlock = true /\ encodable Transitive = true
  /\ encodable Transitive_v_short = true.
Proof. repeat split. Qed.

Section iterations.

Variable short_run_time_strategies : list strategy.
Variable Player : str -> strategy.
Variables tt' tr tvt tvr : Z.
Variable db : gmap (str * str) str.

(** An iteration of the first loop on a strategy that has a name and a
    hash: it returns, having appended the rows of the stale kinds and
    computed their fingerprints. *)
Lemma main_loop_axelrod_extends (s : strategy) (n dn h : str) (w : world) :
  name s = Some n -> display_name s = Ok dn -> hash_strategy s = Ok h ->
  encodable dn = true ->
  is_Some (text_files w !! db_csv) ->
  exists w' section,
    main_loop_axelrod tt' tr tvt tvr db s w = (w', Ok section)
    /\ extends (axelrod_rows db s) (axelrod_fingerprints tt' tr tvt tvr db s)
         w w'
    /\ encodable section = true.
Proof.
  intros Hn Hdn Hh He Hfile.
  destruct kinds_encodable as (HeA & HeT & HeV).
  unfold main_loop_axelrod, axelrod_rows, axelrod_fingerprints.
  rewrite Hn, Hdn, Hh. cbn [getattr].
  change (bind (lift (Ok ?a)) ?k) with (k a). cbv beta.
  change (bind (lift (Ok ?a)) ?k) with (k a). cbv beta.
  rewrite stale_kinds_rows.
  destruct (branch_extends (ret tt) [] s Ashlock dn h
              (not_in_db_or_changed db n Ashlock h) w computes_ret
              Hdn Hh He HeA Hfile) as (w1 & Hrun1 & Hext1).
  change (when ?c (ret tt ;;; ?m)) with (when c m) in Hrun1.
  rewrite (bind_ok _ _ _ _ _ Hrun1).
  destruct (branch_extends _ _ s Transitive dn h
              (not_in_db_or_changed db n Transitive h) w1
              (computes_obtain_transitive_fingerprint s dn tt' tr Hdn)
              Hdn Hh He HeT (extends_is_Some _ _ _ _ Hext1))
    as (w2 & Hrun2 & Hext2).
  rewrite (bind_ok _ _ _ _ _ Hrun2).
  destruct (branch_extends _ _ s Transitive_v_short dn h
              (not_in_db_or_changed db n Transitive_v_short h) w2
              (computes_obtain_transitive_fingerprint_v_short s dn tvt tvr Hdn)
              Hdn Hh He HeV (extends_is_Some _ _ _ _ Hext2))
    as (w3 & Hrun3 & Hext3).
  rewrite (bind_ok _ _ _ _ _ Hrun3).
  destruct (write_markdown_encodable s dn Hdn He) as (section & Hmd & Hes).
  exists w3, section. unfold lift. rewrite Hmd.
  split; [reflexivity |]. split; [| exact Hes].
  pose proof (extends_trans _ _ _ _ _ _ _ Hext1
                (extends_trans _ _ _ _ _ _ _ Hext2 Hext3)) as Hext.
  destruct (not_in_db_or_changed db n Ashlock h); exact Hext.
Qed.

(** An iteration of the second loop on a player that can be hashed, when
    the first loop has left a strategy: the rows and the fingerprints are
    those of that strategy, for the kinds that are stale for the player. *)
Lemma main_loop_fortran_extends (player_name pn ph : str) (s : strategy)
    (dn h : str) (w : world) :
  original_name (Player player_name) = Some pn ->
  hash_strategy (Player player_name) = Ok ph ->
  strategy_after_loop short_run_time_strategies = Ok s ->
  display_name s = Ok dn -> hash_strategy s = Ok h -> encodable dn = true ->
  is_Some (text_files w !! db_csv) ->
  exists w' section,
    main_loop_fortran short_run_time_strategies Player tt' tr db player_name w
    = (w', Ok section)
    /\ extends (fortran_rows short_run_time_strategies Player db player_name)
         (fortran_fingerprints short_run_time_strategies Player tt' tr db
            player_name) w w'
    /\ encodable section = true.
Proof.
  intros Hpn Hph Hs Hdn Hh He Hfile.
  destruct kinds_encodable as (HeA & HeT & HeV).
  unfold main_loop_fortran, fortran_rows, fortran_fingerprints.
  rewrite Hpn, Hph, Hs, Hdn, Hh. cbn [getattr].
  change (bind (lift (Ok ?a)) ?k) with (k a). cbv beta.
  change (bind (lift (Ok ?a)) ?k) with (k a). cbv beta.
  rewrite stale_kinds_rows.
  destruct (branch_extends (ret tt) [] s Ashlock dn h
              (not_in_db_or_changed db pn Ashlock ph) w computes_ret
              Hdn Hh He HeA Hfile) as (w1 & Hrun1 & Hext1).
  change (when ?c (ret tt ;;; ?m))
    with (when c (strategy <- lift (Ok s) ;; write_strategy_to_db strategy db_csv Ashlock))
    in Hrun1.
  rewrite (bind_ok _ _ _ _ _ Hrun1).
  destruct (branch_extends _ _ s Transitive dn h
              (not_in_db_or_changed db pn Transitive ph) w1
              (computes_obtain_transitive_fingerprint s dn tt' tr Hdn)
              Hdn Hh He HeT (extends_is_Some _ _ _ _ Hext1))
    as (w2 & Hrun2 & Hext2).
  change (when ?c (?o ;;; ?m))
    with (when c (strategy <- lift (Ok s) ;;
                  obtain_transitive_fingerprint strategy tt' tr ;;;
                  write_strategy_to_db strategy db_csv Transitive))
    in Hrun2.
  rewrite (bind_ok _ _ _ _ _ Hrun2).
  destruct (branch_extends _ _ s Transitive_v_short dn h
              (not_in_db_or_changed db pn Transitive_v_short ph) w2
              (computes_obtain_transitive_fingerprint_v_short s dn tt' tr Hdn)
              Hdn Hh He HeV (extends_is_Some _ _ _ _ Hext2))
    as (w3 & Hrun3 & Hext3).
  change (when ?c (?o ;;; ?m))
    with (when c (strategy <- lift (Ok s) ;;
                  obtain_transitive_fingerprint_v_short strategy tt' tr ;;;
                  write_strategy_to_db strategy db_csv Transitive_v_short))
    in Hrun3.
  rewrite (bind_ok _ _ _ _ _ Hrun3).
  change (bind (lift (Ok ?a)) ?k) with (k a). cbv beta.
  destruct (write_markdown_encodable s dn Hdn He) as (section & Hmd & Hes).
  exists w3, section. unfold lift. rewrite Hmd.
  split; [reflexivity |]. split; [| exact Hes].
  pose proof (extends_trans _ _ _ _ _ _ _ Hext1
                (extends_trans _ _ _ _ _ _ _ Hext2 Hext3)) as Hext.
  destruct (not_in_db_or_changed db pn Ashlock ph); exact Hext.
Qed.

End iterations.

(** ** The loops *)

Lemma for_each_extends {A} (body : A -> M str)
    (rowsf : A -> list (str * str * str)) (fpsf : A -> list computation)
    (xs : list A) :
  (forall x, In x xs -> forall w, is_Some (text_files w !! db_csv) ->
     exists w' section,
       body x w = (w', Ok section)
       /\ extends (rowsf x) (fpsf x) w w' /\ encodable section = true) ->
  forall (markdown : str) (w : world),
    is_Some (text_files w !! db_csv) -> encodable markdown = true ->
    exists w' markdown',
      for_each xs body markdown w = (w', Ok markdown')
      /\ extends (flat_map rowsf xs) (flat_map fpsf xs) w w'
      /\ encodable markdown' = true.
Proof.
  induction xs as [|x xs IH]; intros Hbody markdown w Hfile Hmd.
  - exists w, markdown. split; [reflexivity |].
    split; [apply extends_refl, Hfile | exact Hmd].
  - destruct (Hbody x (or_introl eq_refl) w Hfile)
      as (w1 & section & Hrun & Hext & Hsec).
    cbn [for_each flat_map]. rewrite (bind_ok _ _ _ _ _ Hrun).
    destruct (IH (fun y Hy => Hbody y (or_intror Hy)) (markdown ++ section) w1
                (extends_is_Some _ _ _ _ Hext))
      as (w2 & markdown' & Hrun' & Hext' & Hmd').
    { rewrite encodable_app, Hmd, Hsec. reflexivity. }
    exists w2, markdown'. split; [exact Hrun' |].
    split; [exact (extends_trans _ _ _ _ _ _ _ Hext Hext') | exact Hmd'].
Qed.

Lemma stale_kinds_In (db : gmap (str * str) str) (n h fp : str) :
  In fp (stale_kinds db n h)
  <-> In fp kinds /\ not_in_db_or_changed db n fp h = true.
Proof.
  unfold stale_kinds.
  exact (List.filter_In (fun fp => not_in_db_or_changed db n fp h) fp kinds).
Qed.

Lemma axelrod_rows_of_strategies (db : gmap (str * str) str)
    (strategies : list strategy) (s : strategy) (row : str * str * str) :
  In s strategies -> cacheable s -> In row (axelrod_rows db s) ->
  row_of_strategies strategies row.
Proof.
  intros Hs (n & h & Hn & Hdn & Hh & Hst) Hrow.
  unfold axelrod_rows in Hrow. rewrite Hn, Hdn, Hh in Hrow.
  apply in_map_iff in Hrow as (fp & <- & Hfp).
  apply stale_kinds_In in Hfp as [Hfp _].
  exists s, n, h, fp. repeat split; assumption.
Qed.

Lemma strategy_after_loop_In (strategies : list strategy) (s : strategy) :
  strategy_after_loop strategies = Ok s -> In s strategies.
Proof.
  unfold strategy_after_loop.
  destruct (last strategies) as [s'|] eqn:Hlast; [| discriminate].
  intros [= <-]. apply list_elem_of_In, last_Some_elem_of, Hlast.
Qed.

Lemma strategy_after_loop_nonempty (strategies : list strategy) :
  strategies <> [] -> exists s, strategy_after_loop strategies = Ok s.
Proof.
  intros Hne. unfold strategy_after_loop.
  destruct (last strategies) as [s|] eqn:Hlast; [eauto |].
  apply last_None in Hlast. contradiction.
Qed.

Lemma fortran_rows_of_strategies (db : gmap (str * str) str)
    (strategies : list strategy) (Player : str -> strategy)
    (player_name : str) (row : str * str * str) :
  Forall cacheable strategies ->
  In row (fortran_rows strategies Player db player_name) ->
  row_of_strategies strategies row.
Proof.
  intros Hall Hrow. unfold fortran_rows in Hrow.
  destruct (original_name (Player player_name)) as [pn|]; [| destruct Hrow].
  destruct (hash_strategy (Player player_name)) as [ph|]; [| destruct Hrow].
  destruct (strategy_after_loop strategies) as [s|] eqn:Hs; [| destruct Hrow].
  apply strategy_after_loop_In in Hs.
  rewrite List.Forall_forall in Hall.
  destruct (Hall s Hs) as (n & h & Hn & Hdn & Hh & Hst).
  rewrite Hdn, Hh in Hrow.
  apply in_map_iff in Hrow as (fp & <- & Hfp).
  apply stale_kinds_In in Hfp as [Hfp _].
  exists s, n, h, fp. repeat split; assumption.
Qed.

Lemma row_of_strategies_plain (strategies : list strategy)
    (row : str * str * str) :
  row_of_strategies strategies row -> plain_row row = true.
Proof.
  intros (s & n & h & fp & _ & _ & _ & Hh & Hst & Hfp & ->).
  unfold plain_row. unfold storable in Hst.
  apply andb_true_iff in Hst as [Hn _].
  rewrite Hn, (proj1 (hash_strategy_storable s h Hh)).
  destruct Hfp as [<- | [<- | [<- | []]]]; reflexivity.
Qed.

Lemma forallb_plain_rows (strategies : list strategy)
    (rows : list (str * str * str)) :
  (forall row, In row rows -> row_of_strategies strategies row) ->
  forallb plain_row rows = true.
Proof.
  intros H. apply forallb_forall. intros row Hrow.
  exact (row_of_strategies_plain strategies row (H row Hrow)).
Qed.

(** *** The dictionary after more rows *)

Lemma insert_rows_app (rows1 rows2 : list (str * str * str))
    (d : gmap (str * str) str) :
  insert_rows (rows1 ++ rows2) d = insert_rows rows2 (insert_rows rows1 d).
Proof. apply fold_left_app. Qed.

Lemma insert_rows_lookup (rows : list (str * str * str)) (k : str * str)
    (v : str) :
  forall d : gmap (str * str) str,
    (forall row, In row rows -> (row_binding row).1 = k ->
                 (row_binding row).2 = v) ->
    d !! k = Some v \/ (exists row, In row rows /\ (row_binding row).1 = k) ->
    insert_rows rows d !! k = Some v.
Proof.
  induction rows as [|[[a b] c] rows IH]; intros d Hval Hsome.
  - destruct Hsome as [Hd | (row & [] & _)]. exact Hd.
  - cbn [insert_rows fold_left].
    change (fold_left _ rows ?d') with (insert_rows rows d').
    apply IH; [intros row Hrow; apply Hval; right; exact Hrow |].
    destruct (decide ((a, b) = k)) as [Heq | Hne].
    + left. rewrite <- Heq, lookup_insert_eq. f_equal.
      exact (Hval (a, b, c) (or_introl eq_refl) Heq).
    + destruct Hsome as [Hd | (row & [<- | Hrow] & Hkey)].
      * left. rewrite lookup_insert_ne by exact Hne. exact Hd.
      * contradiction.
      * right. exists row. auto.
Qed.

(** ** A run of [main] *)

Section main_run.

Variables version axlf_version : str.
Variable strategies : list strategy.
Variable all_strategies : list str.
Variable Player : str -> strategy.
Variables t r tt' tr tvt tvr : Z.

Lemma main_read_db_rows (w : world) (rows0 : list (str * str * str)) :
  (text_files w !! db_csv = None /\ rows0 = []
   \/ text_files w !! db_csv = Some (rows_text rows0)) ->
  forallb plain_row rows0 = true ->
  exists w0,
    main_read_db w = (w0, Ok (insert_rows rows0 ∅))
    /\ text_files w0 !! db_csv = Some (rows_text rows0)
    /\ computed w0 = computed w.
Proof.
  intros [[Hfile ->] | Hfile] Hplain.
  - exists (set_text db_csv [] w). rewrite (main_read_db_missing w Hfile).
    split; [reflexivity |]. split; [apply lookup_insert_eq | reflexivity].
  - exists w. rewrite main_read_db_present by eauto.
    rewrite (read_db_plain_rows db_csv rows0 w Hfile Hplain). auto.
Qed.

(** When the cache file is missing or holds plain rows, the strategies are
    cacheable and the players can be hashed, [main] returns; the cache
    file then holds the old rows and the rows of the two loops, and the
    fingerprints of the two loops have been computed. *)
Lemma main_run (w : world) (rows0 : list (str * str * str)) :
  (text_files w !! db_csv = None /\ rows0 = []
   \/ text_files w !! db_csv = Some (rows_text rows0)) ->
  forallb plain_row rows0 = true ->
  Forall cacheable strategies ->
  Forall (fun player_name => hashable_player (Player player_name))
    all_strategies ->
  (strategies <> [] \/ all_strategies = []) ->
  encodable version = true -> encodable axlf_version = true ->
  exists w',
    main version axlf_version strategies all_strategies Player
      t r tt' tr tvt tvr w = (w', Ok tt)
    /\ text_files w' !! db_csv
       = Some (rows_text
                 (rows0
                  ++ flat_map (axelrod_rows (insert_rows rows0 ∅)) strategies
                  ++ flat_map (fortran_rows strategies Player
                                 (insert_rows rows0 ∅)) all_strategies))
    /\ computed w'
       = computed w
         ++ flat_map (axelrod_fingerprints tt' tr tvt tvr
                        (insert_rows rows0 ∅)) strategies
         ++ flat_map (fortran_fingerprints strategies Player tt' tr
                        (insert_rows rows0 ∅)) all_strategies.
Proof.
  intros Hfile Hplain Hstrategies Hplayers Hnonempty Hv Ha.
  destruct (main_read_db_rows w rows0 Hfile Hplain)
    as (w0 & Hread & Hfile0 & Hcomp0).
  set (db := insert_rows rows0 ∅) in *.
  rewrite List.Forall_forall in Hstrategies, Hplayers.
  (* the first loop *)
  destruct (for_each_extends (main_loop_axelrod tt' tr tvt tvr db)
              (axelrod_rows db) (axelrod_fingerprints tt' tr tvt tvr db)
              strategies) with
    (markdown := main_markdown version axlf_version t r) (w := w0)
    as (w1 & md1 & Hrun1 & Hext1 & Hmd1).
  { intros s Hs w' Hfile'.
    destruct (Hstrategies s Hs) as (n & h & Hn & Hdn & Hh & Hst).
    apply andb_true_iff in Hst as [_ Hen].
    exact (main_loop_axelrod_extends tt' tr tvt tvr db s n n h w'
             Hn Hdn Hh Hen Hfile'). }
  { eauto. }
  { apply main_markdown_encodable; assumption. }
  (* the second loop *)
  destruct (for_each_extends
              (main_loop_fortran strategies Player tt' tr db)
              (fortran_rows strategies Player db)
              (fortran_fingerprints strategies Player tt' tr db)
              all_strategies) with
    (markdown := md1 ++ join [LF]
                   [ []; [];
                     pystr "# Second tournament fortran strategy fingerprints";
                     []; [] ])
    (w := w1)
    as (w2 & md2 & Hrun2 & Hext2 & Hmd2).
  { intros player_name Hp w' Hfile'.
    destruct Hnonempty as [Hne | ->]; [| destruct Hp].
    destruct (strategy_after_loop_nonempty strategies Hne) as [s Hlast].
    destruct (Hstrategies s (strategy_after_loop_In _ _ Hlast))
      as (n & h & Hn & Hdn & Hh & Hst).
    apply andb_true_iff in Hst as [_ Hen].
    destruct (Hplayers player_name Hp) as (pn & ph & Hpn & Hph).
    exact (main_loop_fortran_extends strategies Player tt' tr db player_name
             pn ph s n h w' Hpn Hph Hlast Hdn Hh Hen Hfile'). }
  { exact (extends_is_Some _ _ _ _ Hext1). }
  { rewrite encodable_app, Hmd1. reflexivity. }
  (* the report *)
  exists (set_text (pystr "README.md") md2 w2).
  split; [| split].
  - unfold main. rewrite (bind_ok _ _ _ _ _ Hread).
    rewrite (bind_ok _ _ _ _ _ Hrun1). cbv zeta.
    rewrite (bind_ok _ _ _ _ _ Hrun2).
    unfold bind at 1, open_w. rewrite (write_encodable _ _ _ Hmd2).
    rewrite file_text_set_text, set_text_set_text. reflexivity.
  - cbn [set_text text_files]. rewrite lookup_insert_ne by discriminate.
    destruct (extends_trans _ _ _ _ _ _ _ Hext1 Hext2) as [Htext _].
    rewrite Htext, (file_text_lookup _ _ _ Hfile0), !rows_text_app.
    reflexivity.
  - cbn [set_text computed].
    destruct (extends_trans _ _ _ _ _ _ _ Hext1 Hext2) as [_ Hcomp].
    rewrite Hcomp, Hcomp0. reflexivity.
Qed.

End main_run.

(** ** The guard in a run *)










(** What a run does for the strategies of the first loop. Let the
    cache file be missing or hold plain rows, the strategies of
    [axl.short_run_time_strategies] be cacheable, with one hash per name,
    the Fortran players be hashable, and the first list not be empty
    unless the second is. Then [main] returns, and for every strategy of
    the first loop: the cache file read back binds (name, kind) to the
    fresh hash for the three kinds; and when the cache that [main] read
    did not, for the kinds Transitive and Transitive_v_short, the
    fingerprint of that strategy is among those the run has computed. *)
Theorem main_brings_cache_up_to_date (version axlf_version : str)
    (strategies : list strategy) (all_strategies : list str)
    (Player : str -> strategy) (t r tt' tr tvt tvr : Z) (w : world)
    (rows0 : list (str * str * str)) :
  (text_files w !! db_csv = None /\ rows0 = []
   \/ text_files w !! db_csv = Some (rows_text rows0)) ->
  forallb plain_row rows0 = true ->
  Forall cacheable strategies ->
  (forall s1 s2, In s1 strategies -> In s2 strategies ->
     name s1 = name s2 -> hash_strategy s1 = hash_strategy s2) ->
  Forall (fun player_name => hashable_player (Player player_name))
    all_strategies ->
  (strategies <> [] \/ all_strategies = []) ->
  encodable version = true -> encodable axlf_version = true ->
  brings_cache_up_to_date version axlf_version strategies all_strategies
    Player t r tt' tr tvt tvr w.
Proof.
  intros Hfile Hplain Hstrategies Hunique Hplayers Hnonempty Hv Ha.
  destruct (main_read_db_rows w rows0 Hfile Hplain) as (w0 & Hread & _ & _).
  destruct (main_run version axlf_version strategies all_strategies Player
              t r tt' tr tvt tvr w rows0 Hfile Hplain Hstrategies Hplayers
              Hnonempty Hv Ha) as (w' & Hrun & Htext & Hcomp).
  set (db := insert_rows rows0 ∅) in *.
  set (rows := flat_map (axelrod_rows db) strategies
               ++ flat_map (fortran_rows strategies Player db) all_strategies)
    in *.
  assert (forall row, In row rows -> row_of_strategies strategies row)
    as Hrows.
  { intros row Hrow. apply in_app_or in Hrow as [Hrow | Hrow];
      apply in_flat_map in Hrow as (x & Hx & Hrow).
    - rewrite List.Forall_forall in Hstrategies.
      exact (axelrod_rows_of_strategies db strategies x row Hx
               (Hstrategies x Hx) Hrow).
    - exact (fortran_rows_of_strategies db strategies Player x row
               Hstrategies Hrow). }
  exists w0, db, w', (insert_rows rows db),
    (flat_map (axelrod_fingerprints tt' tr tvt tvr db) strategies
     ++ flat_map (fortran_fingerprints strategies Player tt' tr db)
          all_strategies).
  split; [exact Hread |]. split; [exact Hrun |]. split.
  { unfold db. rewrite <- insert_rows_app.
    apply read_db_plain_rows; [exact Htext |].
    rewrite forallb_app, Hplain.
    exact (forallb_plain_rows strategies rows Hrows). }
  split; [exact Hcomp |].
  intros s n h Hs Hn Hh.
  assert (display_name s = Ok n) as Hdn.
  { rewrite List.Forall_forall in Hstrategies.
    destruct (Hstrategies s Hs) as (n' & _ & Hn' & Hdn' & _). congruence. }
  split; [| split].
  - intros fp Hfp. apply insert_rows_lookup.
    + intros row Hrow Hkey.
      destruct (Hrows row Hrow)
        as (s' & n' & h' & fp' & Hs' & Hn' & _ & Hh' & _ & _ & ->).
      cbn [row_binding fst snd] in *. injection Hkey as -> ->.
      assert (hash_strategy s' = hash_strategy s) as Heq
        by (apply Hunique; congruence).
      congruence.
    + destruct (not_in_db_or_changed db n fp h) eqn:Hstale.
      * right. exists (n, fp, h). split; [| reflexivity].
        apply in_or_app. left. apply in_flat_map. exists s.
        split; [exact Hs |]. unfold axelrod_rows. rewrite Hn, Hdn, Hh.
        apply (in_map (fun fp0 => (n, fp0, h))), stale_kinds_In. auto.
      * left. apply not_in_db_or_changed_false, Hstale.
  - intros Hstale. apply not_in_db_or_changed_true in Hstale.
    apply in_or_app. left.
    apply in_flat_map. exists s. split; [exact Hs |].
    unfold axelrod_fingerprints. rewrite Hn, Hh, Hstale.
    apply in_or_app. left. left. reflexivity.
  - intros Hstale. apply not_in_db_or_changed_true in Hstale.
    apply in_or_app. left.
    apply in_flat_map. exists s. split; [exact Hs |].
    unfold axelrod_fingerprints. rewrite Hn, Hh, Hstale.
    apply in_or_app. right. left. reflexivity.
Qed.

Lemma main_brings_cache_up_to_date_witness :
  brings_cache_up_to_date (pystr "4.0.0") (pystr "0.4.6")
    [example_class; example_dynamic_class] [pystr "k42r"] example_Player
    200 50 200 50 200 50 empty_world.
Proof.
  apply (main_brings_cache_up_to_date (pystr "4.0.0") (pystr "0.4.6")
           [example_class; example_dynamic_class] [pystr "k42r"]
           example_Player 200 50 200 50 200 50 empty_world []).
  - left. split; reflexivity.
  - reflexivity.
  - constructor; [| constructor; [| constructor]].
    + exists (pystr "Tit For Tat"), (pystr "b688ffc64fc2d8450c6ce1ce50e463ca").
      repeat split; vm_compute; reflexivity.
    + exists (pystr "Dual Tit For Tat"),
        (pystr "1a81a07ebfb0b3b4d5f4a78109f866d7").
      repeat split; vm_compute; reflexivity.
  - intros s1 s2 [<- | [<- | []]] [<- | [<- | []]] Hname;
      first [reflexivity | discriminate Hname].
  - constructor; [| constructor].
    exists (pystr "k42r"), (pystr "fefcd78c6c77e2fcab5cddd4ddaa340e").
    split; vm_compute; reflexivity.
  - left. discriminate.
  - reflexivity.
  - reflexivity.
Defined.

(** C1 at a failing input. The script is run where there is no cache
    file, with the strategy Tit For Tat and the Fortran player k42r: both
    are new, and the cache that [main] reads has no entry. The run
    returns. For the kind Ashlock no fingerprint has been computed and no
    file of the Ashlock fingerprint of Tit For Tat exists, yet the cache
    read back binds (Tit For Tat, Ashlock) to the fresh hash: the call of
    [obtain_fingerprint] is commented out. For the player, the second
    loop has called the two transitive [obtain_*] functions on Tit For Tat
    once more, not on the player, and the cache has no key of k42r. *)
Lemma main_computes_no_ashlock_fingerprint :
  let w' := (example_run empty_world).1 in
  hash_strategy example_class = Ok (pystr "b688ffc64fc2d8450c6ce1ce50e463ca")
  /\ hash_strategy (example_Player (pystr "k42r"))
     = Ok (pystr "fefcd78c6c77e2fcab5cddd4ddaa340e")
  /\ main_read_db empty_world = (created_world, Ok ∅)
  /\ (example_run empty_world).2 = Ok tt
  /\ computed w'
     = [TransitiveFingerprint example_class 200 50;
        TransitiveFingerprint_v_short example_class 200 50;
        TransitiveFingerprint example_class 200 50;
        TransitiveFingerprint_v_short example_class 200 50]
  /\ artifacts w' !! asset [] (pystr "Tit For Tat") (pystr ".png") = None
  /\ artifacts w' !! asset [] (pystr "Tit For Tat") (pystr ".csv") = None
  /\ exists db',
       read_db db_csv w' = (w', Ok db')
       /\ db' !! (pystr "Tit For Tat", Ashlock)
          = Some (pystr "b688ffc64fc2d8450c6ce1ce50e463ca")
       /\ Forall (fun fp => db' !! (pystr "k42r", fp) = None) kinds.
Proof.
  intros w'. subst w'.
  split; [vm_compute; reflexivity |]. split; [vm_compute; reflexivity |].
  split; [apply main_read_db_missing; reflexivity |].
  split; [vm_compute; reflexivity |]. split; [vm_compute; reflexivity |].
  split; [vm_compute; reflexivity |]. split; [vm_compute; reflexivity |].
  exists (insert_rows (fresh_rows ++ fresh_rows) ∅).
  split.
  { apply read_db_plain_rows; [vm_compute; reflexivity | reflexivity]. }
  split; [vm_compute; reflexivity |].
  repeat constructor; vm_compute; reflexivity.
Qed.

(** C2 at a failing input. The cache file holds the fresh hash of Tit For
    Tat for the three kinds and nothing for the Fortran player k42r; there
    is no artifact. The script is run with that strategy and that player.
    The cache that [main] reads binds (Tit For Tat, kind) to the fresh
    hash for every kind, and still the run computes the two transitive
    fingerprints of Tit For Tat, writes its four transitive files and
    appends its three rows to the cache file: the second loop finds the
    player stale and passes [strategy], the variable of the first loop,
    where it means [player]. *)
Lemma main_recomputes_fresh_strategy :
  let w' := (example_run fresh_world).1 in
  hash_strategy example_class = Ok (pystr "b688ffc64fc2d8450c6ce1ce50e463ca")
  /\ (exists db,
        main_read_db fresh_world = (fresh_world, Ok db)
        /\ Forall (fun fp =>
                     db !! (pystr "Tit For Tat", fp)
                     = Some (pystr "b688ffc64fc2d8450c6ce1ce50e463ca"))
             kinds)
  /\ (example_run fresh_world).2 = Ok tt
  /\ computed fresh_world = []
  /\ computed w'
     = [TransitiveFingerprint example_class 200 50;
        TransitiveFingerprint_v_short example_class 200 50]
  /\ artifacts fresh_world = ∅
  /\ Forall2 (fun path a => artifacts w' !! path = Some a)
       (drop 2 (assets_of (pystr "Tit For Tat")))
       (drop 2 (artifacts_of example_class 200 50))
  /\ file_text db_csv fresh_world = rows_text fresh_rows
  /\ file_text db_csv w' = rows_text fresh_rows ++ rows_text fresh_rows.
Proof.
  intros w'. subst w'.
  split; [vm_compute; reflexivity |]. split.
  { exists (insert_rows fresh_rows ∅). split.
    - rewrite main_read_db_present by (eexists; apply lookup_singleton_eq).
      apply read_db_plain_rows; [apply lookup_singleton_eq | reflexivity].
    - repeat constructor; vm_compute; reflexivity. }
  split; [vm_compute; reflexivity |]. split; [reflexivity |].
  split; [vm_compute; reflexivity |]. split; [reflexivity |].
  split; [repeat constructor; vm_compute; reflexivity |].
  split; vm_compute; reflexivity.
Qed.

(** The second loop passes [strategy], not [player], to the functions it
    calls: for the stale player k42r the rows and the fingerprints of the
    last strategy of the first loop are produced once more, and the cache
    gets no row for the player. *)
Example main_second_loop_uses_strategy :
  exists w',
    main (pystr "4.0.0") (pystr "0.4.6") [example_class] [pystr "k42r"]
      example_Player 200 50 200 50 200 50 empty_world = (w', Ok tt)
    /\ text_files w' !! db_csv
       = Some (rows_text
                 (map (fun fp => (pystr "Tit For Tat", fp,
                                  pystr "b688ffc64fc2d8450c6ce1ce50e463ca"))
                    (kinds ++ kinds)))
    /\ computed w'
       = [TransitiveFingerprint example_class 200 50;
          TransitiveFingerprint_v_short example_class 200 50;
          TransitiveFingerprint example_class 200 50;
          TransitiveFingerprint_v_short example_class 200 50].
Proof.
  destruct (main_run (pystr "4.0.0") (pystr "0.4.6") [example_class]
              [pystr "k42r"] example_Player 200 50 200 50 200 50
              empty_world [])
    as (w' & Hrun & Htext & Hcomp).
  - left. split; reflexivity.
  - reflexivity.
  - constructor; [| constructor].
    exists (pystr "Tit For Tat"), (pystr "b688ffc64fc2d8450c6ce1ce50e463ca").
    repeat split; vm_compute; reflexivity.
  - constructor; [| constructor].
    exists (pystr "k42r"), (pystr "fefcd78c6c77e2fcab5cddd4ddaa340e").
    split; vm_compute; reflexivity.
  - left. discriminate.
  - reflexivity.
  - reflexivity.
  - exists w'. split; [exact Hrun |]. split.
    + rewrite Htext. apply f_equal. vm_compute. reflexivity.
    + rewrite Hcomp. vm_compute. reflexivity.
Qed.

(** * More of the script *)

(** ** File names *)

(** [format_filename] works character by character: the file name of a
    concatenation is the concatenation of the file names. *)
Theorem format_filename_app (a b : str) :
  format_filename (a ++ b) = format_filename a ++ format_filename b.
Proof. rewrite !format_filename_flat_map. apply flat_map_app. Qed.

Lemma sanitize_char_length (c : Z) :
  length (sanitize_char c) = if str_in c valid_chars then 1%nat else 0%nat.
Proof.
  rewrite valid_chars_spec. unfold sanitize_char.
  destruct (c =? space); [reflexivity |].
  destruct (allowed c); reflexivity.
Qed.

(** The file name has one character for each valid character of the name
    (a character of [valid_chars], the space among them), so it is never
    longer than the name, and it is empty exactly when the name has no
    valid character, as the docstring warns. *)
Theorem format_filename_length (s : str) :
  length (format_filename s)
  = length (List.filter (fun c => str_in c valid_chars) s)
  /\ (length (format_filename s) <= length s)%nat
  /\ (format_filename s = []
      <-> Forall (fun c => str_in c valid_chars = false) s).
Proof.
  rewrite format_filename_flat_map.
  induction s as [|c s (IHlen & IHle & IHnil)].
  - repeat split; constructor.
  - cbn [flat_map List.filter]. rewrite length_app, sanitize_char_length.
    destruct (str_in c valid_chars) eqn:Hc; cbn [length].
    + split; [lia |]. split; [lia |]. split.
      * intros H. apply (f_equal (@length Z)) in H.
        rewrite length_app, sanitize_char_length, Hc in H. discriminate H.
      * intros H. apply Forall_cons in H as [H _]. congruence.
    + split; [exact IHlen |]. split; [lia |].
      assert (sanitize_char c = []) as ->.
      { destruct (sanitize_char c) eqn:Hs; [reflexivity |].
        pose proof (sanitize_char_length c) as Hl.
        rewrite Hs, Hc in Hl. discriminate Hl. }
      cbn [app]. rewrite IHnil. split.
      * intros H. constructor; assumption.
      * intros H. apply Forall_cons in H as [_ H]. exact H.
Qed.

(** ** The artifacts of a strategy *)

(** What each [obtain_*] function does, by the outcome of the name lookup:
    the fingerprint is computed first; with a name, the plot and the data
    are saved; without one, nothing is. *)
Lemma obtain_fingerprint_cases (s : strategy) (t r : Z) (w : world) :
  obtain_fingerprint s t r w
  = match display_name s with
    | Ok n =>
        (World (text_files w)
           (<[asset [] n (pystr ".csv") := Data (AshlockFingerprint s t r)]>
              (<[asset [] n (pystr ".png") := Plot (AshlockFingerprint s t r)]>
                 (artifacts w)))
           (computed w ++ [AshlockFingerprint s t r]), Ok tt)
    | Raise e =>
        (World (text_files w) (artifacts w)
           (computed w ++ [AshlockFingerprint s t r]), Raise e)
    end.
Proof.
  unfold obtain_fingerprint, write_data_to_file, bind, fingerprint, lift, save.
  destruct (display_name s); reflexivity.
Qed.

Lemma obtain_transitive_fingerprint_cases (s : strategy) (t r : Z)
    (w : world) :
  obtain_transitive_fingerprint s t r w
  = match display_name s with
    | Ok n =>
        (World (text_files w)
           (<[asset (pystr "transitive_") n (pystr ".csv")
              := Data (TransitiveFingerprint s t r)]>
              (<[asset (pystr "transitive_") n (pystr ".png")
                 := Plot (TransitiveFingerprint s t r)]> (artifacts w)))
           (computed w ++ [TransitiveFingerprint s t r]), Ok tt)
    | Raise e =>
        (World (text_files w) (artifacts w)
           (computed w ++ [TransitiveFingerprint s t r]), Raise e)
    end.
Proof.
  unfold obtain_transitive_fingerprint, bind, fingerprint, lift, save.
  destruct (display_name s); reflexivity.
Qed.

Lemma obtain_transitive_fingerprint_v_short_cases (s : strategy) (t r : Z)
    (w : world) :
  obtain_transitive_fingerprint_v_short s t r w
  = match display_name s with
    | Ok n =>
        (World (text_files w)
           (<[asset (pystr "transitive_v_short_") n (pystr ".csv")
              := Data (TransitiveFingerprint_v_short s t r)]>
              (<[asset (pystr "transitive_v_short_") n (pystr ".png")
                 := Plot (TransitiveFingerprint_v_short s t r)]>
                 (artifacts w)))
           (computed w ++ [TransitiveFingerprint_v_short s t r]), Ok tt)
    | Raise e =>
        (World (text_files w) (artifacts w)
           (computed w ++ [TransitiveFingerprint_v_short s t r]), Raise e)
    end.
Proof.
  unfold obtain_transitive_fingerprint_v_short, bind, fingerprint, lift, save.
  destruct (display_name s); reflexivity.
Qed.

Lemma asset_eq (p1 p2 n e1 e2 : str) :
  length e1 = length e2 ->
  asset p1 n e1 = asset p2 n e2 ->
  length p1 = length p2 /\ (p1 = p2 -> e1 = e2).
Proof.
  intros Hext H. unfold asset in H. apply List.app_inv_head in H.
  split.
  - apply (f_equal (@length Z)) in H. rewrite !length_app in H. lia.
  - intros ->. apply List.app_inv_head in H. apply List.app_inv_head in H.
    exact H.
Qed.

Ltac asset_neq :=
  let H := fresh in
  intros H; apply asset_eq in H as [? ?]; [| reflexivity];
  first [ discriminate
        | match goal with
          | He : ?p = ?p -> _ |- _ => specialize (He eq_refl); discriminate He
          end ].

Lemma assets_of_NoDup (n : str) : NoDup (assets_of n).
Proof.
  unfold assets_of.
  repeat (apply NoDup_cons; split;
          [rewrite ?not_elem_of_cons; repeat split;
           first [apply not_elem_of_nil | asset_neq] |]).
  apply NoDup_nil. exact I.
Qed.

Lemma save_all_other (saved : list (str * artifact)) (path : str) :
  forall m, ~ In path (map fst saved) -> save_all saved m !! path = m !! path.
Proof.
  induction saved as [|[p a] saved IH]; intros m Hnot; [reflexivity |].
  cbn [save_all fold_left fst snd].
  change (fold_left _ saved ?m') with (save_all saved m').
  rewrite IH by (intros H; apply Hnot; right; exact H).
  apply lookup_insert_ne. intros ->. apply Hnot. left. reflexivity.
Qed.

Lemma save_all_lookup (saved : list (str * artifact)) (path : str)
    (a : artifact) :
  forall m, NoDup (map fst saved) -> In (path, a) saved ->
            save_all saved m !! path = Some a.
Proof.
  induction saved as [|[p b] saved IH]; intros m Hnd Hin; [destruct Hin |].
  cbn [map fst] in Hnd. apply NoDup_cons in Hnd as [Hp Hnd].
  cbn [save_all fold_left fst snd].
  change (fold_left _ saved ?m') with (save_all saved m').
  destruct Hin as [[= -> ->] | Hin].
  - rewrite save_all_other by (rewrite <- list_elem_of_In; exact Hp).
    apply lookup_insert_eq.
  - apply IH; assumption.
Qed.

(** The three [obtain_*] functions, called one after the other on a
    strategy with a name, write six different files: none overwrites the
    file of another, each file holds its plot or data, no other artifact
    and no text file changes, and three fingerprints are computed. *)
Theorem obtain_six_artifacts (s : strategy) (n : str) (t r : Z) (w : world) :
  display_name s = Ok n ->
  exists w',
    (obtain_fingerprint s t r ;;;
     obtain_transitive_fingerprint s t r ;;;
     obtain_transitive_fingerprint_v_short s t r) w = (w', Ok tt)
    /\ NoDup (assets_of n)
    /\ Forall2 (fun path a => artifacts w' !! path = Some a)
         (assets_of n) (artifacts_of s t r)
    /\ (forall path, ~ In path (assets_of n) ->
          artifacts w' !! path = artifacts w !! path)
    /\ text_files w' = text_files w
    /\ computed w'
       = computed w
         ++ [AshlockFingerprint s t r; TransitiveFingerprint s t r;
             TransitiveFingerprint_v_short s t r].
Proof.
  intros Hn.
  exists (World (text_files w)
            (save_all (combine (assets_of n) (artifacts_of s t r))
               (artifacts w))
            (computed w
             ++ [AshlockFingerprint s t r; TransitiveFingerprint s t r;
                 TransitiveFingerprint_v_short s t r])).
  pose proof (assets_of_NoDup n) as Hnd.
  assert (map fst (combine (assets_of n) (artifacts_of s t r)) = assets_of n)
    as Hkeys by reflexivity.
  split; [| split; [exact Hnd | split; [| split; [| split; reflexivity]]]].
  - unfold bind. rewrite obtain_fingerprint_cases, Hn.
    rewrite obtain_transitive_fingerprint_cases, Hn.
    rewrite obtain_transitive_fingerprint_v_short_cases, Hn.
    cbn [text_files artifacts computed]. rewrite <- !app_assoc. reflexivity.
  - cbn [artifacts].
    repeat (constructor;
            [apply save_all_lookup;
             [rewrite Hkeys; exact Hnd | cbn; tauto] |]).
    constructor.
  - intros path Hnot. cbn [artifacts]. apply save_all_other.
    rewrite Hkeys. exact Hnot.
Qed.

Lemma obtain_six_artifacts_witness :
  exists w',
    (obtain_fingerprint example_class 200 50 ;;;
     obtain_transitive_fingerprint example_class 200 50 ;;;
     obtain_transitive_fingerprint_v_short example_class 200 50) empty_world
    = (w', Ok tt)
    /\ NoDup (assets_of (pystr "Tit For Tat")).
Proof.
  destruct (obtain_six_artifacts example_class (pystr "Tit For Tat") 200 50
              empty_world eq_refl) as (w' & Hrun & Hnd & _).
  exists w'. split; [exact Hrun | exact Hnd].
Defined.

(** Two strategies whose names make the same file name share their
    artifacts: both fingerprints are computed, and the files hold those of
    the strategy that came last. *)
Theorem obtain_overwrites_same_file_name (s1 s2 : strategy) (n1 n2 : str)
    (t r : Z) (w : world) :
  display_name s1 = Ok n1 -> display_name s2 = Ok n2 ->
  format_filename n1 = format_filename n2 ->
  exists w',
    (obtain_transitive_fingerprint s1 t r ;;;
     obtain_transitive_fingerprint_v_short s1 t r ;;;
     obtain_transitive_fingerprint s2 t r ;;;
     obtain_transitive_fingerprint_v_short s2 t r) w = (w', Ok tt)
    /\ computed w'
       = computed w
         ++ [TransitiveFingerprint s1 t r;
             TransitiveFingerprint_v_short s1 t r;
             TransitiveFingerprint s2 t r;
             TransitiveFingerprint_v_short s2 t r]
    /\ Forall2 (fun path a => artifacts w' !! path = Some a)
         (drop 2 (assets_of n1)) (drop 2 (artifacts_of s2 t r)).
Proof.
  intros Hn1 Hn2 Hsame.
  pose proof (assets_of_NoDup n2) as Hnd.
  assert (assets_of n1 = assets_of n2) as Hpaths
    by (unfold assets_of, asset; rewrite Hsame; reflexivity).
  apply NoDup_cons in Hnd as [_ Hnd]. apply NoDup_cons in Hnd as [_ Hnd].
  eexists. split; [| split].
  - unfold bind. rewrite obtain_transitive_fingerprint_cases, Hn1.
    rewrite obtain_transitive_fingerprint_v_short_cases, Hn1.
    rewrite obtain_transitive_fingerprint_cases, Hn2.
    rewrite obtain_transitive_fingerprint_v_short_cases, Hn2.
    cbn [text_files artifacts computed]. reflexivity.
  - cbn [computed]. rewrite <- !app_assoc. reflexivity.
  - rewrite Hpaths. cbn [artifacts drop assets_of artifacts_of].
    match goal with
    | |- Forall2 _ _ _ =>
        change (Forall2
                  (fun path a =>
                     save_all (combine (drop 2 (assets_of n2))
                                 (drop 2 (artifacts_of s2 t r)))
                       (save_all (combine (drop 2 (assets_of n1))
                                    (drop 2 (artifacts_of s1 t r)))
                          (artifacts w)) !! path = Some a)
                  (drop 2 (assets_of n2)) (drop 2 (artifacts_of s2 t r)))
    end.
    repeat (constructor;
            [apply save_all_lookup; [exact Hnd | cbn; tauto] |]).
    constructor.
Qed.

Lemma obtain_overwrites_same_file_name_witness :
  exists w',
    (obtain_transitive_fingerprint example_spaces 200 50 ;;;
     obtain_transitive_fingerprint_v_short example_spaces 200 50 ;;;
     obtain_transitive_fingerprint example_underscores 200 50 ;;;
     obtain_transitive_fingerprint_v_short example_underscores 200 50)
      empty_world = (w', Ok tt)
    /\ Forall2 (fun path a => artifacts w' !! path = Some a)
         (drop 2 (assets_of (pystr "Tit For Tat")))
         (drop 2 (artifacts_of example_underscores 200 50)).
Proof.
  destruct (obtain_overwrites_same_file_name example_spaces
              example_underscores (pystr "Tit For Tat")
              (pystr "Tit_For_Tat") 200 50 empty_world eq_refl eq_refl
              eq_refl) as (w' & Hrun & _ & Hfiles).
  exists w'. split; [exact Hrun | exact Hfiles].
Defined.

(** ** Failures of [hash_strategy] and [write_strategy_to_db] *)

Lemma md5_hex_cases (text : str) :
  (encodable text = true /\ exists h, md5_hex text = Ok h)
  \/ (encodable text = false /\ md5_hex text = Raise UnicodeEncodeError).
Proof.
  unfold md5_hex, encode_utf8.
  destruct (encodable text) eqn:He.
  - left. split; [reflexivity |].
    apply utf8_bytes_encodable in He as [bs ->]. eexists. reflexivity.
  - right. split; [reflexivity |].
    destruct (utf8_bytes text) as [bs|] eqn:Hbs; [| reflexivity].
    assert (encodable text = true)
      by (apply utf8_bytes_encodable; eexists; exact Hbs).
    congruence.
Qed.

(** [hash_strategy] returns exactly when a source text is found and has no
    lone surrogate. It raises what the lookups raise, or
    [UnicodeEncodeError] for a source text with a lone surrogate. *)
Theorem hash_strategy_outcomes (s : strategy) :
  ((exists h, hash_strategy s = Ok h)
   <-> exists text, source_code s = Ok text /\ encodable text = true)
  /\ (forall e, hash_strategy s = Raise e
        <-> source_code s = Raise e
            \/ exists text, source_code s = Ok text
                 /\ encodable text = false /\ e = UnicodeEncodeError).
Proof.
  unfold hash_strategy.
  destruct (source_code s) as [text | e0]; cbn [result_bind].
  - destruct (md5_hex_cases text) as [[He [h Hh]] | [He Hh]]; rewrite Hh.
    + split.
      * split; [intros _; exists text; auto | intros _; eauto].
      * intros e. split; [discriminate |].
        intros [[=] | (text' & [= <-] & He' & _)]. congruence.
    + split.
      * split; [intros [h [=]] | intros (text' & [= <-] & He')]. congruence.
      * intros e. split.
        -- intros [= <-]. right. exists text. auto.
        -- intros [[=] | (text' & _ & _ & ->)]. reflexivity.
  - split.
    + split; [intros [h [=]] | intros (text & [=] & _)].
    + intros e. split.
      * intros [= <-]. left. reflexivity.
      * intros [[= <-] | (text & [=] & _)]. reflexivity.
Qed.

(** When [write_strategy_to_db] raises, no row has been appended. If the
    hash could not be computed, nothing at all has happened: the file is
    not even created. Otherwise the file exists afterwards (it is created
    empty when it was missing), and the exception is that of the name
    lookup, or [UnicodeEncodeError] for a row with a lone surrogate. *)
Theorem write_strategy_to_db_raises (s : strategy) (filename fp : str)
    (w w' : world) (e : exn) :
  write_strategy_to_db s filename fp w = (w', Raise e) ->
  file_text filename w' = file_text filename w
  /\ ((hash_strategy s = Raise e /\ w' = w)
      \/ (exists h,
            hash_strategy s = Ok h
            /\ is_Some (text_files w' !! filename)
            /\ (display_name s = Raise e
                \/ exists n, display_name s = Ok n
                     /\ encodable (format_row n fp h) = false
                     /\ e = UnicodeEncodeError))).
Proof.
  rewrite write_strategy_to_db_cases.
  assert (file_text filename
            match text_files w !! filename with
            | Some _ => w
            | None => set_text filename [] w
            end = file_text filename w
          /\ is_Some (text_files
                        match text_files w !! filename with
                        | Some _ => w
                        | None => set_text filename [] w
                        end !! filename)) as [Htext Hsome].
  { destruct (text_files w !! filename) as [old|] eqn:Hf.
    - split; [reflexivity | rewrite Hf; eauto].
    - rewrite file_text_set_text. unfold file_text. rewrite Hf.
      split; [reflexivity |]. cbn [set_text text_files].
      rewrite lookup_insert_eq. eauto. }
  destruct (hash_strategy s) as [h | e0].
  - cbv zeta. destruct (display_name s) as [n | e1].
    + destruct (encodable (format_row n fp h)) eqn:He; [discriminate |].
      intros [= <- <-]. split; [exact Htext |]. right. exists h.
      split; [reflexivity |]. split; [exact Hsome |]. right. exists n. auto.
    + intros [= <- <-]. split; [exact Htext |]. right. exists h. auto.
  - intros [= <- <-]. split; [reflexivity |]. left. auto.
Qed.

Lemma write_strategy_to_db_raises_witness :
  file_text db_csv
    (write_strategy_to_db example_nameless db_csv Ashlock empty_world).1
  = file_text db_csv empty_world.
Proof.
  apply (write_strategy_to_db_raises example_nameless db_csv Ashlock
           empty_world _ AttributeError).
  vm_compute. reflexivity.
Defined.

(** ** [read_db] on other cache files *)

Lemma universal_newlines_rows_app (rows : list (str * str * str))
    (rest : str) :
  forallb plain_row rows = true ->
  universal_newlines (rows_text rows ++ rest)
  = rows_text rows ++ universal_newlines rest.
Proof.
  unfold rows_text.
  induction rows as [|row rows IH]; intros Hrows; [reflexivity |].
  cbn [forallb] in Hrows. apply andb_true_iff in Hrows as [Hrow Hrows].
  cbn [map concat]. rewrite <- app_assoc.
  rewrite universal_newlines_row, IH, app_assoc by assumption. reflexivity.
Qed.

Lemma splitlines_rows_app (rows : list (str * str * str)) (rest : str) :
  forallb plain_row rows = true ->
  splitlines (rows_text rows ++ rest) = map row_text rows ++ splitlines rest.
Proof.
  unfold rows_text.
  induction rows as [|row rows IH]; intros Hrows; [reflexivity |].
  cbn [forallb] in Hrows. apply andb_true_iff in Hrows as [Hrow Hrows].
  cbn [map concat]. rewrite <- app_assoc.
  rewrite splitlines_row, IH by assumption. reflexivity.
Qed.

Lemma rows_from_plain_app (rows : list (str * str * str))
    (lines : list str) :
  forallb plain_row rows = true ->
  csv.rows_from csv.reset (map row_text rows ++ lines)
  = (map row_fields rows ++ (csv.rows_from csv.reset lines).1,
     (csv.rows_from csv.reset lines).2).
Proof.
  induction rows as [|row rows IH]; intros Hrows.
  - cbn [map app]. destruct (csv.rows_from csv.reset lines). reflexivity.
  - cbn [forallb] in Hrows. apply andb_true_iff in Hrows as [Hrow Hrows].
    cbn [map app csv.rows_from]. rewrite process_line_row by assumption.
    cbn [csv.state csv.is_START_RECORD csv.fields]. rewrite IH by assumption.
    reflexivity.
Qed.

Lemma dict_of_rows_fields_app (rows : list (str * str * str))
    (more : list (list str)) (end_ : option exn) :
  forall d : gmap (str * str) str,
    dict_of_rows (map row_fields rows ++ more) end_ d
    = dict_of_rows more end_ (insert_rows rows d).
Proof.
  induction rows as [|[[a b] c] rows IH]; intros d; [reflexivity |].
  cbn [map app row_fields dict_of_rows]. cbn [lookup list_lookup].
  rewrite IH. reflexivity.
Qed.

(** A file that starts with plain rows: the rows are read, and the
    reading goes on with the rest. *)
Lemma read_db_plain_prefix (filename : str) (rows : list (str * str * str))
    (rest : str) (w : world) :
  text_files w !! filename = Some (rows_text rows ++ rest) ->
  forallb plain_row rows = true ->
  read_db filename w
  = (w, dict_of_rows (csv.rows_from csv.reset
                        (splitlines (universal_newlines rest))).1
          (csv.rows_from csv.reset
             (splitlines (universal_newlines rest))).2
          (insert_rows rows ∅)).
Proof.
  intros Hfile Hrows. rewrite read_db_cases, Hfile.
  unfold csv.reader_rows, readlines.
  rewrite universal_newlines_rows_app by assumption.
  rewrite splitlines_rows_app by assumption.
  rewrite rows_from_plain_app by assumption. cbn [fst snd].
  rewrite dict_of_rows_fields_app. reflexivity.
Qed.

(** An empty line in the cache file, after any number of plain rows,
    makes [read_db] raise [IndexError], whatever follows the line. *)
Theorem read_db_blank_line (filename : str) (rows : list (str * str * str))
    (c : Z) (rest : str) (w : world) :
  text_files w !! filename = Some (rows_text rows ++ c :: rest) ->
  forallb plain_row rows = true ->
  csv.is_newline c = true ->
  read_db filename w = (w, Raise IndexError).
Proof.
  intros Hfile Hrows Hc.
  rewrite (read_db_plain_prefix filename rows (c :: rest) w Hfile Hrows).
  assert (exists rest', universal_newlines (c :: rest) = LF :: rest')
    as [rest' ->].
  { unfold csv.is_newline in Hc. apply orb_true_iff in Hc as [Hc | Hc];
      apply Z.eqb_eq in Hc; subst c.
    - eexists. reflexivity.
    - cbn [universal_newlines]. change (CR =? CR) with true. cbv iota.
      destruct rest as [|c' rest]; [eexists; reflexivity |].
      destruct (c' =? LF); eexists; reflexivity. }
  cbn [splitlines]. change (LF =? LF) with true. cbv iota.
  cbn [csv.rows_from]. change (csv.process_line csv.reset [LF])
    with (Ok (csv.Reader csv.START_RECORD [] [])).
  cbn [csv.state csv.is_START_RECORD csv.fields].
  destruct (csv.rows_from csv.reset (splitlines rest')) as [rows' e'].
  reflexivity.
Qed.

Lemma read_db_blank_line_witness :
  read_db db_csv blank_line_world = (blank_line_world, Raise IndexError).
Proof.
  apply (read_db_blank_line db_csv (take 1 example_rows) LF
           (rows_text (drop 1 example_rows)) blank_line_world);
    reflexivity.
Defined.

Lemma one_line_app (a b : str) : one_line (a ++ b) = one_line a && one_line b.
Proof. apply forallb_app. Qed.

Lemma one_line_plain (f : str) :
  forallb plain_char f = true -> one_line f = true.
Proof.
  unfold one_line. induction f as [|c f IH]; [reflexivity |]. cbn [forallb].
  rewrite !andb_true_iff. intros [Hc Hf]. split; [| auto].
  destruct (plain_char_facts c Hc) as (_ & Hnl & _). rewrite Hnl. reflexivity.
Qed.

Lemma one_line_row_text_open (row : str * str * str) :
  plain_row row = true -> one_line (row_text_open row) = true.
Proof.
  destruct row as [[a b] c]. unfold plain_row.
  rewrite !andb_true_iff. intros [[Ha Hb] Hc].
  apply plain_field_facts in Ha as (Ha & _), Hb as (Hb & _), Hc as (Hc & _).
  unfold row_text_open. rewrite !one_line_app.
  rewrite (one_line_plain a Ha), (one_line_plain b Hb), (one_line_plain c Hc).
  reflexivity.
Qed.

Lemma universal_newlines_one_line (l rest : str) :
  one_line l = true ->
  universal_newlines (l ++ rest) = l ++ universal_newlines rest.
Proof.
  unfold one_line. induction l as [|c l IH]; [reflexivity |]. cbn [forallb].
  rewrite andb_true_iff, negb_true_iff. intros [Hc Hl].
  unfold csv.is_newline in Hc. apply orb_false_iff in Hc as [_ Hc].
  cbn [app universal_newlines]. rewrite Hc, IH by exact Hl. reflexivity.
Qed.

Lemma one_line_no_LF (l : str) :
  one_line l = true -> forallb (fun c => negb (c =? LF)) l = true.
Proof.
  unfold one_line. induction l as [|c l IH]; [reflexivity |]. cbn [forallb].
  rewrite !andb_true_iff, !negb_true_iff. intros [Hc Hl].
  unfold csv.is_newline in Hc. apply orb_false_iff in Hc as [Hc _]. auto.
Qed.

Lemma splitlines_one_line (l : str) :
  one_line l = true -> l <> [] -> splitlines l = [l].
Proof.
  intros Hl. apply one_line_no_LF in Hl.
  induction l as [|c l IH]; [contradiction |]. intros _.
  cbn [forallb] in Hl. apply andb_true_iff in Hl as [Hc Hl].
  apply negb_true_iff in Hc. cbn [splitlines]. rewrite Hc.
  destruct l as [|c' l]; [reflexivity |].
  rewrite IH by (try assumption; discriminate). reflexivity.
Qed.

Lemma universal_newlines_crlf (rows : list (str * str * str)) :
  forallb plain_row rows = true ->
  universal_newlines (rows_text_crlf rows) = rows_text rows.
Proof.
  unfold rows_text_crlf, rows_text.
  induction rows as [|row rows IH]; intros Hrows; [reflexivity |].
  cbn [forallb] in Hrows. apply andb_true_iff in Hrows as [Hrow Hrows].
  cbn [map concat]. rewrite <- !app_assoc.
  rewrite universal_newlines_one_line by (apply one_line_row_text_open, Hrow).
  cbn [app universal_newlines]. change (CR =? CR) with true.
  change (LF =? LF) with true. cbv iota. rewrite IH by exact Hrows.
  destruct row as [[a b] c]. unfold row_text, format_row, row_text_open.
  rewrite <- !app_assoc. reflexivity.
Qed.

Lemma splitlines_rows (rows : list (str * str * str)) :
  forallb plain_row rows = true ->
  splitlines (rows_text rows) = map row_text rows.
Proof.
  intros Hrows. rewrite <- (app_nil_r (rows_text rows)).
  rewrite splitlines_rows_app by exact Hrows. apply app_nil_r.
Qed.

(** A cache file with the line endings of Windows reads as the same file
    with the line endings of Unix. *)
Theorem read_db_crlf (filename : str) (rows : list (str * str * str))
    (w : world) :
  text_files w !! filename = Some (rows_text_crlf rows) ->
  forallb plain_row rows = true ->
  read_db filename w = (w, Ok (insert_rows rows ∅)).
Proof.
  intros Hfile Hrows. rewrite read_db_cases, Hfile.
  unfold csv.reader_rows, readlines.
  rewrite universal_newlines_crlf, splitlines_rows by exact Hrows.
  rewrite rows_from_plain by exact Hrows. cbn [fst snd].
  rewrite dict_of_rows_fields. reflexivity.
Qed.

Lemma read_db_crlf_witness :
  read_db db_csv crlf_world = (crlf_world, Ok (insert_rows example_rows ∅)).
Proof.
  apply (read_db_crlf db_csv example_rows crlf_world); reflexivity.
Defined.

(** A plain field at the end of a line without a newline. *)
Lemma process_line_field_end (f : str) (fs : list str) :
  plain_field f = true ->
  csv.process_line (csv.Reader csv.START_FIELD fs []) f
  = Ok (csv.Reader csv.START_RECORD (fs ++ [f]) []).
Proof.
  intros Hf. destruct (plain_field_facts f Hf) as (Hplain & Hq & Hlen).
  destruct f as [|c f]; [reflexivity |].
  cbn [forallb] in Hplain. apply andb_true_iff in Hplain as [Hc Hplain].
  destruct (plain_char_facts c Hc) as (Hcomma & Hnl & Hnul & _).
  cbn [starts_with_quote] in Hq. cbn [length] in Hlen.
  cbn [csv.process_line]. rewrite Hnul.
  cbn [csv.parse_process_char csv.state csv.start_field].
  rewrite Hnl, Hq, Hcomma.
  rewrite parse_add_char_ok by (cbn [length]; unfold csv.field_limit; lia).
  unfold csv.set_state. cbn [result_bind csv.state csv.fields csv.field].
  rewrite <- (app_nil_r f) at 1.
  rewrite process_line_in_field by (try assumption; cbn [length]; lia).
  reflexivity.
Qed.

Lemma process_line_row_open (row : str * str * str) :
  plain_row row = true ->
  csv.process_line csv.reset (row_text_open row)
  = Ok (csv.Reader csv.START_RECORD (row_fields row) []).
Proof.
  destruct row as [[a b] c]. unfold plain_row.
  rewrite !andb_true_iff. intros [[Ha Hb] Hc].
  unfold row_text_open, csv.reset.
  change (a ++ [comma] ++ b ++ [comma] ++ c)
    with (a ++ comma :: (b ++ comma :: c)).
  rewrite process_line_field_comma by auto.
  rewrite process_line_field_comma by auto.
  rewrite process_line_field_end by assumption. reflexivity.
Qed.

Lemma row_text_open_not_nil (row : str * str * str) : row_text_open row <> [].
Proof.
  destruct row as [[a b] c]. unfold row_text_open. destruct a; discriminate.
Qed.

(** A cache file whose last row lacks the newline is read all the same,
    the last row with the others. *)
Theorem read_db_open_last_row (filename : str)
    (rows : list (str * str * str)) (row : str * str * str) (w : world) :
  text_files w !! filename = Some (rows_text rows ++ row_text_open row) ->
  forallb plain_row rows = true -> plain_row row = true ->
  read_db filename w = (w, Ok (insert_rows (rows ++ [row]) ∅)).
Proof.
  intros Hfile Hrows Hrow.
  rewrite (read_db_plain_prefix filename rows _ w Hfile Hrows).
  rewrite <- (app_nil_r (row_text_open row)) at 1 2.
  rewrite universal_newlines_one_line by (apply one_line_row_text_open, Hrow).
  cbn [universal_newlines]. rewrite app_nil_r.
  rewrite splitlines_one_line
    by (first [apply one_line_row_text_open, Hrow
              | apply row_text_open_not_nil]).
  cbn [csv.rows_from]. rewrite process_line_row_open by exact Hrow.
  cbn [csv.state csv.is_START_RECORD csv.fields csv.field csv.reset length
       Nat.eqb negb orb csv.is_IN_QUOTED_FIELD fst snd].
  rewrite insert_rows_app. destruct row as [[a b] c]. reflexivity.
Qed.

Lemma read_db_open_last_row_witness :
  read_db db_csv open_row_world
  = (open_row_world,
     Ok (insert_rows
           (take 1 example_rows
            ++ [(pystr "k42r", Transitive, pystr "fefcd78c6c77e2fc")]) ∅)).
Proof.
  apply (read_db_open_last_row db_csv (take 1 example_rows)
           (pystr "k42r", Transitive, pystr "fefcd78c6c77e2fc")
           open_row_world); reflexivity.
Defined.

(** [write_strategy_to_db] does not start a new line: after a last row
    without a newline, the row it appends is glued to that row. Read
    back, the name of the new entry has gone into the hash of the last
    one, and the new entry has no key of its own. *)
Theorem write_strategy_to_db_after_open_row (s : strategy)
    (filename fp n h a b c : str) (rows : list (str * str * str))
    (w : world) :
  text_files w !! filename
  = Some (rows_text rows ++ row_text_open (a, b, c)) ->
  forallb plain_row rows = true -> plain_row (a, b, c) = true ->
  display_name s = Ok n -> hash_strategy s = Ok h ->
  storable n = true -> storable fp = true -> plain_field (c ++ n) = true ->
  exists w',
    write_strategy_to_db s filename fp w = (w', Ok tt)
    /\ read_db filename w'
       = (w', Ok (insert_rows (rows ++ [(a, b, c ++ n)]) ∅)).
Proof.
  intros Hfile Hrows Hrow Hn Hh Hsn Hsfp Hcn.
  unfold storable in Hsn, Hsfp.
  apply andb_true_iff in Hsn as [Hpn Hen], Hsfp as [Hpfp Hefp].
  destruct (hash_strategy_storable s h Hh) as [Hph _].
  unfold plain_row in Hrow. rewrite !andb_true_iff in Hrow.
  destruct Hrow as [[Ha Hb] Hc].
  set (line := a ++ comma :: (b ++ comma :: ((c ++ n) ++ comma
                 :: (fp ++ comma :: h)))).
  assert (row_text_open (a, b, c) ++ row_text (n, fp, h) = line ++ [LF])
    as Hline.
  { unfold line, row_text_open, row_text, format_row.
    repeat (rewrite <- ?app_assoc; cbn [app]). reflexivity. }
  assert (one_line line = true) as Hone.
  { unfold line.
    change (a ++ comma :: (b ++ comma :: ((c ++ n) ++ comma
              :: (fp ++ comma :: h))))
      with (a ++ [comma] ++ b ++ [comma] ++ (c ++ n) ++ [comma] ++ fp
              ++ [comma] ++ h).
    rewrite !one_line_app.
    apply plain_field_facts in Ha as (Ha & _), Hb as (Hb & _),
      Hc as (Hc & _), Hpn as (Hpn & _), Hpfp as (Hpfp & _),
      Hph as (Hph & _).
    rewrite (one_line_plain a Ha), (one_line_plain b Hb),
      (one_line_plain c Hc), (one_line_plain n Hpn),
      (one_line_plain fp Hpfp), (one_line_plain h Hph).
    reflexivity. }
  exists (set_text filename
            (file_text filename w ++ row_text (n, fp, h)) w).
  split; [exact (write_strategy_to_db_row s filename fp n h w Hn Hh Hen Hefp) |].
  rewrite (read_db_plain_prefix filename rows (line ++ [LF])).
  - rewrite universal_newlines_one_line by exact Hone.
    change (universal_newlines [LF]) with [LF].
    rewrite (splitlines_no_LF line []) by (apply one_line_no_LF, Hone).
    cbn [splitlines csv.rows_from]. unfold line, csv.reset.
    change ((a ++ comma :: (b ++ comma :: ((c ++ n) ++ comma
               :: (fp ++ comma :: h)))) ++ [LF])
      with ((a ++ comma :: (b ++ comma :: ((c ++ n) ++ comma
               :: (fp ++ comma :: h)))) ++ [LF]).
    replace ((a ++ comma :: (b ++ comma :: ((c ++ n) ++ comma
                :: (fp ++ comma :: h)))) ++ [LF])
      with (a ++ comma :: (b ++ comma :: ((c ++ n) ++ comma
              :: (fp ++ comma :: (h ++ [LF])))))
      by (repeat (rewrite <- ?app_assoc; cbn [app]); reflexivity).
    rewrite process_line_field_comma by auto.
    rewrite process_line_field_comma by auto.
    rewrite process_line_field_comma by auto.
    rewrite process_line_field_comma by auto.
    rewrite process_line_field_LF by assumption.
    cbn [csv.state csv.is_START_RECORD csv.fields csv.field length
         Nat.eqb negb orb csv.is_IN_QUOTED_FIELD fst snd app dict_of_rows].
    cbn [lookup list_lookup]. rewrite insert_rows_app. reflexivity.
  - cbn [set_text text_files]. rewrite lookup_insert_eq.
    rewrite (file_text_lookup _ _ _ Hfile), <- app_assoc, Hline. reflexivity.
  - exact Hrows.
Qed.

Lemma write_strategy_to_db_after_open_row_witness :
  exists w',
    write_strategy_to_db example_class db_csv Ashlock open_row_world
    = (w', Ok tt)
    /\ read_db db_csv w'
       = (w', Ok (insert_rows
                    (take 1 example_rows
                     ++ [(pystr "k42r", Transitive,
                          pystr "fefcd78c6c77e2fc" ++ pystr "Tit For Tat")])
                    ∅)).
Proof.
  apply (write_strategy_to_db_after_open_row example_class db_csv Ashlock
           (pystr "Tit For Tat") (pystr "b688ffc64fc2d8450c6ce1ce50e463ca")
           (pystr "k42r") Transitive (pystr "fefcd78c6c77e2fc")
           (take 1 example_rows) open_row_world);
    vm_compute; reflexivity.
Defined.

(** ** What [main] does whatever happens *)

Lemma main_effect_refl (w : world) : main_effect w w.
Proof.
  repeat split; auto.
  - exists []. rewrite app_nil_r. auto.
  - exists []. rewrite app_nil_r. reflexivity.
Qed.

Lemma main_effect_trans (w1 w2 w3 : world) :
  main_effect w1 w2 -> main_effect w2 w3 -> main_effect w1 w3.
Proof.
  intros ((c1 & Hc1 & Hk1) & Ha1 & (t1 & Ht1) & He1 & Hf1)
         ((c2 & Hc2 & Hk2) & Ha2 & (t2 & Ht2) & He2 & Hf2).
  repeat split.
  - exists (c1 ++ c2). rewrite Hc2, Hc1, app_assoc. split; [reflexivity |].
    apply Forall_app. auto.
  - intros path. destruct (Ha2 path) as [-> | H]; [apply Ha1 | right; exact H].
  - exists (t1 ++ t2). rewrite Ht2, Ht1, app_assoc. reflexivity.
  - auto.
  - intros filename H1 H2. rewrite Hf2, Hf1 by assumption. reflexivity.
Qed.

Lemma main_effect_set_text (filename text : str) (w : world) :
  (filename = README_md
   \/ (filename = db_csv
       /\ exists appended, text = file_text db_csv w ++ appended)) ->
  main_effect w (set_text filename text w).
Proof.
  intros Hfile. repeat split; cbn [set_text computed artifacts text_files].
  - exists []. rewrite app_nil_r. auto.
  - auto.
  - destruct Hfile as [-> | [-> [appended ->]]].
    + exists []. unfold file_text, set_text. cbn [text_files].
      rewrite lookup_insert_ne by discriminate. rewrite app_nil_r.
      reflexivity.
    + exists appended. apply file_text_set_text.
  - intros Hsome. destruct Hfile as [-> | [-> _]].
    + rewrite lookup_insert_ne by discriminate. exact Hsome.
    + rewrite lookup_insert_eq. eauto.
  - intros other H1 H2. apply lookup_insert_ne.
    destruct Hfile as [-> | [-> _]]; congruence.
Qed.

Lemma main_effect_opened (w : world) :
  main_effect w match text_files w !! db_csv with
                | Some _ => w
                | None => set_text db_csv [] w
                end.
Proof.
  destruct (text_files w !! db_csv) eqn:Hfile; [apply main_effect_refl |].
  apply main_effect_set_text. right. split; [reflexivity |].
  exists []. unfold file_text. rewrite Hfile. reflexivity.
Qed.

Lemma always_effect_write_strategy_to_db (s : strategy) (fp : str) :
  always main_effect (write_strategy_to_db s db_csv fp).
Proof.
  intros w. rewrite write_strategy_to_db_cases.
  destruct (hash_strategy s) as [h|]; [| apply main_effect_refl].
  cbv zeta. destruct (display_name s) as [n|]; [| apply main_effect_opened].
  destruct (encodable (format_row n fp h)); [| apply main_effect_opened].
  apply main_effect_set_text. right. eauto.
Qed.

Lemma main_effect_saved (c : computation) (p1 p2 : str) (w : world) :
  computation_kind c <> Ashlock ->
  main_effect w
    (World (text_files w) (<[p2 := Data c]> (<[p1 := Plot c]> (artifacts w)))
       (computed w ++ [c]))
  /\ main_effect w (World (text_files w) (artifacts w) (computed w ++ [c])).
Proof.
  intros Hc. split; repeat split; cbn [computed artifacts text_files];
    eauto; try (exists []; rewrite app_nil_r; reflexivity).
  intros path. destruct (decide (p2 = path)) as [<- | Hne2].
  - right. exists (Data c). rewrite lookup_insert_eq. auto.
  - rewrite lookup_insert_ne by exact Hne2.
    destruct (decide (p1 = path)) as [<- | Hne1].
    + right. exists (Plot c). rewrite lookup_insert_eq. auto.
    + left. apply lookup_insert_ne, Hne1.
Qed.

Lemma always_effect_obtain_transitive_fingerprint (s : strategy) (t r : Z) :
  always main_effect (obtain_transitive_fingerprint s t r).
Proof.
  intros w. rewrite obtain_transitive_fingerprint_cases.
  destruct (display_name s);
    [apply main_effect_saved | apply (main_effect_saved _ [] [])];
    cbn [computation_kind]; discriminate.
Qed.

Lemma always_effect_obtain_transitive_fingerprint_v_short (s : strategy)
    (t r : Z) :
  always main_effect (obtain_transitive_fingerprint_v_short s t r).
Proof.
  intros w. rewrite obtain_transitive_fingerprint_v_short_cases.
  destruct (display_name s);
    [apply main_effect_saved | apply (main_effect_saved _ [] [])];
    cbn [computation_kind]; discriminate.
Qed.

Lemma always_for_each {A} (R : world -> world -> Prop) (body : A -> M str)
    (xs : list A) :
  (forall w, R w w) -> (forall w1 w2 w3, R w1 w2 -> R w2 w3 -> R w1 w3) ->
  (forall x, always R (body x)) ->
  forall markdown, always R (for_each xs body markdown).
Proof.
  intros Hrefl Htrans Hbody.
  induction xs as [|x xs IH]; intros markdown; cbn [for_each].
  - apply always_ret, Hrefl.
  - apply always_bind; [exact Htrans | apply Hbody | intros section; apply IH].
Qed.

Lemma always_effect_main_read_db : always main_effect main_read_db.
Proof.
  intros w. destruct (text_files w !! db_csv) as [text|] eqn:Hfile.
  - rewrite main_read_db_present by eauto.
    rewrite read_db_cases, Hfile. apply main_effect_refl.
  - rewrite (main_read_db_missing w Hfile).
    apply main_effect_set_text. right. split; [reflexivity |].
    exists []. unfold file_text. rewrite Hfile. reflexivity.
Qed.

Ltac effect_step :=
  lazymatch goal with
  | |- always _ (when _ _) => apply always_when; [apply main_effect_refl |]
  | |- always _ (write_strategy_to_db _ _ _) =>
      apply always_effect_write_strategy_to_db
  | |- always _ (obtain_transitive_fingerprint _ _ _) =>
      apply always_effect_obtain_transitive_fingerprint
  | |- always _ (obtain_transitive_fingerprint_v_short _ _ _) =>
      apply always_effect_obtain_transitive_fingerprint_v_short
  | |- always _ (lift _) => apply always_lift; apply main_effect_refl
  | |- always _ (ret _) => apply always_ret; apply main_effect_refl
  | |- always _ (bind _ _) =>
      apply always_bind; [apply main_effect_trans | | intros ?]
  end.

Lemma always_effect_main (version axlf_version : str)
    (short_run_time_strategies : list strategy) (all_strategies : list str)
    (Player : str -> strategy) (t r tt' tr tvt tvr : Z) :
  always main_effect
    (main version axlf_version short_run_time_strategies all_strategies
       Player t r tt' tr tvt tvr).
Proof.
  unfold main. cbv zeta.
  apply always_bind;
    [apply main_effect_trans | apply always_effect_main_read_db | intros db].
  apply always_bind; [apply main_effect_trans | | intros markdown].
  { apply always_for_each;
      [apply main_effect_refl | apply main_effect_trans |].
    intros s. unfold main_loop_axelrod. repeat effect_step. }
  apply always_bind; [apply main_effect_trans | | intros markdown'].
  { apply always_for_each;
      [apply main_effect_refl | apply main_effect_trans |].
    intros player_name. unfold main_loop_fortran. repeat effect_step. }
  intros w. unfold bind, open_w, write.
  destruct (utf8_bytes markdown'); cbn [fst].
  - rewrite set_text_set_text. apply main_effect_set_text. left. reflexivity.
  - apply main_effect_set_text. left. reflexivity.
Qed.

(** [main] never computes an Ashlock fingerprint and never writes an
    Ashlock artifact, whatever its arguments, the files it finds and its
    outcome: [obtain_fingerprint] is not called. *)
Theorem main_never_obtains_ashlock (version axlf_version : str)
    (short_run_time_strategies : list strategy) (all_strategies : list str)
    (Player : str -> strategy) (t r tt' tr tvt tvr : Z) (w : world) :
  let w' := (main version axlf_version short_run_time_strategies
               all_strategies Player t r tt' tr tvt tvr w).1 in
  (exists fps, computed w' = computed w ++ fps
     /\ Forall (fun c => computation_kind c <> Ashlock) fps)
  /\ (forall path, artifacts w' !! path = artifacts w !! path
        \/ exists a, artifacts w' !! path = Some a
             /\ artifact_kind a <> Ashlock).
Proof.
  intros w'.
  destruct (always_effect_main version axlf_version short_run_time_strategies
              all_strategies Player t r tt' tr tvt tvr w) as (H1 & H2 & _).
  split; assumption.
Qed.

(** Whatever its arguments and its outcome, [main] only appends to the
    cache file: the text the file had stays in front, and an existing
    file is not removed. The only other text file it writes is the
    report, and it removes no artifact. *)
Theorem main_only_appends (version axlf_version : str)
    (short_run_time_strategies : list strategy) (all_strategies : list str)
    (Player : str -> strategy) (t r tt' tr tvt tvr : Z) (w : world) :
  let w' := (main version axlf_version short_run_time_strategies
               all_strategies Player t r tt' tr tvt tvr w).1 in
  (exists appended, file_text db_csv w' = file_text db_csv w ++ appended)
  /\ (is_Some (text_files w !! db_csv) -> is_Some (text_files w' !! db_csv))
  /\ (forall filename, filename <> db_csv -> filename <> README_md ->
        text_files w' !! filename = text_files w !! filename)
  /\ (forall path, is_Some (artifacts w !! path) ->
        is_Some (artifacts w' !! path)).
Proof.
  intros w'. subst w'.
  destruct (always_effect_main version axlf_version short_run_time_strategies
              all_strategies Player t r tt' tr tvt tvr w)
    as (_ & Ha & Ht & He & Hf).
  repeat split; try assumption.
  intros path Hsome. destruct (Ha path) as [-> | (a & -> & _)]; eauto.
Qed.

(** ** Names and keys *)

Lemma insert_rows_other (rows : list (str * str * str)) (k : str * str) :
  forall d : gmap (str * str) str,
    (forall row, In row rows -> (row_binding row).1 <> k) ->
    insert_rows rows d !! k = d !! k.
Proof.
  induction rows as [|[[a b] c] rows IH]; intros d Hrows; [reflexivity |].
  cbn [insert_rows fold_left].
  change (fold_left _ rows ?d') with (insert_rows rows d').
  rewrite IH by (intros row Hrow; apply Hrows; right; exact Hrow).
  apply lookup_insert_ne. exact (Hrows (a, b, c) (or_introl eq_refl)).
Qed.

(** The first loop looks a strategy up under [strategy.name], but
    [write_strategy_to_db] writes its row under [original_name] when the
    strategy has one. For a strategy with an [original_name] other than
    its [name], the iteration returns and leaves the keys of the name as
    they were in the cache file: what was stale stays stale. *)
Theorem main_loop_axelrod_writes_under_original_name (tt' tr tvt tvr : Z)
    (db : gmap (str * str) str) (s : strategy) (n on h : str)
    (rows0 : list (str * str * str)) (w : world) :
  name s = Some n -> original_name s = Some on -> on <> n ->
  hash_strategy s = Ok h -> storable on = true ->
  text_files w !! db_csv = Some (rows_text rows0) ->
  forallb plain_row rows0 = true ->
  exists w' section db',
    main_loop_axelrod tt' tr tvt tvr db s w = (w', Ok section)
    /\ read_db db_csv w' = (w', Ok db')
    /\ (forall fp, db' !! (n, fp) = insert_rows rows0 ∅ !! (n, fp))
    /\ (forall fp, In fp kinds -> db !! (n, fp) <> Some h ->
          db' !! (on, fp) = Some h).
Proof.
  intros Hn Hon Hne Hh Hst Hfile Hplain.
  assert (display_name s = Ok on) as Hdn
    by (unfold display_name; rewrite Hon; reflexivity).
  unfold storable in Hst. apply andb_true_iff in Hst as [Hpon Heon].
  destruct (main_loop_axelrod_extends tt' tr tvt tvr db s n on h w
              Hn Hdn Hh Heon) as (w' & section & Hrun & [Htext _] & _);
    [eauto |].
  rewrite (file_text_lookup _ _ _ Hfile), <- rows_text_app in Htext.
  unfold axelrod_rows in Htext. rewrite Hn, Hdn, Hh in Htext.
  set (rows := map (fun fp => (on, fp, h)) (stale_kinds db n h)) in *.
  assert (forall row, In row rows ->
            exists fp, In fp kinds /\ row = (on, fp, h)) as Hrows.
  { intros row Hrow. apply in_map_iff in Hrow as (fp & <- & Hfp).
    apply stale_kinds_In in Hfp as [Hfp _]. eauto. }
  exists w', section, (insert_rows rows (insert_rows rows0 ∅)).
  split; [exact Hrun |]. split; [| split].
  - rewrite <- insert_rows_app. apply read_db_plain_rows; [exact Htext |].
    rewrite forallb_app, Hplain. apply forallb_forall. intros row Hrow.
    destruct (Hrows row Hrow) as (fp & Hfp & ->).
    unfold plain_row. rewrite Hpon, (proj1 (hash_strategy_storable s h Hh)).
    destruct Hfp as [<- | [<- | [<- | []]]]; reflexivity.
  - intros fp. apply insert_rows_other. intros row Hrow.
    destruct (Hrows row Hrow) as (fp' & _ & ->).
    cbn [row_binding fst]. congruence.
  - intros fp Hfp Hstale. apply insert_rows_lookup.
    + intros row Hrow Hkey. destruct (Hrows row Hrow) as (fp' & _ & ->).
      reflexivity.
    + right. exists (on, fp, h). split; [| reflexivity].
      apply (in_map (fun fp0 => (on, fp0, h))), stale_kinds_In.
      split; [exact Hfp | apply not_in_db_or_changed_true, Hstale].
Qed.

Lemma main_loop_axelrod_writes_under_original_name_witness :
  exists w' section db',
    main_loop_axelrod 200 50 200 50 ∅ example_renamed created_world
    = (w', Ok section)
    /\ read_db db_csv w' = (w', Ok db')
    /\ (forall fp, db' !! (pystr "Tit For Tat", fp)
                   = insert_rows [] ∅ !! (pystr "Tit For Tat", fp))
    /\ (forall fp, In fp kinds ->
          (∅ : gmap (str * str) str) !! (pystr "Tit For Tat", fp)
          <> Some (pystr "f003938e4731e8a213128bf5f07be480") ->
          db' !! (pystr "TFT", fp)
          = Some (pystr "f003938e4731e8a213128bf5f07be480")).
Proof.
  apply (main_loop_axelrod_writes_under_original_name 200 50 200 50 ∅
           example_renamed (pystr "Tit For Tat") (pystr "TFT")
           (pystr "f003938e4731e8a213128bf5f07be480") [] created_world);
    first [discriminate | vm_compute; reflexivity].
Defined.

(** ** Runs of [main] *)

Section runs.

Variables version axlf_version : str.
Variable strategies : list strategy.
Variable all_strategies : list str.
Variable Player : str -> strategy.
Variables t r tt' tr tvt tvr : Z.

(** A run that returns, with the rows it has appended and the cache the
    file then reads as. *)
Lemma main_run_read (w : world) (rows0 : list (str * str * str)) :
  (text_files w !! db_csv = None /\ rows0 = []
   \/ text_files w !! db_csv = Some (rows_text rows0)) ->
  forallb plain_row rows0 = true ->
  Forall cacheable strategies ->
  Forall (fun player_name => hashable_player (Player player_name))
    all_strategies ->
  (strategies <> [] \/ all_strategies = []) ->
  encodable version = true -> encodable axlf_version = true ->
  exists w' rows,
    main version axlf_version strategies all_strategies Player
      t r tt' tr tvt tvr w = (w', Ok tt)
    /\ rows = flat_map (axelrod_rows (cache_of rows0)) strategies
              ++ flat_map (fortran_rows strategies Player (cache_of rows0))
                   all_strategies
    /\ (forall row, In row rows -> row_of_strategies strategies row)
    /\ forallb plain_row (rows0 ++ rows) = true
    /\ text_files w' !! db_csv = Some (rows_text (rows0 ++ rows))
    /\ read_db db_csv w' = (w', Ok (insert_rows rows (cache_of rows0)))
    /\ computed w'
       = computed w
         ++ flat_map (axelrod_fingerprints tt' tr tvt tvr (cache_of rows0))
              strategies
         ++ flat_map (fortran_fingerprints strategies Player tt' tr
                        (cache_of rows0)) all_strategies.
Proof.
  intros Hfile Hplain Hstrategies Hplayers Hnonempty Hv Ha.
  destruct (main_run version axlf_version strategies all_strategies Player
              t r tt' tr tvt tvr w rows0 Hfile Hplain Hstrategies Hplayers
              Hnonempty Hv Ha) as (w' & Hrun & Htext & Hcomp).
  unfold cache_of.
  set (db := insert_rows rows0 ∅) in *.
  set (rows := flat_map (axelrod_rows db) strategies
               ++ flat_map (fortran_rows strategies Player db) all_strategies)
    in *.
  assert (forall row, In row rows -> row_of_strategies strategies row)
    as Hrows.
  { intros row Hrow. apply in_app_or in Hrow as [Hrow | Hrow];
      apply in_flat_map in Hrow as (x & Hx & Hrow).
    - rewrite List.Forall_forall in Hstrategies.
      exact (axelrod_rows_of_strategies db strategies x row Hx
               (Hstrategies x Hx) Hrow).
    - exact (fortran_rows_of_strategies db strategies Player x row
               Hstrategies Hrow). }
  assert (forallb plain_row (rows0 ++ rows) = true) as Hall.
  { rewrite forallb_app, Hplain.
    exact (forallb_plain_rows strategies rows Hrows). }
  exists w', rows. repeat split; try assumption.
  unfold db. rewrite <- insert_rows_app.
  apply read_db_plain_rows; assumption.
Qed.

End runs.

(** The second loop never writes a row for a player. After a run that
    returns, the cache file binds the keys of a name that no strategy of
    the first loop has exactly as before: a Fortran player with such a
    name that was stale is stale again in the next run. *)
Theorem main_never_caches_players (version axlf_version : str)
    (strategies : list strategy) (all_strategies : list str)
    (Player : str -> strategy) (t r tt' tr tvt tvr : Z) (w : world)
    (rows0 : list (str * str * str)) :
  (text_files w !! db_csv = None /\ rows0 = []
   \/ text_files w !! db_csv = Some (rows_text rows0)) ->
  forallb plain_row rows0 = true ->
  Forall cacheable strategies ->
  Forall (fun player_name => hashable_player (Player player_name))
    all_strategies ->
  (strategies <> [] \/ all_strategies = []) ->
  encodable version = true -> encodable axlf_version = true ->
  exists w' db',
    main version axlf_version strategies all_strategies Player
      t r tt' tr tvt tvr w = (w', Ok tt)
    /\ read_db db_csv w' = (w', Ok db')
    /\ forall pn,
         (forall s, In s strategies -> name s <> Some pn) ->
         forall fp ph,
           db' !! (pn, fp) = cache_of rows0 !! (pn, fp)
           /\ not_in_db_or_changed db' pn fp ph
              = not_in_db_or_changed (cache_of rows0) pn fp ph.
Proof.
  intros Hfile Hplain Hstrategies Hplayers Hnonempty Hv Ha.
  destruct (main_run_read version axlf_version strategies all_strategies
              Player t r tt' tr tvt tvr w rows0 Hfile Hplain Hstrategies
              Hplayers Hnonempty Hv Ha)
    as (w' & rows & Hrun & _ & Hrows & _ & _ & Hread & _).
  exists w', (insert_rows rows (cache_of rows0)).
  split; [exact Hrun |]. split; [exact Hread |].
  intros pn Hfresh fp ph.
  assert (insert_rows rows (cache_of rows0) !! (pn, fp)
          = cache_of rows0 !! (pn, fp)) as Hsame.
  { apply insert_rows_other. intros row Hrow.
    destruct (Hrows row Hrow) as (s & n & h & fp' & Hs & Hn & _ & _ & _ & _ & ->).
    cbn [row_binding fst]. intros [= -> ->]. exact (Hfresh s Hs Hn). }
  split; [exact Hsame |]. unfold not_in_db_or_changed. rewrite Hsame.
  reflexivity.
Qed.

Lemma main_never_caches_players_witness :
  exists w' db',
    main (pystr "4.0.0") (pystr "0.4.6") [example_class] [pystr "k42r"]
      example_Player 200 50 200 50 200 50 empty_world = (w', Ok tt)
    /\ read_db db_csv w' = (w', Ok db')
    /\ db' !! (pystr "k42r", Transitive)
       = cache_of [] !! (pystr "k42r", Transitive).
Proof.
  destruct (main_never_caches_players (pystr "4.0.0") (pystr "0.4.6")
              [example_class] [pystr "k42r"] example_Player
              200 50 200 50 200 50 empty_world [])
    as (w' & db' & Hrun & Hread & Hplayers).
  - left. split; reflexivity.
  - reflexivity.
  - constructor; [| constructor].
    exists (pystr "Tit For Tat"), (pystr "b688ffc64fc2d8450c6ce1ce50e463ca").
    repeat split; vm_compute; reflexivity.
  - constructor; [| constructor].
    exists (pystr "k42r"), (pystr "fefcd78c6c77e2fcab5cddd4ddaa340e").
    split; vm_compute; reflexivity.
  - left. discriminate.
  - reflexivity.
  - reflexivity.
  - exists w', db'. split; [exact Hrun |]. split; [exact Hread |].
    refine (proj1 (Hplayers (pystr "k42r") _ Transitive [])).
    intros s [<- | []]. discriminate.
Defined.

(** ** The second loop without a first one *)

(** With no strategy in the first loop the variable [strategy] is unbound
    in the second: whether the player is stale or not, the iteration
    raises [NameError] and changes nothing. *)
Lemma main_loop_fortran_unbound (Player : str -> strategy) (tt' tr : Z)
    (db : gmap (str * str) str) (player_name pn h : str) (w : world) :
  original_name (Player player_name) = Some pn ->
  hash_strategy (Player player_name) = Ok h ->
  main_loop_fortran [] Player tt' tr db player_name w = (w, Raise NameError).
Proof.
  intros Hn Hh. unfold main_loop_fortran, bind, lift, when.
  rewrite Hn, Hh. cbn [getattr]. unfold strategy_after_loop. cbn [last].
  destruct (not_in_db_or_changed db pn Ashlock h); [reflexivity |].
  unfold ret.
  destruct (not_in_db_or_changed db pn Transitive h); [reflexivity |].
  destruct (not_in_db_or_changed db pn Transitive_v_short h); reflexivity.
Qed.

(** When [axl.short_run_time_strategies] is empty and the first Fortran
    player has an [original_name] and can be hashed, [main] raises
    [NameError] at that player, whatever the cache says about it: the
    second loop uses the variable [strategy] of the first. The cache file
    has been created when it was missing; nothing else has changed, and
    [README.md] is not written. *)
Theorem main_unbound_strategy (version axlf_version : str)
    (Player : str -> strategy) (t r tt' tr tvt tvr : Z)
    (player_name : str) (rest : list str) (pn h : str) (w : world) :
  (text_files w !! db_csv = None
   \/ exists db, read_db db_csv w = (w, Ok db)) ->
  original_name (Player player_name) = Some pn ->
  hash_strategy (Player player_name) = Ok h ->
  main version axlf_version [] (player_name :: rest) Player
    t r tt' tr tvt tvr w
  = (match text_files w !! db_csv with
     | None => set_text db_csv [] w
     | Some _ => w
     end, Raise NameError).
Proof.
  intros Hfile Hn Hh. unfold main.
  assert (exists db,
            main_read_db w
            = (match text_files w !! db_csv with
               | None => set_text db_csv [] w
               | Some _ => w
               end, Ok db)) as [db Hread].
  { destruct Hfile as [Hfile | [db Hread]].
    - exists ∅. rewrite Hfile. exact (main_read_db_missing w Hfile).
    - exists db. destruct (text_files w !! db_csv) as [text|] eqn:Hfile.
      + rewrite main_read_db_present by (rewrite Hfile; eauto). exact Hread.
      + rewrite read_db_cases, Hfile in Hread. discriminate. }
  rewrite (bind_ok _ _ _ _ _ Hread). cbn [for_each]. unfold bind at 1, ret.
  unfold bind at 1. cbn [for_each]. unfold bind at 1.
  rewrite (main_loop_fortran_unbound Player tt' tr db player_name pn h _ Hn Hh).
  reflexivity.
Qed.

Lemma main_unbound_strategy_witness :
  main (pystr "4.0.0") (pystr "0.4.6") [] [pystr "k42r"] example_Player
    200 50 200 50 200 50 empty_world
  = (created_world, Raise NameError).
Proof.
  apply (main_unbound_strategy (pystr "4.0.0") (pystr "0.4.6") example_Player
           200 50 200 50 200 50 (pystr "k42r") [] (pystr "k42r")
           (pystr "fefcd78c6c77e2fcab5cddd4ddaa340e") empty_world).
  - left. reflexivity.
  - reflexivity.
  - vm_compute. reflexivity.
Defined.

(** ** A second run *)

Lemma flat_map_nil {A B} (f : A -> list B) (l : list A) :
  (forall x, In x l -> f x = []) -> flat_map f l = [].
Proof.
  induction l as [|x l IH]; intros H; [reflexivity |].
  cbn [flat_map]. rewrite (H x (or_introl eq_refl)), IH; [reflexivity |].
  intros y Hy. apply H. right. exact Hy.
Qed.

Lemma stale_kinds_nil (db : gmap (str * str) str) (n h : str) :
  (forall fp, In fp kinds -> db !! (n, fp) = Some h) ->
  stale_kinds db n h = [].
Proof.
  intros Hdb. destruct (stale_kinds db n h) as [|fp l] eqn:Hstale;
    [reflexivity |].
  assert (In fp (stale_kinds db n h)) as Hfp
    by (rewrite Hstale; left; reflexivity).
  apply stale_kinds_In in Hfp as [Hkind Hchanged].
  apply not_in_db_or_changed_true in Hchanged.
  contradiction (Hchanged (Hdb fp Hkind)).
Qed.

(** On a cache that binds every strategy and kind to the fresh hash the
    first loop appends no row and computes no fingerprint. *)
Lemma first_loop_up_to_date (tt' tr tvt tvr : Z) (db : gmap (str * str) str)
    (strategies : list strategy) :
  (forall s n h fp, In s strategies -> name s = Some n ->
     hash_strategy s = Ok h -> In fp kinds -> db !! (n, fp) = Some h) ->
  flat_map (axelrod_rows db) strategies = []
  /\ flat_map (axelrod_fingerprints tt' tr tvt tvr db) strategies = [].
Proof.
  intros Hdb. split; apply flat_map_nil; intros s Hs.
  - unfold axelrod_rows. destruct (name s) as [n|] eqn:Hn; [| reflexivity].
    destruct (display_name s) as [dn|]; [| reflexivity].
    destruct (hash_strategy s) as [h|] eqn:Hh; [| reflexivity].
    rewrite stale_kinds_nil; [reflexivity |].
    intros fp Hfp. exact (Hdb s n h fp Hs Hn Hh Hfp).
  - unfold axelrod_fingerprints.
    destruct (name s) as [n|] eqn:Hn; [| reflexivity].
    destruct (hash_strategy s) as [h|] eqn:Hh; [| reflexivity].
    assert (forall fp, In fp kinds -> not_in_db_or_changed db n fp h = false)
      as Hfresh.
    { intros fp Hfp. apply not_in_db_or_changed_false.
      exact (Hdb s n h fp Hs Hn Hh Hfp). }
    rewrite !Hfresh by (cbn; auto). reflexivity.
Qed.

(** The cache after the rows of a run binds every strategy of the first
    loop and every kind to the fresh hash. *)
Lemma rows_up_to_date (strategies : list strategy) (all_strategies : list str)
    (Player : str -> strategy) (db : gmap (str * str) str)
    (s : strategy) (n h fp : str) :
  Forall cacheable strategies ->
  (forall s1 s2, In s1 strategies -> In s2 strategies ->
     name s1 = name s2 -> hash_strategy s1 = hash_strategy s2) ->
  In s strategies -> name s = Some n -> hash_strategy s = Ok h ->
  In fp kinds ->
  insert_rows
    (flat_map (axelrod_rows db) strategies
     ++ flat_map (fortran_rows strategies Player db) all_strategies) db
  !! (n, fp) = Some h.
Proof.
  intros Hstrategies Hunique Hs Hn Hh Hfp.
  assert (display_name s = Ok n) as Hdn.
  { rewrite List.Forall_forall in Hstrategies.
    destruct (Hstrategies s Hs) as (n' & _ & Hn' & Hdn' & _). congruence. }
  apply insert_rows_lookup.
  - intros row Hrow Hkey.
    assert (row_of_strategies strategies row) as Hof.
    { apply in_app_or in Hrow as [Hrow | Hrow];
        apply in_flat_map in Hrow as (x & Hx & Hrow).
      - rewrite List.Forall_forall in Hstrategies.
        exact (axelrod_rows_of_strategies db strategies x row Hx
                 (Hstrategies x Hx) Hrow).
      - exact (fortran_rows_of_strategies db strategies Player x row
                 Hstrategies Hrow). }
    destruct Hof as (s' & n' & h' & fp' & Hs' & Hn' & _ & Hh' & _ & _ & ->).
    cbn [row_binding fst snd] in *. injection Hkey as -> ->.
    assert (hash_strategy s' = hash_strategy s) as Heq
      by (apply Hunique; congruence).
    congruence.
  - destruct (not_in_db_or_changed db n fp h) eqn:Hstale.
    + right. exists (n, fp, h). split; [| reflexivity].
      apply in_or_app. left. apply in_flat_map. exists s.
      split; [exact Hs |]. unfold axelrod_rows. rewrite Hn, Hdn, Hh.
      apply (in_map (fun fp0 => (n, fp0, h))), stale_kinds_In. auto.
    + left. apply not_in_db_or_changed_false, Hstale.
Qed.

(** [main] run a second time, on the world the first run left: the first
    loop appends no row and computes no fingerprint; what the second run
    appends and computes is what the second loop does for the Fortran
    players that the cache of the first run leaves stale. *)
Theorem main_second_run (version axlf_version : str)
    (strategies : list strategy) (all_strategies : list str)
    (Player : str -> strategy) (t r tt' tr tvt tvr : Z) (w : world)
    (rows0 : list (str * str * str)) :
  (text_files w !! db_csv = None /\ rows0 = []
   \/ text_files w !! db_csv = Some (rows_text rows0)) ->
  forallb plain_row rows0 = true ->
  Forall cacheable strategies ->
  (forall s1 s2, In s1 strategies -> In s2 strategies ->
     name s1 = name s2 -> hash_strategy s1 = hash_strategy s2) ->
  Forall (fun player_name => hashable_player (Player player_name))
    all_strategies ->
  (strategies <> [] \/ all_strategies = []) ->
  encodable version = true -> encodable axlf_version = true ->
  exists w1 db1 w2,
    main version axlf_version strategies all_strategies Player
      t r tt' tr tvt tvr w = (w1, Ok tt)
    /\ read_db db_csv w1 = (w1, Ok db1)
    /\ main version axlf_version strategies all_strategies Player
         t r tt' tr tvt tvr w1 = (w2, Ok tt)
    /\ computed w2
       = computed w1
         ++ flat_map (fortran_fingerprints strategies Player tt' tr db1)
              all_strategies
    /\ file_text db_csv w2
       = file_text db_csv w1
         ++ rows_text (flat_map (fortran_rows strategies Player db1)
                         all_strategies).
Proof.
  intros Hfile Hplain Hstrategies Hunique Hplayers Hnonempty Hv Ha.
  destruct (main_run_read version axlf_version strategies all_strategies
              Player t r tt' tr tvt tvr w rows0 Hfile Hplain Hstrategies
              Hplayers Hnonempty Hv Ha)
    as (w1 & rows & Hrun1 & Hrows & _ & Hplain1 & Htext1 & Hread1 & _).
  destruct (main_run_read version axlf_version strategies all_strategies
              Player t r tt' tr tvt tvr w1 (rows0 ++ rows)
              (or_intror Htext1) Hplain1 Hstrategies Hplayers Hnonempty
              Hv Ha)
    as (w2 & rows2 & Hrun2 & Hrows2 & _ & _ & Htext2 & _ & Hcomp2).
  assert (cache_of (rows0 ++ rows) = insert_rows rows (cache_of rows0))
    as Hdb1 by apply insert_rows_app.
  rewrite Hdb1 in Hrows2, Hcomp2.
  destruct (first_loop_up_to_date tt' tr tvt tvr
              (insert_rows rows (cache_of rows0)) strategies)
    as [Hno_rows Hno_fps].
  { intros s n h fp Hs Hn Hh Hfp. rewrite Hrows.
    exact (rows_up_to_date strategies all_strategies Player (cache_of rows0)
             s n h fp Hstrategies Hunique Hs Hn Hh Hfp). }
  rewrite Hno_rows in Hrows2. rewrite Hno_fps in Hcomp2.
  cbn [app] in Hrows2, Hcomp2. subst rows2.
  exists w1, (insert_rows rows (cache_of rows0)), w2.
  split; [exact Hrun1 |]. split; [exact Hread1 |]. split; [exact Hrun2 |].
  split; [exact Hcomp2 |].
  unfold file_text. rewrite Htext2, Htext1. cbn [default].
  apply rows_text_app.
Qed.

Lemma main_second_run_witness :
  exists w1 db1 w2,
    main (pystr "4.0.0") (pystr "0.4.6") [example_class] [pystr "k42r"]
      example_Player 200 50 200 50 200 50 empty_world = (w1, Ok tt)
    /\ read_db db_csv w1 = (w1, Ok db1)
    /\ main (pystr "4.0.0") (pystr "0.4.6") [example_class] [pystr "k42r"]
         example_Player 200 50 200 50 200 50 w1 = (w2, Ok tt)
    /\ computed w2
       = computed w1
         ++ flat_map (fortran_fingerprints [example_class] example_Player
                        200 50 db1) [pystr "k42r"]
    /\ file_text db_csv w2
       = file_text db_csv w1
         ++ rows_text (flat_map (fortran_rows [example_class] example_Player
                                   db1) [pystr "k42r"]).
Proof.
  apply (main_second_run (pystr "4.0.0") (pystr "0.4.6") [example_class]
           [pystr "k42r"] example_Player 200 50 200 50 200 50 empty_world []).
  - left. split; reflexivity.
  - reflexivity.
  - constructor; [| constructor].
    exists (pystr "Tit For Tat"), (pystr "b688ffc64fc2d8450c6ce1ce50e463ca").
    repeat split; vm_compute; reflexivity.
  - intros s1 s2 [<- | []] [<- | []] _. reflexivity.
  - constructor; [| constructor].
    exists (pystr "k42r"), (pystr "fefcd78c6c77e2fcab5cddd4ddaa340e").
    split; vm_compute; reflexivity.
  - left. discriminate.
  - reflexivity.
  - reflexivity.
Defined.

(** ** The report *)

Lemma bind_inv {A B} (m : M A) (k : A -> M B) (w w' : world) (b : B) :
  bind m k w = (w', Ok b) ->
  exists w1 a, m w = (w1, Ok a) /\ k a w1 = (w', Ok b).
Proof.
  unfold bind. destruct (m w) as [w1 [a|e]]; [eauto | discriminate].
Qed.

Lemma lift_inv {A} (r : result A) (w w' : world) (a : A) :
  lift r w = (w', Ok a) -> r = Ok a.
Proof. unfold lift. congruence. Qed.

Ltac bind_invert H :=
  repeat (let w1 := fresh "w" in
          let a := fresh "a" in
          let Hm := fresh "Hm" in
          apply bind_inv in H as (w1 & a & Hm & H)).

Lemma main_loop_axelrod_section (tt' tr tvt tvr : Z)
    (db : gmap (str * str) str) (s : strategy) (w w' : world) (section : str) :
  main_loop_axelrod tt' tr tvt tvr db s w = (w', Ok section) ->
  section = section_of s.
Proof.
  unfold main_loop_axelrod. intros H. bind_invert H.
  apply lift_inv in H. unfold section_of. rewrite H. reflexivity.
Qed.

Lemma main_loop_fortran_section (strategies : list strategy)
    (Player : str -> strategy) (tt' tr : Z) (db : gmap (str * str) str)
    (player_name : str) (w w' : world) (section : str) :
  main_loop_fortran strategies Player tt' tr db player_name w
  = (w', Ok section) ->
  section = from_option section_of [] (last strategies).
Proof.
  unfold main_loop_fortran. intros H. bind_invert H.
  apply lift_inv in H.
  match goal with
  | Hs : lift (strategy_after_loop _) _ = (_, Ok ?s) |- _ =>
      apply lift_inv in Hs; unfold strategy_after_loop in Hs;
      destruct (last strategies) as [s'|]; [| discriminate];
      injection Hs as ->
  end.
  cbn [from_option]. unfold section_of. rewrite H. reflexivity.
Qed.

Lemma for_each_markdown {A} (body : A -> M str) (f : A -> str)
    (xs : list A) :
  (forall x w w' section, body x w = (w', Ok section) -> section = f x) ->
  forall markdown w w' result,
    for_each xs body markdown w = (w', Ok result) ->
    result = markdown ++ concat (map f xs).
Proof.
  intros Hbody. induction xs as [|x xs IH]; intros markdown w w' result H.
  - cbn in H. injection H as _ <-. rewrite app_nil_r. reflexivity.
  - cbn [for_each] in H. apply bind_inv in H as (w1 & section & Hx & H).
    apply IH in H. rewrite (Hbody _ _ _ _ Hx) in H.
    cbn [map concat]. rewrite app_assoc. exact H.
Qed.

(** Whenever [main] returns, [README.md] holds the report and nothing
    else, whatever it held before: the head, one section for each strategy
    of the first loop, in order, the heading of the second part, and then
    for each Fortran player a copy of the section of the last strategy of
    the first loop. No section names a Fortran player. *)
Lemma main_writes_report (version axlf_version : str)
    (strategies : list strategy) (all_strategies : list str)
    (Player : str -> strategy) (t r tt' tr tvt tvr : Z) (w w' : world) :
  main version axlf_version strategies all_strategies Player
    t r tt' tr tvt tvr w = (w', Ok tt) ->
  text_files w' !! README_md
  = Some (report version axlf_version t r strategies all_strategies).
Proof.
  unfold main. intros H.
  apply bind_inv in H as (w0 & db & _ & H).
  apply bind_inv in H as (w1 & md1 & Hloop1 & H).
  apply bind_inv in H as (w2 & md2 & Hloop2 & H).
  apply (for_each_markdown _ section_of) in Hloop1;
    [| intros ? ? ? ?; apply main_loop_axelrod_section].
  apply (for_each_markdown _
           (fun _ => from_option section_of [] (last strategies))) in Hloop2;
    [| intros ? ? ? ?; apply main_loop_fortran_section].
  unfold bind, open_w, write in H.
  destruct (utf8_bytes md2); [| discriminate]. injection H as <-.
  cbn [set_text text_files]. rewrite lookup_insert_eq.
  change (pystr "README.md") with README_md. rewrite lookup_insert_eq.
  cbn [default app]. f_equal. subst md2 md1. unfold report, fortran_heading.
  rewrite <- !app_assoc. reflexivity.
Qed.

(** When the cache file is missing or holds plain rows, the strategies are
    cacheable and the players can be hashed, [main] returns and
    [README.md] is the report: a section for each strategy of the first
    loop and, under the second heading, one copy of the last strategy's
    section for each Fortran player. *)
Theorem main_report (version axlf_version : str)
    (strategies : list strategy) (all_strategies : list str)
    (Player : str -> strategy) (t r tt' tr tvt tvr : Z) (w : world)
    (rows0 : list (str * str * str)) :
  (text_files w !! db_csv = None /\ rows0 = []
   \/ text_files w !! db_csv = Some (rows_text rows0)) ->
  forallb plain_row rows0 = true ->
  Forall cacheable strategies ->
  Forall (fun player_name => hashable_player (Player player_name))
    all_strategies ->
  (strategies <> [] \/ all_strategies = []) ->
  encodable version = true -> encodable axlf_version = true ->
  exists w',
    main version axlf_version strategies all_strategies Player
      t r tt' tr tvt tvr w = (w', Ok tt)
    /\ text_files w' !! README_md
       = Some (report version axlf_version t r strategies all_strategies).
Proof.
  intros Hfile Hplain Hstrategies Hplayers Hnonempty Hv Ha.
  destruct (main_run version axlf_version strategies all_strategies Player
              t r tt' tr tvt tvr w rows0 Hfile Hplain Hstrategies Hplayers
              Hnonempty Hv Ha) as (w' & Hrun & _).
  exists w'. split; [exact Hrun |].
  exact (main_writes_report _ _ _ _ _ _ _ _ _ _ _ _ _ Hrun).
Qed.

Lemma main_report_witness :
  exists w',
    main (pystr "4.0.0") (pystr "0.4.6") [example_class] [pystr "k42r"]
      example_Player 200 50 200 50 200 50 empty_world = (w', Ok tt)
    /\ text_files w' !! README_md
       = Some (report (pystr "4.0.0") (pystr "0.4.6") 200 50 [example_class]
                 [pystr "k42r"]).
Proof.
  apply (main_report (pystr "4.0.0") (pystr "0.4.6") [example_class]
           [pystr "k42r"] example_Player 200 50 200 50 200 50 empty_world []).
  - left. split; reflexivity.
  - reflexivity.
  - constructor; [| constructor].
    exists (pystr "Tit For Tat"), (pystr "b688ffc64fc2d8450c6ce1ce50e463ca").
    repeat split; vm_compute; reflexivity.
  - constructor; [| constructor].
    exists (pystr "k42r"), (pystr "fefcd78c6c77e2fcab5cddd4ddaa340e").
    split; vm_compute; reflexivity.
  - left. discriminate.
  - reflexivity.
  - reflexivity.
Defined.

(** ** The links of a section *)

Lemma starts_self (l m : str) : starts l (l ++ m).
Proof. exists m. reflexivity. Qed.

Lemma starts_app (x l m : str) : starts l m -> starts (x ++ l) (x ++ m).
Proof. intros [after ->]. exists after. apply app_assoc. Qed.

Lemma within_here (l m : str) : starts l m -> within l m.
Proof. intros [after ->]. exists [], after. reflexivity. Qed.

Lemma within_app (x l m : str) : within l m -> within l (x ++ m).
Proof.
  intros (before & after & ->). exists (x ++ before), after.
  rewrite <- app_assoc. reflexivity.
Qed.

Lemma within_cons (c : Z) (l m : str) : within l m -> within l (c :: m).
Proof.
  intros (before & after & ->). exists (c :: before), after. reflexivity.
Qed.

Ltac find_within :=
  repeat first
    [ solve [apply within_here;
             repeat first [apply starts_self | apply starts_app]]
    | apply within_app
    | apply within_cons ].

(** The section of a strategy links the six files that the three
    [obtain_*] functions save for it, each as [(./assets/...)]: the file
    names of the report and of the artifacts are made from the same name
    by [format_filename]. *)
Theorem write_markdown_links_assets (s : strategy) (n : str) :
  display_name s = Ok n ->
  exists markdown,
    write_markdown s = Ok markdown
    /\ Forall (fun path => linked path markdown) (assets_of n).
Proof.
  intros Hn. unfold write_markdown. rewrite Hn. cbn [result_bind].
  eexists. split; [reflexivity |].
  unfold assets_of, asset, linked.
  generalize (format_filename n). intros file. cbn [join].
  change (pystr "](./assets/")
    with (pystr "]" ++ pystr "(./" ++ pystr "assets/").
  change (pystr "](./assets/transitive_")
    with (pystr "]" ++ pystr "(./" ++ pystr "assets/" ++ pystr "transitive_").
  change (pystr " against short run time](./assets/transitive_v_short_")
    with (pystr " against short run time]" ++ pystr "(./" ++ pystr "assets/"
          ++ pystr "transitive_v_short_").
  change (pystr "[data (csv)](./assets/")
    with (pystr "[data (csv)]" ++ pystr "(./" ++ pystr "assets/").
  change (pystr "[data (csv)](./assets/transitive_")
    with (pystr "[data (csv)]" ++ pystr "(./" ++ pystr "assets/"
          ++ pystr "transitive_").
  change (pystr "[data (csv)](./assets/transitive_v_short_")
    with (pystr "[data (csv)]" ++ pystr "(./" ++ pystr "assets/"
          ++ pystr "transitive_v_short_").
  change (pystr ".png)") with (pystr ".png" ++ pystr ")").
  change (pystr ".csv)") with (pystr ".csv" ++ pystr ")").
  repeat match goal with |- Forall _ _ => constructor end.
  all: cbn beta; cbn [app]; rewrite <- !app_assoc; find_within.
Qed.

Lemma write_markdown_links_assets_witness :
  exists markdown,
    write_markdown example_class = Ok markdown
    /\ Forall (fun path => linked path markdown)
         (assets_of (pystr "Tit For Tat")).
Proof.
  apply (write_markdown_links_assets example_class (pystr "Tit For Tat")).
  reflexivity.
Defined.
